(** * Peer-side chaincode session handler (openchain/chaincode/handler.go)

    A shallow embedding of the handler: its tables, its crypto mediator, the
    read and write actions, the FSM callbacks, [HandleMessage] and
    [filterError], followed by the properties of the specification.

    Conventions of the embedding.
    - A Go [[]byte] and a Go [string] are both a [string] (a byte sequence);
      a nil slice and an empty one are not told apart.
    - A Go pointer or interface that may be nil is an [option]; reading a
      field through a nil pointer is the outcome [Panic].
    - A Go map that may be nil (the handler's tables are allocated when the
      handler is registered) is an [option (gmap _ _)].
    - A goroutine started with [go func() {...}()] is a [Task] pushed on the
      list [spawned]; [run_task] is its body.  Tasks run one at a time, so the
      handler mutex is not modelled.
    - Logging calls are dropped, except that the arguments they evaluate are
      kept where evaluating them can fail. *)

From stdpp Require Import gmap strings list pretty.

#[local] Set Warnings "-register-all".

Local Open Scope string_scope.
Local Open Scope list_scope.

(** ** Wire types (package pb, imported by handler.go) *)

(** Modelled from the spec: the protobuf package [pb] is not under src/;
    the message types are the rows of the table of section 6, with the
    names [Type.String()] prints. *)
Inductive ChaincodeMessage_Type : Set :=
| ChaincodeMessage_REGISTER
| ChaincodeMessage_REGISTERED
| ChaincodeMessage_INIT
| ChaincodeMessage_READY
| ChaincodeMessage_TRANSACTION
| ChaincodeMessage_QUERY
| ChaincodeMessage_PUT_STATE
| ChaincodeMessage_DEL_STATE
| ChaincodeMessage_INVOKE_CHAINCODE
| ChaincodeMessage_INVOKE_QUERY
| ChaincodeMessage_GET_STATE
| ChaincodeMessage_RANGE_QUERY_STATE
| ChaincodeMessage_RANGE_QUERY_STATE_NEXT
| ChaincodeMessage_RANGE_QUERY_STATE_CLOSE
| ChaincodeMessage_RESPONSE
| ChaincodeMessage_ERROR
| ChaincodeMessage_COMPLETED
| ChaincodeMessage_QUERY_COMPLETED
| ChaincodeMessage_QUERY_ERROR.

#[global] Instance ChaincodeMessage_Type_eq_dec : EqDecision ChaincodeMessage_Type.
Proof. solve_decision. Defined.

Definition Type_String (t : ChaincodeMessage_Type) : string :=
  match t with
  | ChaincodeMessage_REGISTER => "REGISTER"
  | ChaincodeMessage_REGISTERED => "REGISTERED"
  | ChaincodeMessage_INIT => "INIT"
  | ChaincodeMessage_READY => "READY"
  | ChaincodeMessage_TRANSACTION => "TRANSACTION"
  | ChaincodeMessage_QUERY => "QUERY"
  | ChaincodeMessage_PUT_STATE => "PUT_STATE"
  | ChaincodeMessage_DEL_STATE => "DEL_STATE"
  | ChaincodeMessage_INVOKE_CHAINCODE => "INVOKE_CHAINCODE"
  | ChaincodeMessage_INVOKE_QUERY => "INVOKE_QUERY"
  | ChaincodeMessage_GET_STATE => "GET_STATE"
  | ChaincodeMessage_RANGE_QUERY_STATE => "RANGE_QUERY_STATE"
  | ChaincodeMessage_RANGE_QUERY_STATE_NEXT => "RANGE_QUERY_STATE_NEXT"
  | ChaincodeMessage_RANGE_QUERY_STATE_CLOSE => "RANGE_QUERY_STATE_CLOSE"
  | ChaincodeMessage_RESPONSE => "RESPONSE"
  | ChaincodeMessage_ERROR => "ERROR"
  | ChaincodeMessage_COMPLETED => "COMPLETED"
  | ChaincodeMessage_QUERY_COMPLETED => "QUERY_COMPLETED"
  | ChaincodeMessage_QUERY_ERROR => "QUERY_ERROR"
  end.

Record ChaincodeMessage : Set := mkMsg {
  Type_ : ChaincodeMessage_Type;
  Payload : string;
  Uuid : string
}.

#[global] Instance ChaincodeMessage_eq_dec : EqDecision ChaincodeMessage.
Proof. solve_decision. Defined.

(** Modelled from the spec: [pb.Transaction_Type] is not under src/.  The
    source names CHAINCODE_NEW (the spec's DEPLOY), CHAINCODE_EXECUTE and
    CHAINCODE_QUERY; the remaining members stand for "any other type". *)
Inductive Transaction_Type : Set :=
| Transaction_UNDEFINED
| Transaction_CHAINCODE_NEW
| Transaction_CHAINCODE_UPDATE
| Transaction_CHAINCODE_EXECUTE
| Transaction_CHAINCODE_QUERY
| Transaction_CHAINCODE_TERMINATE.

#[global] Instance Transaction_Type_eq_dec : EqDecision Transaction_Type.
Proof. solve_decision. Defined.

Definition Transaction_Type_String (t : Transaction_Type) : string :=
  match t with
  | Transaction_UNDEFINED => "UNDEFINED"
  | Transaction_CHAINCODE_NEW => "CHAINCODE_NEW"
  | Transaction_CHAINCODE_UPDATE => "CHAINCODE_UPDATE"
  | Transaction_CHAINCODE_EXECUTE => "CHAINCODE_EXECUTE"
  | Transaction_CHAINCODE_QUERY => "CHAINCODE_QUERY"
  | Transaction_CHAINCODE_TERMINATE => "CHAINCODE_TERMINATE"
  end.

Record Transaction : Set := mkTx {
  tx_Type : Transaction_Type;
  tx_ChaincodeID : string;
  tx_Payload : string;
  tx_Uuid : string
}.

Record PutStateInfo : Set := { psi_Key : string; psi_Value : string }.
Record RangeQueryState : Set := { StartKey : string; EndKey : string }.
Record RangeQueryStateKeyValue : Set := mkKV { kv_Key : string; kv_Value : string }.

Record RangeQueryStateResponse : Set := mkRangeResp {
  KeysAndValues : list RangeQueryStateKeyValue;
  HasMore : bool;
  ID : string
}.

(** The payload of an INVOKE_CHAINCODE or INVOKE_QUERY frame; only the name
    of the target chaincode is read by the handler. *)
Record ChaincodeSpec : Set := { spec_ChaincodeID_Name : string; spec_Input : string }.

(** ** Errors *)

(** A Go [error] value.  [errorString] is what [fmt.Errorf] builds; the
    next two are the pointer types [filterError] asserts on; the others are
    the remaining error types of the FSM library. *)
Inductive error : Set :=
| errorString (s : string)
| NoTransitionError (Err : option error)
| CanceledError (Err : option error)
| InvalidEventError (Event State : string)
| UnknownEventError (Event : string)
| InTransitionError (Event : string)
| InternalError.

Fixpoint error_Error (e : error) : string :=
  match e with
  | errorString s => s
  | NoTransitionError None => "no transition"
  | NoTransitionError (Some e') => "no transition with error: " +:+ error_Error e'
  | CanceledError None => "transition canceled"
  | CanceledError (Some e') => "transition canceled with error: " +:+ error_Error e'
  | InvalidEventError ev st => "event " +:+ ev +:+ " inappropriate in current state " +:+ st
  | UnknownEventError ev => "event " +:+ ev +:+ " does not exist"
  | InTransitionError ev =>
      "event " +:+ ev +:+ " inappropriate because previous transition did not complete"
  | InternalError => "internal error on state transition"
  end.

Inductive result (A : Type) : Type :=
| ok (a : A)
| fail (e : error).
Arguments ok {A} a.
Arguments fail {A} e.

(** ** External collaborators *)

Record StateEncryptor : Type := {
  Encrypt : string -> result string;
  Decrypt : string -> result string
}.

(** [GetStateEncryptor deployTx tx] returns Go's pair [(enc, err)]. *)
Record SecHelper : Type := {
  GetStateEncryptor :
    option Transaction -> option Transaction -> option StateEncryptor * option error
}.

(** Modelled from the spec: the ledger, the chaincode support plane, the
    transport, the protobuf codec and the UUID generator are not under src/;
    section 6 gives the contract consumed.  Their answers are read from this
    record and every ledger, support-plane and transport call is recorded in
    the trace of the state. *)
Record Environment : Type := {
  getSecHelper : option SecHelper;
  GetLedger : option error;
  GetState : string -> string -> bool -> result string;
  SetState : string -> string -> string -> option error;
  DeleteState : string -> string -> option error;
  GetStateRangeScanIterator :
    string -> string -> string -> bool -> result (list (string * string));
  GenerateUUID : nat -> string;
  Send : ChaincodeMessage -> option error;
  registerHandler : string -> option error;
  LaunchChaincode : Transaction -> result string;
  Execute : string -> ChaincodeMessage -> option ChaincodeMessage * option error;
  Unmarshal_ChaincodeID : string -> result string;
  Unmarshal_PutStateInfo : string -> result PutStateInfo;
  Unmarshal_ChaincodeSpec : string -> result ChaincodeSpec;
  Unmarshal_RangeQueryState : string -> result RangeQueryState;
  Unmarshal_RangeQueryStateNext : string -> result string;
  Unmarshal_RangeQueryStateClose : string -> result string;
  Marshal_RangeQueryStateResponse : RangeQueryStateResponse -> result string
}.

(** Modelled from the spec: [statemgmt.RangeScanIterator] is not under
    src/; "a handle over a key interval in the ledger, returning key/value
    pairs in order until exhausted or closed", with [Next() -> bool],
    [GetKeyValue() -> (key, value)] and [Close()].  [cursor] is the pair
    [GetKeyValue] returns, [pending] the pairs [Next] has yet to reach and
    [closes] the number of [Close] calls received. *)
Record RangeScanIterator : Set := mkIter {
  cursor : option (string * string);
  pending : list (string * string);
  closes : nat
}.

Definition iter_Next (it : RangeScanIterator) : bool * RangeScanIterator :=
  match pending it with
  | [] => (false, mkIter None [] (closes it))
  | kv :: rest => (true, mkIter (Some kv) rest (closes it))
  end.

Definition iter_GetKeyValue (it : RangeScanIterator) : string * string :=
  match cursor it with
  | Some kv => kv
  | None => ("", "")
  end.

Definition iter_Close (it : RangeScanIterator) : RangeScanIterator :=
  mkIter (cursor it) (pending it) (S (closes it)).

(** ** Handler state *)

(** The FSM states (the string constants at the top of handler.go). *)
Definition createdstate : string := "created".
Definition establishedstate : string := "established".
Definition initstate : string := "init".
Definition readystate : string := "ready".
Definition transactionstate : string := "transaction".
Definition busyinitstate : string := "busyinit".
Definition busyxactstate : string := "busyxact".
Definition endstate : string := "end".

(** [responseNotifier] is a channel of capacity 1, kept as the list of the
    messages it buffers; [rangeQueryIteratorMap] maps an iterator id to the
    address of the iterator object in [iterators] below. *)
Record transactionContext : Set := mkTxCtx {
  transactionSecContext : option Transaction;
  responseNotifier : list ChaincodeMessage;
  rangeQueryIteratorMap : gmap string nat
}.

Record nextStateInfo : Set := mkNext {
  ns_msg : option ChaincodeMessage;
  sendToCC : bool
}.

(** The dynamic type of an FSM event argument ([interface{}]): a
    [*pb.ChaincodeMessage] (possibly a nil pointer) or a value of another
    type. *)
Inductive iface : Set :=
| I_msg (m : option ChaincodeMessage)
| I_other.

(** [fsm.Event]: the event name, source and destination, the error set by
    [Cancel], the arguments and the [canceled] flag. *)
Record Event : Set := mkEvent {
  ev_Event : string;
  ev_Src : string;
  ev_Dst : string;
  ev_Err : option error;
  ev_Args : list iface;
  ev_canceled : bool
}.

(** The goroutines the handler starts. *)
Inductive Task : Set :=
| T_handleGetState (msg : ChaincodeMessage)
| T_handleRangeQueryState (msg : ChaincodeMessage)
| T_handleRangeQueryStateNext (msg : ChaincodeMessage)
| T_handleRangeQueryStateClose (msg : ChaincodeMessage)
| T_enterBusyState (e : Event) (state : string)
| T_handleQueryChaincode (msg : ChaincodeMessage).

(** Calls that leave the handler. *)
Inductive Action : Set :=
| A_Send (msg : ChaincodeMessage)
| A_GetState (chaincodeID key : string) (committed : bool)
| A_SetState (chaincodeID key value : string)
| A_DeleteState (chaincodeID key : string)
| A_GetStateRangeScanIterator (chaincodeID startKey endKey : string) (committed : bool)
| A_LaunchChaincode (tx : Transaction)
| A_Execute (chaincodeID : string) (msg : ChaincodeMessage)
| A_registerHandler (name : string)
| A_deregisterHandler.

Record Handler : Set := mkHandler {
  FSM_current : string;
  ChaincodeID : option string;
  deployTXSecContext : option Transaction;
  registered : bool;
  readyNotify : option (list bool);
  txCtxs : option (gmap string transactionContext);
  uuidMap : option (gmap string bool);
  isTransaction : option (gmap string bool);
  nextState : list nextStateInfo;
  (* outside the handler object *)
  iterators : gmap nat RangeScanIterator;
  uuidsGenerated : nat;
  spawned : list Task;
  trace : list Action
}.

(** ** The monad of handler code: state, panic, blocking *)

Inductive outcome (A : Type) : Type :=
| Ret (a : A) (h : Handler)
| Panic (h : Handler)
| Block (h : Handler).
Arguments Ret {A} a h.
Arguments Panic {A} h.
Arguments Block {A} h.

Definition M (A : Type) : Type := Handler -> outcome A.

Definition ret {A} (a : A) : M A := fun h => Ret a h.

Definition bind {A B} (m : M A) (k : A -> M B) : M B :=
  fun h => match m h with
           | Ret a h' => k a h'
           | Panic h' => Panic h'
           | Block h' => Block h'
           end.

Declare Scope go_scope.
Delimit Scope go_scope with go.
Notation "'do' x <- m ; k" := (bind m (fun x => k))
  (at level 10, x name, m at level 100, k at level 200) : go_scope.
Notation "'run' m ; k" := (bind m (fun _ => k))
  (at level 10, m at level 100, k at level 200) : go_scope.
Local Open Scope go_scope.

Definition get : M Handler := fun h => Ret h h.
Definition modify (f : Handler -> Handler) : M unit := fun h => Ret tt (f h).
Definition panic {A} : M A := fun h => Panic h.
Definition block {A} : M A := fun h => Block h.

(** Reading through a pointer: a nil pointer panics. *)
Definition deref {A} (p : option A) : M A :=
  match p with
  | Some a => ret a
  | None => panic
  end.

(** [defer]: the deferred function runs when the body returns and also when
    it panics; in the second case the panic goes on afterwards. *)
Definition with_defer_ret {A} (body : M A) (deferred : option A -> M unit) : M A :=
  fun h => match body h with
           | Ret a h' => match deferred (Some a) h' with
                         | Ret _ h'' => Ret a h''
                         | Panic h'' => Panic h''
                         | Block h'' => Block h''
                         end
           | Panic h' => match deferred None h' with
                         | Ret _ h'' => Panic h''
                         | Panic h'' => Panic h''
                         | Block h'' => Block h''
                         end
           | Block h' => Block h'
           end.

(** The same for a goroutine body, whose value is dropped. *)
Definition with_defer {A} (body : M A) (deferred : option A -> M unit) : M unit :=
  do _ <- with_defer_ret body deferred;
  ret tt.

Definition set_FSM_current (v : string) (h : Handler) : Handler :=
  mkHandler v (ChaincodeID h) (deployTXSecContext h) (registered h) (readyNotify h)
    (txCtxs h) (uuidMap h) (isTransaction h) (nextState h) (iterators h)
    (uuidsGenerated h) (spawned h) (trace h).
Definition set_ChaincodeID (v : option string) (h : Handler) : Handler :=
  mkHandler (FSM_current h) v (deployTXSecContext h) (registered h) (readyNotify h)
    (txCtxs h) (uuidMap h) (isTransaction h) (nextState h) (iterators h)
    (uuidsGenerated h) (spawned h) (trace h).
Definition set_registered (v : bool) (h : Handler) : Handler :=
  mkHandler (FSM_current h) (ChaincodeID h) (deployTXSecContext h) v (readyNotify h)
    (txCtxs h) (uuidMap h) (isTransaction h) (nextState h) (iterators h)
    (uuidsGenerated h) (spawned h) (trace h).
Definition set_readyNotify (v : option (list bool)) (h : Handler) : Handler :=
  mkHandler (FSM_current h) (ChaincodeID h) (deployTXSecContext h) (registered h) v
    (txCtxs h) (uuidMap h) (isTransaction h) (nextState h) (iterators h)
    (uuidsGenerated h) (spawned h) (trace h).
Definition set_txCtxs (v : option (gmap string transactionContext)) (h : Handler) : Handler :=
  mkHandler (FSM_current h) (ChaincodeID h) (deployTXSecContext h) (registered h)
    (readyNotify h) v (uuidMap h) (isTransaction h) (nextState h) (iterators h)
    (uuidsGenerated h) (spawned h) (trace h).
Definition set_uuidMap (v : option (gmap string bool)) (h : Handler) : Handler :=
  mkHandler (FSM_current h) (ChaincodeID h) (deployTXSecContext h) (registered h)
    (readyNotify h) (txCtxs h) v (isTransaction h) (nextState h) (iterators h)
    (uuidsGenerated h) (spawned h) (trace h).
Definition set_isTransaction (v : option (gmap string bool)) (h : Handler) : Handler :=
  mkHandler (FSM_current h) (ChaincodeID h) (deployTXSecContext h) (registered h)
    (readyNotify h) (txCtxs h) (uuidMap h) v (nextState h) (iterators h)
    (uuidsGenerated h) (spawned h) (trace h).
Definition set_nextState (v : list nextStateInfo) (h : Handler) : Handler :=
  mkHandler (FSM_current h) (ChaincodeID h) (deployTXSecContext h) (registered h)
    (readyNotify h) (txCtxs h) (uuidMap h) (isTransaction h) v (iterators h)
    (uuidsGenerated h) (spawned h) (trace h).
Definition set_iterators (v : gmap nat RangeScanIterator) (h : Handler) : Handler :=
  mkHandler (FSM_current h) (ChaincodeID h) (deployTXSecContext h) (registered h)
    (readyNotify h) (txCtxs h) (uuidMap h) (isTransaction h) (nextState h) v
    (uuidsGenerated h) (spawned h) (trace h).
Definition set_uuidsGenerated (v : nat) (h : Handler) : Handler :=
  mkHandler (FSM_current h) (ChaincodeID h) (deployTXSecContext h) (registered h)
    (readyNotify h) (txCtxs h) (uuidMap h) (isTransaction h) (nextState h) (iterators h)
    v (spawned h) (trace h).
Definition set_spawned (v : list Task) (h : Handler) : Handler :=
  mkHandler (FSM_current h) (ChaincodeID h) (deployTXSecContext h) (registered h)
    (readyNotify h) (txCtxs h) (uuidMap h) (isTransaction h) (nextState h) (iterators h)
    (uuidsGenerated h) v (trace h).
Definition set_trace (v : list Action) (h : Handler) : Handler :=
  mkHandler (FSM_current h) (ChaincodeID h) (deployTXSecContext h) (registered h)
    (readyNotify h) (txCtxs h) (uuidMap h) (isTransaction h) (nextState h) (iterators h)
    (uuidsGenerated h) (spawned h) v.

Definition emit (a : Action) : M unit := modify (fun h => set_trace (trace h ++ [a]) h).
Definition go (t : Task) : M unit := modify (fun h => set_spawned (spawned h ++ [t]) h).

(** ** Handler tables *)

Section Handler.

Context (env : Environment).

Definition serialSend (msg : ChaincodeMessage) : M (option error) :=
  run emit (A_Send msg);
  match Send env msg with
  | Some err =>
      ret (Some (errorString ("Error sending " +:+ Type_String (Type_ msg) +:+ ": "
                              +:+ error_Error err)))
  | None => ret None
  end.

Definition new_transactionContext (tx : option Transaction) : transactionContext :=
  mkTxCtx tx [] ∅.

Definition createTxContext (uuid : string) (tx : option Transaction)
  : M (result transactionContext) :=
  do h <- get;
  match txCtxs h with
  | None => ret (fail (errorString ("cannot create notifier for Uuid:" +:+ uuid)))
  | Some m =>
      match m !! uuid with
      | Some _ => ret (fail (errorString ("Uuid:" +:+ uuid +:+ " exists")))
      | None =>
          let txctx := new_transactionContext tx in
          run modify (set_txCtxs (Some (<[uuid := txctx]> m)));
          ret (ok txctx)
      end
  end.

(** A [*transactionContext] is the key of the context in [txCtxs]: the
    context is reached through the table and nowhere else. *)
Definition getTxContext (uuid : string) : M (option string) :=
  do h <- get;
  match txCtxs h with
  | None => ret None
  | Some m => ret (match m !! uuid with Some _ => Some uuid | None => None end)
  end.

Definition deleteTxContext (uuid : string) : M unit :=
  do h <- get;
  match txCtxs h with
  | Some m => modify (set_txCtxs (Some (delete uuid m)))
  | None => ret tt
  end.

(** Reading the context a pointer designates; a nil pointer panics.  (No
    task deletes a context between [getTxContext] and the use of the pointer,
    so the key is always bound where the Go object is alive.) *)
Definition load_txContext (txContext : option string) : M transactionContext :=
  do p <- deref txContext;
  do h <- get;
  do m <- deref (txCtxs h);
  deref (m !! p).

Definition store_txContext (txContext : option string) (c : transactionContext) : M unit :=
  do p <- deref txContext;
  do h <- get;
  do m <- deref (txCtxs h);
  modify (set_txCtxs (Some (<[p := c]> m))).

Definition putRangeQueryIterator (txContext : option string) (uuid : string)
    (rangeScanIterator : nat) : M unit :=
  do c <- load_txContext txContext;
  store_txContext txContext
    (mkTxCtx (transactionSecContext c) (responseNotifier c)
             (<[uuid := rangeScanIterator]> (rangeQueryIteratorMap c))).

Definition getRangeQueryIterator (txContext : option string) (uuid : string)
  : M (option nat) :=
  do c <- load_txContext txContext;
  ret (rangeQueryIteratorMap c !! uuid).

Definition deleteRangeQueryIterator (txContext : option string) (uuid : string) : M unit :=
  do c <- load_txContext txContext;
  store_txContext txContext
    (mkTxCtx (transactionSecContext c) (responseNotifier c)
             (delete uuid (rangeQueryIteratorMap c))).

(** ** Crypto mediator *)

Definition shortuuid (uuid : string) : string :=
  if decide (String.length uuid < 8)%nat then uuid else String.substring 0 8 uuid.

Definition encryptOrDecrypt (encrypt : bool) (uuid : string) (payload : string)
  : M (result string) :=
  match getSecHelper env with
  | None => ret (ok payload)
  | Some secHelper =>
      do txctx <- getTxContext uuid;
      match txctx with
      | None =>
          ret (fail (errorString
                 ("[" +:+ shortuuid uuid +:+ "]No context for uuid " +:+ uuid)))
      | Some _ =>
          do c <- load_txContext txctx;
          match transactionSecContext c with
          | None =>
              ret (fail (errorString
                     ("[" +:+ shortuuid uuid +:+ "]transaction context is nil for uuid "
                      +:+ uuid)))
          | Some tx =>
              do h <- get;
              let derived :=
                if decide (tx_Type tx = Transaction_CHAINCODE_NEW) then
                  match GetStateEncryptor secHelper (deployTXSecContext h)
                                          (deployTXSecContext h) with
                  | (_, Some err) =>
                      fail (errorString ("error getting crypto encryptor for deploy tx :"
                                         +:+ error_Error err))
                  | (enc, None) => ok enc
                  end
                else if decide (tx_Type tx = Transaction_CHAINCODE_EXECUTE
                                \/ tx_Type tx = Transaction_CHAINCODE_QUERY) then
                  match GetStateEncryptor secHelper (deployTXSecContext h) (Some tx) with
                  | (_, Some err) =>
                      fail (errorString ("error getting crypto encryptor "
                                         +:+ error_Error err))
                  | (enc, None) => ok enc
                  end
                else
                  fail (errorString ("invalid transaction type "
                                     +:+ Transaction_Type_String (tx_Type tx))) in
              match derived with
              | fail e => ret (fail e)
              | ok None =>
                  ret (fail (errorString
                         ("secure context returns nil encryptor for tx " +:+ uuid)))
              | ok (Some enc) =>
                  if encrypt then ret (Encrypt enc payload) else ret (Decrypt enc payload)
              end
          end
      end
  end.

Definition decrypt (uuid : string) (payload : string) : M (result string) :=
  encryptOrDecrypt false uuid payload.

Definition encrypt (uuid : string) (payload : string) : M (result string) :=
  encryptOrDecrypt true uuid payload.

Definition deregister : M (option error) :=
  do h <- get;
  run (if registered h then emit A_deregisterHandler else ret tt);
  ret None.

(** [handler.nextState <- &nextStateInfo{msg, send}]: the channel is the
    queue of the values the pump has yet to receive. *)
Definition triggerNextState (msg : option ChaincodeMessage) (send : bool) : M unit :=
  modify (fun h => set_nextState (nextState h ++ [mkNext msg send]) h).

(** ** In-flight guard and transaction marks *)

Definition createUUIDEntry (uuid : string) : M bool :=
  do h <- get;
  match uuidMap h with
  | None => ret false
  | Some m =>
      if default false (m !! uuid) then ret false
      else
        run modify (set_uuidMap (Some (<[uuid := true]> m)));
        ret true
  end.

Definition deleteUUIDEntry (uuid : string) : M unit :=
  do h <- get;
  match uuidMap h with
  | Some m => modify (set_uuidMap (Some (delete uuid m)))
  | None => ret tt
  end.

Definition markIsTransaction (uuid : string) (isTrans : bool) : M bool :=
  do h <- get;
  match isTransaction h with
  | None => ret false
  | Some m =>
      run modify (set_isTransaction (Some (<[uuid := isTrans]> m)));
      ret true
  end.

Definition getIsTransaction (uuid : string) : M bool :=
  do h <- get;
  match isTransaction h with
  | None => ret false
  | Some m => ret (default false (m !! uuid))
  end.

Definition deleteIsTransaction (uuid : string) : M unit :=
  do h <- get;
  match isTransaction h with
  | Some m => modify (set_isTransaction (Some (delete uuid m)))
  | None => ret tt
  end.

(** [readyNotify] is nil when the chaincode was started by the user; the
    send is recorded on the channel and its receiver is not modelled. *)
Definition notifyDuringStartup (val : bool) : M unit :=
  do h <- get;
  match readyNotify h with
  | Some ch => modify (set_readyNotify (Some (ch ++ [val])))
  | None => ret tt
  end.

(** [notify]: deliver on the context's channel (capacity 1: a send on a full
    channel blocks), then close every iterator still in the context's map. *)
Definition notify (msg : ChaincodeMessage) : M unit :=
  do h <- get;
  match txCtxs h with
  | None => ret tt
  | Some m =>
      match m !! Uuid msg with
      | None => ret tt
      | Some tctx =>
          if decide (1 <= length (responseNotifier tctx))%nat then block
          else
            run modify (set_txCtxs (Some (<[Uuid msg :=
                   mkTxCtx (transactionSecContext tctx) (responseNotifier tctx ++ [msg])
                           (rangeQueryIteratorMap tctx)]> m)));
            modify (fun h' => set_iterators
                      (map_fold (fun _ v its => alter iter_Close v its)
                                (iterators h') (rangeQueryIteratorMap tctx)) h')
      end
  end.

(** ** Iterator objects *)

Definition new_iterator (kvs : list (string * string)) : M nat :=
  do h <- get;
  let a := fresh (dom (iterators h)) in
  run modify (set_iterators (<[a := mkIter None kvs 0]> (iterators h)));
  ret a.

Definition rangeIter_Next (rangeIter : nat) : M bool :=
  do h <- get;
  do it <- deref (iterators h !! rangeIter);
  let '(b, it') := iter_Next it in
  run modify (set_iterators (<[rangeIter := it']> (iterators h)));
  ret b.

Definition rangeIter_GetKeyValue (rangeIter : nat) : M (string * string) :=
  do h <- get;
  do it <- deref (iterators h !! rangeIter);
  ret (iter_GetKeyValue it).

Definition rangeIter_Close (rangeIter : nat) : M unit :=
  do h <- get;
  do it <- deref (iterators h !! rangeIter);
  modify (set_iterators (<[rangeIter := iter_Close it]> (iterators h))).

Definition util_GenerateUUID : M string :=
  do h <- get;
  run modify (set_uuidsGenerated (S (uuidsGenerated h)));
  ret (GenerateUUID env (uuidsGenerated h)).

(** [err.Error()] on an [error] interface value that may be nil. *)
Definition Error_of (err : option error) : M string :=
  do e <- deref err;
  ret (error_Error e).

Definition ERROR_msg (payload uuid : string) : ChaincodeMessage :=
  mkMsg ChaincodeMessage_ERROR payload uuid.
Definition RESPONSE_msg (payload uuid : string) : ChaincodeMessage :=
  mkMsg ChaincodeMessage_RESPONSE payload uuid.

(** The deferred function of the read actions: release the guard, then
    send [serialSendMsg]; the log line reads [serialSendMsg.Uuid] first. *)
Definition deferred_serialSend (uuid : string) (serialSendMsg : option ChaincodeMessage)
  : M unit :=
  run deleteUUIDEntry uuid;
  do m <- deref serialSendMsg;
  run serialSend m;
  ret tt.

(** ** Read actions *)

Definition handleGetState_task (msg : ChaincodeMessage) : M unit :=
  do uniqueReq <- createUUIDEntry (Uuid msg);
  if negb uniqueReq then ret tt
  else
    with_defer
      (let key := Payload msg in
       match GetLedger env with
       | Some ledgerErr => ret (ERROR_msg (error_Error ledgerErr) (Uuid msg))
       | None =>
           do h <- get;
           do chaincodeID <- deref (ChaincodeID h);
           do isTx <- getIsTransaction (Uuid msg);
           let readCommittedState := negb isTx in
           run emit (A_GetState chaincodeID key readCommittedState);
           match GetState env chaincodeID key readCommittedState with
           | fail err => ret (ERROR_msg (error_Error err) (Uuid msg))
           | ok res =>
               do r <- decrypt (Uuid msg) res;
               match r with
               | ok res' => ret (RESPONSE_msg res' (Uuid msg))
               | fail err => ret (ERROR_msg (error_Error err) (Uuid msg))
               end
           end
       end)
      (deferred_serialSend (Uuid msg)).

Definition maxRangeQueryStateLimit : nat := 100.

(** How the paging loop is left: by the [return] of its decrypt-failure
    branch (with the value of [serialSendMsg]) or by its condition. *)
Inductive loopExit : Set :=
| LoopReturn (serialSendMsg : ChaincodeMessage)
| LoopDone (keysAndValues : list RangeQueryStateKeyValue) (hasNext : bool).

(** The loop [for ; hasNext && i < maxRangeQueryStateLimit; i++] shared,
    text for text, by [handleRangeQueryState] and [handleRangeQueryStateNext];
    [n] is [maxRangeQueryStateLimit - i] and [iterID] the key under which
    the iterator is registered.  The decrypt-failure branch builds its
    payload from [unmarshalErr], not from the decrypt error. *)
Fixpoint rangeQueryLoop (n : nat) (msg : ChaincodeMessage) (unmarshalErr : option error)
    (txContext : option string) (iterID : string) (rangeIter : nat)
    (keysAndValues : list RangeQueryStateKeyValue) (hasNext : bool) : M loopExit :=
  match n with
  | O => ret (LoopDone keysAndValues hasNext)
  | S n' =>
      if negb hasNext then ret (LoopDone keysAndValues hasNext)
      else
        do kv <- rangeIter_GetKeyValue rangeIter;
        do d <- decrypt (Uuid msg) (snd kv);
        match d with
        | fail err =>
            do payload <- Error_of unmarshalErr;
            let serialSendMsg := ERROR_msg payload (Uuid msg) in
            run rangeIter_Close rangeIter;
            run deleteRangeQueryIterator txContext iterID;
            ret (LoopReturn serialSendMsg)
        | ok decryptedValue =>
            let keysAndValues' := keysAndValues ++ [mkKV (fst kv) decryptedValue] in
            do hasNext' <- rangeIter_Next rangeIter;
            rangeQueryLoop n' msg unmarshalErr txContext iterID rangeIter
                           keysAndValues' hasNext'
        end
  end.

(** The code after the loop, also shared by the two actions. *)
Definition rangeQueryReply (msg : ChaincodeMessage) (txContext : option string)
    (iterID : string) (rangeIter : nat) (exit : loopExit) : M ChaincodeMessage :=
  match exit with
  | LoopReturn serialSendMsg => ret serialSendMsg
  | LoopDone keysAndValues hasNext =>
      run (if negb hasNext then
             run rangeIter_Close rangeIter;
             deleteRangeQueryIterator txContext iterID
           else ret tt);
      let payload := mkRangeResp keysAndValues hasNext iterID in
      match Marshal_RangeQueryStateResponse env payload with
      | fail err =>
          run rangeIter_Close rangeIter;
          run deleteRangeQueryIterator txContext iterID;
          ret (ERROR_msg (error_Error err) (Uuid msg))
      | ok payloadBytes => ret (RESPONSE_msg payloadBytes (Uuid msg))
      end
  end.

Definition result_err {A} (r : result A) : option error :=
  match r with
  | ok _ => None
  | fail e => Some e
  end.

Definition handleRangeQueryState_task (msg : ChaincodeMessage) : M unit :=
  do uniqueReq <- createUUIDEntry (Uuid msg);
  if negb uniqueReq then ret tt
  else
    with_defer
      (let unmarshalled := Unmarshal_RangeQueryState env (Payload msg) in
       let unmarshalErr := result_err unmarshalled in
       match unmarshalled with
       | fail e => ret (ERROR_msg (error_Error e) (Uuid msg))
       | ok rangeQueryState =>
           match GetLedger env with
           | Some ledgerErr => ret (ERROR_msg (error_Error ledgerErr) (Uuid msg))
           | None =>
               do h <- get;
               do chaincodeID <- deref (ChaincodeID h);
               do isTx <- getIsTransaction (Uuid msg);
               let readCommittedState := negb isTx in
               run emit (A_GetStateRangeScanIterator chaincodeID (StartKey rangeQueryState)
                           (EndKey rangeQueryState) readCommittedState);
               match GetStateRangeScanIterator env chaincodeID (StartKey rangeQueryState)
                       (EndKey rangeQueryState) readCommittedState with
               | fail err => ret (ERROR_msg (error_Error err) (Uuid msg))
               | ok kvs =>
                   do rangeIter <- new_iterator kvs;
                   do iterID <- util_GenerateUUID;
                   do txContext <- getTxContext (Uuid msg);
                   run putRangeQueryIterator txContext iterID rangeIter;
                   do hasNext <- rangeIter_Next rangeIter;
                   do exit <- rangeQueryLoop maxRangeQueryStateLimit msg unmarshalErr
                                txContext iterID rangeIter [] hasNext;
                   rangeQueryReply msg txContext iterID rangeIter exit
               end
           end
       end)
      (deferred_serialSend (Uuid msg)).

Definition handleRangeQueryStateNext_task (msg : ChaincodeMessage) : M unit :=
  do uniqueReq <- createUUIDEntry (Uuid msg);
  if negb uniqueReq then ret tt
  else
    with_defer
      (let unmarshalled := Unmarshal_RangeQueryStateNext env (Payload msg) in
       let unmarshalErr := result_err unmarshalled in
       match unmarshalled with
       | fail e => ret (ERROR_msg (error_Error e) (Uuid msg))
       | ok nextID =>
           do txContext <- getTxContext (Uuid msg);
           do found <- getRangeQueryIterator txContext nextID;
           match found with
           | None => ret (ERROR_msg "Range query iterator not found" (Uuid msg))
           | Some rangeIter =>
               do exit <- rangeQueryLoop maxRangeQueryStateLimit msg unmarshalErr
                            txContext nextID rangeIter [] true;
               rangeQueryReply msg txContext nextID rangeIter exit
           end
       end)
      (deferred_serialSend (Uuid msg)).

Definition handleRangeQueryStateClose_task (msg : ChaincodeMessage) : M unit :=
  do uniqueReq <- createUUIDEntry (Uuid msg);
  if negb uniqueReq then ret tt
  else
    with_defer
      (match Unmarshal_RangeQueryStateClose env (Payload msg) with
       | fail e => ret (ERROR_msg (error_Error e) (Uuid msg))
       | ok closeID =>
           do txContext <- getTxContext (Uuid msg);
           do found <- getRangeQueryIterator txContext closeID;
           run match found with
               | Some iter =>
                   run rangeIter_Close iter;
                   deleteRangeQueryIterator txContext closeID
               | None => ret tt
               end;
           let payload := mkRangeResp [] false closeID in
           match Marshal_RangeQueryStateResponse env payload with
           | fail err => ret (ERROR_msg (error_Error err) (Uuid msg))
           | ok payloadBytes => ret (RESPONSE_msg payloadBytes (Uuid msg))
           end
       end)
      (deferred_serialSend (Uuid msg)).

End Handler.

(** ** The FSM library *)

(** Modelled from the spec: the FSM library (github.com/looplab/fsm,
    imported at handler.go:29) is not under src/.  Section 9 of the spec
    describes it as "a data-driven transition table (state, eventType) ->
    nextState plus three callback points per event (before, after, plus
    enter/leave per state)", where "return an error from a before callback
    aborts the transition" and "a no-transition signal is distinguished from
    a canceled with cause signal".  The definitions below follow the
    library's [NewFSM], [Can], [Cannot], [Event.Cancel] and [FSM.Event]:
    - an event unknown in the current state is refused with
      [InvalidEventError] or [UnknownEventError];
    - a [before_] or [leave_] callback that cancels aborts the transition
      and [Event] returns [CanceledError] wrapping the cause;
    - when source and destination coincide the [after_] callback runs and
      [Event] returns [NoTransitionError] wrapping [e.Err];
    - otherwise the state changes, the [enter_] and [after_] callbacks run
      and [Event] returns [e.Err] as it is, unwrapped.
    No callback of the handler calls [Async], so [f.transition] is nil
    whenever [Event] or [Can] is entered. *)
Module fsm.

Record EventDesc : Set := mkEventDesc {
  Name : string;
  Src : list string;
  Dst : string
}.

Definition Callback : Type := Event -> M Event.
Definition Callbacks : Type := list (string * Callback).

(** Modelled from the spec: [NewFSM] of the FSM library, which is not under
    src/: the transition map has one entry (event, source) -> destination
    for every source of every event description. *)
Definition NewFSM_transitions (events : list EventDesc) : gmap (string * string) string :=
  foldl (fun m e => foldl (fun m' src => <[(Name e, src) := Dst e]> m') m (Src e))
        ∅ events.

Fixpoint find_callback (key : string) (cbs : Callbacks) : option Callback :=
  match cbs with
  | [] => None
  | (k, fn) :: rest => if decide (k = key) then Some fn else find_callback key rest
  end.

Definition call (key : string) (cbs : Callbacks) (e : Event) : M Event :=
  match find_callback key cbs with
  | Some fn => fn e
  | None => ret e
  end.

(** Modelled from the spec: [Event.Cancel] of the FSM library, which is not
    under src/: it marks the event canceled and records the cause. *)
Definition Cancel (err : error) (e : Event) : Event :=
  mkEvent (ev_Event e) (ev_Src e) (ev_Dst e) (Some err) (ev_Args e) true.

(** Modelled from the spec: [FSM.Can] and [FSM.Cannot] of the FSM library,
    which is not under src/: an event can be raised when the table has an
    entry for it in the current state. *)
Definition Can (transitions : gmap (string * string) string) (event : string) : M bool :=
  do h <- get;
  ret (bool_decide (is_Some (transitions !! (event, FSM_current h)))).

Definition Cannot (transitions : gmap (string * string) string) (event : string) : M bool :=
  do b <- Can transitions event;
  ret (negb b).

(** Modelled from the spec: [FSM.Event] of the FSM library, which is not
    under src/; see the head of this module for the order of the callbacks
    and the error returned in each case. *)
Definition FSM_Event (events : list EventDesc) (cbs : Callbacks)
    (event : string) (args : list iface) : M (option error) :=
  do h <- get;
  let current := FSM_current h in
  match NewFSM_transitions events !! (event, current) with
  | None =>
      if existsb (fun d => bool_decide (Name d = event)) events
      then ret (Some (InvalidEventError event current))
      else ret (Some (UnknownEventError event))
  | Some dst =>
      let e := mkEvent event current dst None args false in
      do e <- call ("before_" +:+ event) cbs e;
      if ev_canceled e then ret (Some (CanceledError (ev_Err e)))
      else if decide (current = dst) then
        do e <- call ("after_" +:+ event) cbs e;
        ret (Some (NoTransitionError (ev_Err e)))
      else
        do e <- call ("leave_" +:+ current) cbs e;
        if ev_canceled e then ret (Some (CanceledError (ev_Err e)))
        else
          run modify (set_FSM_current dst);
          do e <- call ("enter_" +:+ dst) cbs e;
          do e <- call ("after_" +:+ event) cbs e;
          ret (ev_Err e)
  end.

End fsm.

(** ** FSM callbacks, write actions and message handling *)

Section Session.

Context (env : Environment).

Definition Args0 (e : Event) : M iface :=
  match ev_Args e with
  | a :: _ => ret a
  | [] => panic
  end.

(** The type assertion of [x] to a chaincode message: [msg, ok := x.(T)]
    with [T] the pointer type of [pb.ChaincodeMessage]. *)
Definition assert_ChaincodeMessage (x : iface) : option ChaincodeMessage * bool :=
  match x with
  | I_msg m => (m, true)
  | I_other => (None, false)
  end.

Definition unexpectedType : error := errorString "Received unexpected message type".

(** Modelled from the spec: [ChaincodeSupport.registerHandler] is not under
    src/; on success the support plane adds the handler to the registry,
    marks it registered and allocates its three tables. *)
Definition registeredBySupport (h : Handler) : Handler :=
  set_registered true (set_txCtxs (Some ∅) (set_uuidMap (Some ∅)
    (set_isTransaction (Some ∅) h))).

Definition beforeRegisterEvent (e : Event) (state : string) : M Event :=
  do a <- Args0 e;
  let '(msg, ok_) := assert_ChaincodeMessage a in
  if negb ok_ then ret (fsm.Cancel unexpectedType e)
  else
    do m <- deref msg;
    match Unmarshal_ChaincodeID env (Payload m) with
    | fail err =>
        ret (fsm.Cancel (errorString
               ("Error in received REGISTER, could NOT unmarshal registration info: "
                +:+ error_Error err)) e)
    | ok chaincodeID =>
        run modify (set_ChaincodeID (Some chaincodeID));
        run emit (A_registerHandler chaincodeID);
        match registerHandler env chaincodeID with
        | Some err =>
            run notifyDuringStartup false;
            ret (fsm.Cancel err e)
        | None =>
            run modify registeredBySupport;
            do sent <- serialSend env (mkMsg ChaincodeMessage_REGISTERED "" "");
            match sent with
            | Some err =>
                run notifyDuringStartup false;
                ret (fsm.Cancel (errorString ("Error sending REGISTERED: "
                                              +:+ error_Error err)) e)
            | None => ret e
            end
        end
    end.

Definition beforeCompletedEvent (e : Event) (state : string) : M Event :=
  do a <- Args0 e;
  let '(msg, ok_) := assert_ChaincodeMessage a in
  if negb ok_ then ret (fsm.Cancel unexpectedType e)
  else
    do _ <- deref msg;
    ret e.

Definition beforeInitState (e : Event) (state : string) : M Event :=
  run notifyDuringStartup true;
  ret e.

(** The four [after_] callbacks of the read actions: check the argument,
    then start the goroutine of the action.  (A nil message pointer is
    dereferenced here; the Go goroutine does so at its first statement.) *)
Definition afterRead (task : ChaincodeMessage -> Task) (e : Event) (state : string)
  : M Event :=
  do a <- Args0 e;
  let '(msg, ok_) := assert_ChaincodeMessage a in
  if negb ok_ then ret (fsm.Cancel unexpectedType e)
  else
    do m <- deref msg;
    run go (task m);
    ret e.

Definition afterGetState := afterRead T_handleGetState.
Definition afterRangeQueryState := afterRead T_handleRangeQueryState.
Definition afterRangeQueryStateNext := afterRead T_handleRangeQueryStateNext.
Definition afterRangeQueryStateClose := afterRead T_handleRangeQueryStateClose.

(** [afterPutState], [afterDelState], [afterInvokeChaincode]: only the
    argument check; the work is done on entering the busy state. *)
Definition afterWrite (e : Event) (state : string) : M Event :=
  do a <- Args0 e;
  let '(_, ok_) := assert_ChaincodeMessage a in
  if negb ok_ then ret (fsm.Cancel unexpectedType e) else ret e.

Definition afterPutState := afterWrite.
Definition afterDelState := afterWrite.
Definition afterInvokeChaincode := afterWrite.

Definition enterBusyState (e : Event) (state : string) : M Event :=
  run go (T_enterBusyState e state);
  ret e.

Definition enterEstablishedState (e : Event) (state : string) : M Event :=
  run notifyDuringStartup true;
  ret e.

Definition enterInitState (e : Event) (state : string) : M Event :=
  do a <- Args0 e;
  let '(ccMsg, ok_) := assert_ChaincodeMessage a in
  if negb ok_ then ret (fsm.Cancel unexpectedType e)
  else
    do m <- deref ccMsg;
    if decide (Type_ m = ChaincodeMessage_INIT) then
      do _ <- markIsTransaction (Uuid m) true;
      do sent <- serialSend env m;
      match sent with
      | Some err =>
          run notify (ERROR_msg ("Error sending INIT: " +:+ error_Error err) (Uuid m));
          ret e
      | None => ret e
      end
    else ret e.

Definition enterReadyState (e : Event) (state : string) : M Event :=
  do a <- Args0 e;
  let '(msg, ok_) := assert_ChaincodeMessage a in
  do m <- deref msg;
  run deleteIsTransaction (Uuid m);
  if negb ok_ then ret (fsm.Cancel unexpectedType e)
  else
    run notify m;
    ret e.

Definition enterEndState (e : Event) (state : string) : M Event :=
  with_defer_ret
    (do a <- Args0 e;
     let '(msg, ok_) := assert_ChaincodeMessage a in
     do m <- deref msg;
     run deleteIsTransaction (Uuid m);
     if negb ok_ then ret (fsm.Cancel unexpectedType e)
     else
       run notify m;
       ret (fsm.Cancel (errorString "Entered end state") e))
    (fun _ => do _ <- deregister; ret tt).

(** ** Write and nested-execute actions *)

(** The end of the goroutine of [enterBusyState]: ERROR when [err] is set,
    RESPONSE with [res] otherwise. *)
Definition busyReply (msg : ChaincodeMessage) (err : option error) (res : string)
  : ChaincodeMessage :=
  match err with
  | Some e => ERROR_msg (error_Error e) (Uuid msg)
  | None => RESPONSE_msg res (Uuid msg)
  end.

(** Modelled from the spec: [pb.NewChaincodeExecute] and
    [createTransactionMessage] are not under src/; the first builds "an
    EXECUTE transaction carrying the caller's UUID", the second a TRANSACTION
    frame for it. *)
Definition NewChaincodeExecute (spec : ChaincodeSpec) (uuid : string)
    (typ : Transaction_Type) : Transaction :=
  mkTx typ (spec_ChaincodeID_Name spec) (spec_Input spec) uuid.

Definition createTransactionMessage (uuid : string) (chaincodeInput : string)
  : ChaincodeMessage :=
  mkMsg ChaincodeMessage_TRANSACTION chaincodeInput uuid.

Definition createQueryMessage (uuid : string) (chaincodeInput : string)
  : ChaincodeMessage :=
  mkMsg ChaincodeMessage_QUERY chaincodeInput uuid.

Definition enterBusyState_task (e : Event) (state : string) : M unit :=
  do a <- Args0 e;
  let '(msg, _) := assert_ChaincodeMessage a in
  do m <- deref msg;
  do isTx <- getIsTransaction (Uuid m);
  if negb isTx then
    let payload := "Cannot handle " +:+ Type_String (Type_ m) +:+ " in query context" in
    let errMsg := ERROR_msg payload (Uuid m) in
    triggerNextState (Some errMsg) true
  else
    do uniqueReq <- createUUIDEntry (Uuid m);
    if negb uniqueReq then ret tt
    else
      with_defer
        (match GetLedger env with
         | Some ledgerErr => ret (ERROR_msg (error_Error ledgerErr) (Uuid m))
         | None =>
             do h <- get;
             do chaincodeID <- deref (ChaincodeID h);
             if decide (Type_ m = ChaincodeMessage_PUT_STATE) then
               match Unmarshal_PutStateInfo env (Payload m) with
               | fail unmarshalErr => ret (ERROR_msg (error_Error unmarshalErr) (Uuid m))
               | ok putStateInfo =>
                   do enc <- encrypt env (Uuid m) (psi_Value putStateInfo);
                   match enc with
                   | ok pVal =>
                       run emit (A_SetState chaincodeID (psi_Key putStateInfo) pVal);
                       ret (busyReply m (SetState env chaincodeID (psi_Key putStateInfo) pVal) "")
                   | fail err => ret (busyReply m (Some err) "")
                   end
               end
             else if decide (Type_ m = ChaincodeMessage_DEL_STATE) then
               let key := Payload m in
               run emit (A_DeleteState chaincodeID key);
               ret (busyReply m (DeleteState env chaincodeID key) "")
             else if decide (Type_ m = ChaincodeMessage_INVOKE_CHAINCODE) then
               match Unmarshal_ChaincodeSpec env (Payload m) with
               | fail unmarshalErr => ret (ERROR_msg (error_Error unmarshalErr) (Uuid m))
               | ok chaincodeSpec =>
                   let newChaincodeID := spec_ChaincodeID_Name chaincodeSpec in
                   let transaction :=
                     NewChaincodeExecute chaincodeSpec (Uuid m)
                                         Transaction_CHAINCODE_EXECUTE in
                   run emit (A_LaunchChaincode transaction);
                   match LaunchChaincode env transaction with
                   | fail launchErr => ret (ERROR_msg (error_Error launchErr) (Uuid m))
                   | ok chaincodeInput =>
                       let ccMsg :=
                         createTransactionMessage (tx_Uuid transaction) chaincodeInput in
                       run emit (A_Execute newChaincodeID ccMsg);
                       let '(response, execErr) := Execute env newChaincodeID ccMsg in
                       do r <- deref response;
                       ret (busyReply m execErr (Payload r))
                   end
               end
             else ret (busyReply m None "")
         end)
        (fun triggerNextStateMsg =>
           run deleteUUIDEntry (Uuid m);
           do t <- deref triggerNextStateMsg;
           triggerNextState (Some t) true).

Definition handleQueryChaincode_task (msg : ChaincodeMessage) : M unit :=
  do uniqueReq <- createUUIDEntry (Uuid msg);
  if negb uniqueReq then ret tt
  else
    with_defer
      (match Unmarshal_ChaincodeSpec env (Payload msg) with
       | fail unmarshalErr => ret (ERROR_msg (error_Error unmarshalErr) (Uuid msg))
       | ok chaincodeSpec =>
           let newChaincodeID := spec_ChaincodeID_Name chaincodeSpec in
           let transaction :=
             NewChaincodeExecute chaincodeSpec (Uuid msg) Transaction_CHAINCODE_QUERY in
           run emit (A_LaunchChaincode transaction);
           match LaunchChaincode env transaction with
           | fail launchErr => ret (ERROR_msg (error_Error launchErr) (Uuid msg))
           | ok chaincodeInput =>
               let ccMsg := createQueryMessage (tx_Uuid transaction) chaincodeInput in
               run emit (A_Execute newChaincodeID ccMsg);
               match Execute env newChaincodeID ccMsg with
               | (_, Some execErr) => ret (ERROR_msg (error_Error execErr) (Uuid msg))
               | (response, None) =>
                   do r <- deref response;
                   ret (RESPONSE_msg (Payload r) (Uuid msg))
               end
           end
       end)
      (fun serialSendMsg =>
         run deleteUUIDEntry (Uuid msg);
         match serialSendMsg with
         | Some m => do _ <- serialSend env m; ret tt
         | None => ret tt (* a nil message goes to the stream while the panic unwinds *)
         end).

(** The body of each goroutine. *)
Definition run_task (t : Task) : M unit :=
  match t with
  | T_handleGetState msg => handleGetState_task env msg
  | T_handleRangeQueryState msg => handleRangeQueryState_task env msg
  | T_handleRangeQueryStateNext msg => handleRangeQueryStateNext_task env msg
  | T_handleRangeQueryStateClose msg => handleRangeQueryStateClose_task env msg
  | T_enterBusyState e state => enterBusyState_task e state
  | T_handleQueryChaincode msg => handleQueryChaincode_task msg
  end.

(** ** The handler's FSM: [newChaincodeSupportHandler] *)

Definition ev (t : ChaincodeMessage_Type) (src : list string) (dst : string)
  : fsm.EventDesc :=
  fsm.mkEventDesc (Type_String t) src dst.

Definition Events : list fsm.EventDesc := [
  ev ChaincodeMessage_REGISTER [createdstate] establishedstate;
  ev ChaincodeMessage_INIT [establishedstate] initstate;
  ev ChaincodeMessage_READY [establishedstate] readystate;
  ev ChaincodeMessage_TRANSACTION [readystate] transactionstate;
  ev ChaincodeMessage_PUT_STATE [transactionstate] busyxactstate;
  ev ChaincodeMessage_DEL_STATE [transactionstate] busyxactstate;
  ev ChaincodeMessage_INVOKE_CHAINCODE [transactionstate] busyxactstate;
  ev ChaincodeMessage_PUT_STATE [initstate] busyinitstate;
  ev ChaincodeMessage_DEL_STATE [initstate] busyinitstate;
  ev ChaincodeMessage_INVOKE_CHAINCODE [initstate] busyinitstate;
  ev ChaincodeMessage_COMPLETED [initstate; readystate; transactionstate] readystate;
  ev ChaincodeMessage_GET_STATE [readystate] readystate;
  ev ChaincodeMessage_GET_STATE [initstate] initstate;
  ev ChaincodeMessage_GET_STATE [busyinitstate] busyinitstate;
  ev ChaincodeMessage_GET_STATE [transactionstate] transactionstate;
  ev ChaincodeMessage_GET_STATE [busyxactstate] busyxactstate;
  ev ChaincodeMessage_RANGE_QUERY_STATE [readystate] readystate;
  ev ChaincodeMessage_RANGE_QUERY_STATE [initstate] initstate;
  ev ChaincodeMessage_RANGE_QUERY_STATE [busyinitstate] busyinitstate;
  ev ChaincodeMessage_RANGE_QUERY_STATE [transactionstate] transactionstate;
  ev ChaincodeMessage_RANGE_QUERY_STATE [busyxactstate] busyxactstate;
  ev ChaincodeMessage_RANGE_QUERY_STATE_NEXT [readystate] readystate;
  ev ChaincodeMessage_RANGE_QUERY_STATE_NEXT [initstate] initstate;
  ev ChaincodeMessage_RANGE_QUERY_STATE_NEXT [busyinitstate] busyinitstate;
  ev ChaincodeMessage_RANGE_QUERY_STATE_NEXT [transactionstate] transactionstate;
  ev ChaincodeMessage_RANGE_QUERY_STATE_NEXT [busyxactstate] busyxactstate;
  ev ChaincodeMessage_RANGE_QUERY_STATE_CLOSE [readystate] readystate;
  ev ChaincodeMessage_RANGE_QUERY_STATE_CLOSE [initstate] initstate;
  ev ChaincodeMessage_RANGE_QUERY_STATE_CLOSE [busyinitstate] busyinitstate;
  ev ChaincodeMessage_RANGE_QUERY_STATE_CLOSE [transactionstate] transactionstate;
  ev ChaincodeMessage_RANGE_QUERY_STATE_CLOSE [busyxactstate] busyxactstate;
  ev ChaincodeMessage_ERROR [initstate] endstate;
  ev ChaincodeMessage_ERROR [transactionstate] readystate;
  ev ChaincodeMessage_ERROR [busyinitstate] initstate;
  ev ChaincodeMessage_ERROR [busyxactstate] transactionstate;
  ev ChaincodeMessage_RESPONSE [busyinitstate] initstate;
  ev ChaincodeMessage_RESPONSE [busyxactstate] transactionstate
].

(** Each callback is the closure [func(e) { v.callback(e, v.FSM.Current()) }]. *)
Definition closure (f : Event -> string -> M Event) : fsm.Callback :=
  fun e => do h <- get; f e (FSM_current h).

Definition Callbacks : fsm.Callbacks := [
  ("before_" +:+ Type_String ChaincodeMessage_REGISTER, closure beforeRegisterEvent);
  ("before_" +:+ Type_String ChaincodeMessage_COMPLETED, closure beforeCompletedEvent);
  ("before_" +:+ Type_String ChaincodeMessage_INIT, closure beforeInitState);
  ("after_" +:+ Type_String ChaincodeMessage_GET_STATE, closure afterGetState);
  ("after_" +:+ Type_String ChaincodeMessage_RANGE_QUERY_STATE, closure afterRangeQueryState);
  ("after_" +:+ Type_String ChaincodeMessage_RANGE_QUERY_STATE_NEXT,
     closure afterRangeQueryStateNext);
  ("after_" +:+ Type_String ChaincodeMessage_RANGE_QUERY_STATE_CLOSE,
     closure afterRangeQueryStateClose);
  ("after_" +:+ Type_String ChaincodeMessage_PUT_STATE, closure afterPutState);
  ("after_" +:+ Type_String ChaincodeMessage_DEL_STATE, closure afterDelState);
  ("after_" +:+ Type_String ChaincodeMessage_INVOKE_CHAINCODE, closure afterInvokeChaincode);
  ("enter_" +:+ establishedstate, closure enterEstablishedState);
  ("enter_" +:+ initstate, closure enterInitState);
  ("enter_" +:+ readystate, closure enterReadyState);
  ("enter_" +:+ busyinitstate, closure enterBusyState);
  ("enter_" +:+ busyxactstate, closure enterBusyState);
  ("enter_" +:+ endstate, closure enterEndState)
].

Definition transitions : gmap (string * string) string := fsm.NewFSM_transitions Events.

(** The handler [newChaincodeSupportHandler] returns: FSM in [created],
    nothing else allocated. *)
Definition newChaincodeSupportHandler : Handler :=
  mkHandler createdstate None None false None None None None [] ∅ 0 [] [].

(** ** Message handling *)

Definition filterError (errFromFSMEvent : option error) : option error :=
  match errFromFSMEvent with
  | Some err =>
      match err with
      | NoTransitionError (Some _) => errFromFSMEvent
      | _ =>
          match err with
          | CanceledError (Some _) => Some err
          | _ => None
          end
      end
  | None => None
  end.

Definition isWriteClass (t : ChaincodeMessage_Type) : bool :=
  bool_decide (t = ChaincodeMessage_PUT_STATE) ||
  bool_decide (t = ChaincodeMessage_DEL_STATE) ||
  bool_decide (t = ChaincodeMessage_INVOKE_CHAINCODE).

Definition HandleMessage (msg : ChaincodeMessage) : M (option error) :=
  if decide (Type_ msg = ChaincodeMessage_QUERY_COMPLETED) then
    run deleteIsTransaction (Uuid msg);
    do enc <- encrypt env (Uuid msg) (Payload msg);
    let msg' :=
      match enc with
      | ok payload => mkMsg (Type_ msg) payload (Uuid msg)
      | fail err =>
          mkMsg ChaincodeMessage_QUERY_ERROR
                ("Failed to encrypt query result " +:+ error_Error err) (Uuid msg)
      end in
    run notify msg';
    ret None
  else if decide (Type_ msg = ChaincodeMessage_QUERY_ERROR) then
    run deleteIsTransaction (Uuid msg);
    run notify msg;
    ret None
  else if decide (Type_ msg = ChaincodeMessage_INVOKE_QUERY) then
    run go (T_handleQueryChaincode msg);
    ret None
  else
    do cannot <- fsm.Cannot transitions (Type_String (Type_ msg));
    if cannot then
      do isTx <- getIsTransaction (Uuid msg);
      if isWriteClass (Type_ msg) && negb isTx then
        let payload := "[" +:+ Uuid msg +:+ "]Cannot handle "
                       +:+ Type_String (Type_ msg) +:+ " in query context" in
        do _ <- serialSend env (ERROR_msg payload (Uuid msg));
        ret (Some (errorString ("Cannot handle " +:+ Type_String (Type_ msg)
                                +:+ " in query context")))
      else
        do h <- get;
        ret (Some (errorString
               ("[" +:+ Uuid msg +:+ "]Chaincode handler validator FSM cannot handle message ("
                +:+ Type_String (Type_ msg) +:+ ") with payload size ("
                +:+ pretty (String.length (Payload msg)) +:+ ") while in state: "
                +:+ FSM_current h)))
    else
      do eventErr <- fsm.FSM_Event Events Callbacks (Type_String (Type_ msg))
                       [I_msg (Some msg)];
      ret (filterError eventErr).

(** ** Stream pump *)

(** What the [select] of [processStream] receives: the result of [Recv], or
    the next value of the [nextState] channel. *)
Inductive selected : Set :=
| msgAvail (in2 : option ChaincodeMessage) (err : option error)
| fromNextState.

(** [processStream] returns [err]: its deferred [deregister] runs. *)
Definition processStream_return (err : error) : M (option error) :=
  do _ <- deregister;
  ret (Some err).

(** The end of a turn of the loop: handle [msg], then forward it to the
    worker when the turn was started by [nextState] with [sendToCC]. *)
Definition processStream_handle (msg : ChaincodeMessage) (forward : bool)
  : M (option error) :=
  do err <- HandleMessage msg;
  match err with
  | Some e =>
      processStream_return
        (errorString ("Error handling message, ending stream: " +:+ error_Error e))
  | None =>
      if forward then
        do sent <- serialSend env msg;
        match sent with
        | Some e =>
            processStream_return
              (errorString ("[" +:+ shortuuid (Uuid msg)
                            +:+ "]serial sending received error " +:+ error_Error e))
        | None => ret None
        end
      else ret None
  end.

(** One turn of the loop of [processStream].  [Some err]: the function
    returns [err]; [None]: the loop goes on. *)
Definition processStream_turn (sel : selected) : M (option error) :=
  match sel with
  | msgAvail _ (Some err) => processStream_return err
  | msgAvail None None =>
      processStream_return
        (errorString "Received nil message, ending chaincode support stream")
  | msgAvail (Some msg) None => processStream_handle msg false
  | fromNextState =>
      do h <- get;
      match nextState h with
      | [] => block
      | nsInfo :: rest =>
          run modify (set_nextState rest);
          match ns_msg nsInfo with
          | None =>
              processStream_return
                (errorString "Next state nil message, ending chaincode support stream")
          | Some msg => processStream_handle msg (sendToCC nsInfo)
          end
      end
  end.

Definition sendExecuteMessage (msg : ChaincodeMessage) (tx : option Transaction)
  : M (result unit) :=
  do created <- createTxContext (Uuid msg) tx;
  match created with
  | fail err => ret (fail err)
  | ok _ =>
      do _ <- markIsTransaction (Uuid msg)
                (negb (bool_decide (Type_ msg = ChaincodeMessage_QUERY)));
      if decide (Type_ msg = ChaincodeMessage_TRANSACTION) then
        run triggerNextState (Some msg) true;
        ret (ok tt)
      else
        do sent <- serialSend env msg;
        match sent with
        | Some err =>
            run deleteTxContext (Uuid msg);
            ret (fail (errorString ("[" +:+ shortuuid (Uuid msg)
                                    +:+ "]SendMessage error sending ("
                                    +:+ error_Error err +:+ ")")))
        | None => ret (ok tt)
        end
  end.

Definition isRunning : M bool :=
  do h <- get;
  ret (negb (bool_decide (FSM_current h = createdstate)
             || bool_decide (FSM_current h = establishedstate)
             || bool_decide (FSM_current h = initstate))).

End Session.

(** * A concrete session

    Environments and handler states on which the statements below are
    exercised. *)

(** An encryptor that tags what it encrypts and strips the tag again. *)
Definition tagEncryptor (tag : string) : StateEncryptor := {|
  Encrypt := fun p => ok (tag +:+ p);
  Decrypt := fun p =>
    if String.prefix tag p
    then ok (String.substring (String.length tag)
                              (String.length p - String.length tag) p)
    else fail (errorString "decryption failed")
|}.

(** A security helper whose encryptor is tagged by the two transaction types
    it was derived from. *)
Definition sampleSecHelper : SecHelper := {|
  GetStateEncryptor := fun dep tx =>
    (Some (tagEncryptor
             (from_option (fun t => Transaction_Type_String (tx_Type t)) "nil" dep
              +:+ "/" +:+
              from_option (fun t => Transaction_Type_String (tx_Type t)) "nil" tx
              +:+ ":")), None)
|}.

(** The codec of the sample environment prints a range response as
    [<count>+<id>] (more to come) or [<count>.<id>] (last frame). *)
Definition sampleEnv (sh : option SecHelper) (kvs : list (string * string)) : Environment := {|
  getSecHelper := sh;
  GetLedger := None;
  GetState := fun _ _ committed => ok (if committed then "committed" else "uncommitted");
  SetState := fun _ _ _ => None;
  DeleteState := fun _ _ => None;
  GetStateRangeScanIterator := fun _ _ _ _ => ok kvs;
  GenerateUUID := fun n => "it" +:+ pretty n;
  Send := fun _ => None;
  registerHandler := fun _ => None;
  LaunchChaincode := fun _ => ok "";
  Execute := fun _ m => (Some m, None);
  Unmarshal_ChaincodeID := fun p => ok p;
  Unmarshal_PutStateInfo := fun p => ok {| psi_Key := p; psi_Value := p |};
  Unmarshal_ChaincodeSpec := fun p => ok {| spec_ChaincodeID_Name := p; spec_Input := "" |};
  Unmarshal_RangeQueryState := fun p => ok {| StartKey := p; EndKey := p |};
  Unmarshal_RangeQueryStateNext := fun p => ok p;
  Unmarshal_RangeQueryStateClose := fun p => ok p;
  Marshal_RangeQueryStateResponse := fun r =>
    ok (pretty (length (KeysAndValues r)) +:+ (if HasMore r then "+" else ".") +:+ ID r)
|}.

Definition deployTx : Transaction := mkTx Transaction_CHAINCODE_NEW "cc" "" "dep1".
Definition executeTx : Transaction := mkTx Transaction_CHAINCODE_EXECUTE "cc" "" "tx1".
Definition queryTx : Transaction := mkTx Transaction_CHAINCODE_QUERY "cc" "" "q1".

(** A registered handler for chaincode [cc] in FSM state [current], with the
    transaction [tx1] and the query [q1] in flight. *)
Definition sampleHandler (current : string) : Handler :=
  mkHandler current (Some "cc") (Some deployTx) true None
    (Some {[ "tx1" := mkTxCtx (Some executeTx) [] ∅;
             "q1" := mkTxCtx (Some queryTx) [] ∅ ]})
    (Some ∅)
    (Some {[ "tx1" := true; "q1" := false ]})
    [] ∅ 0 [] [].

(** * Notions used in the statements *)

Definition isTransactionMark (h : Handler) (uuid : string) : bool :=
  match isTransaction h with
  | Some m => default false (m !! uuid)
  | None => false
  end.

(** The in-flight guard admits a request on [uuid]. *)
Definition guardFree (h : Handler) (uuid : string) : Prop :=
  exists m, uuidMap h = Some m /\ default false (m !! uuid) = false.

Definition txContextOf (h : Handler) (uuid : string) : option transactionContext :=
  match txCtxs h with
  | Some m => m !! uuid
  | None => None
  end.

(** What [encryptOrDecrypt] does with the pair [GetStateEncryptor] returned;
    [prefix] is the text put before a derivation error. *)
Definition useEncryptor (encrypt : bool) (uuid payload prefix : string)
    (derived : option StateEncryptor * option error) : result string :=
  match derived with
  | (_, Some err) => fail (errorString (prefix +:+ error_Error err))
  | (None, None) =>
      fail (errorString ("secure context returns nil encryptor for tx " +:+ uuid))
  | (Some enc, None) => if encrypt then Encrypt enc payload else Decrypt enc payload
  end.

(** The crypto mediator as section 4.6 of the specification words it: a
    function of the security helper, the transaction context of the uuid and
    the deploy security context. *)
Definition cryptoResult (env : Environment) (encrypt : bool) (uuid payload : string)
    (ctx : option transactionContext) (deployTxSec : option Transaction) : result string :=
  match getSecHelper env with
  | None => ok payload
  | Some secHelper =>
      match ctx with
      | None =>
          fail (errorString ("[" +:+ shortuuid uuid +:+ "]No context for uuid " +:+ uuid))
      | Some c =>
          match transactionSecContext c with
          | None =>
              fail (errorString ("[" +:+ shortuuid uuid
                                 +:+ "]transaction context is nil for uuid " +:+ uuid))
          | Some tx =>
              match tx_Type tx with
              | Transaction_CHAINCODE_NEW =>
                  useEncryptor encrypt uuid payload
                    "error getting crypto encryptor for deploy tx :"
                    (GetStateEncryptor secHelper deployTxSec deployTxSec)
              | Transaction_CHAINCODE_EXECUTE | Transaction_CHAINCODE_QUERY =>
                  useEncryptor encrypt uuid payload "error getting crypto encryptor "
                    (GetStateEncryptor secHelper deployTxSec (Some tx))
              | other =>
                  fail (errorString ("invalid transaction type "
                                     +:+ Transaction_Type_String other))
              end
          end
      end
  end.

Definition selfLoopStates : list string :=
  [readystate; initstate; busyinitstate; transactionstate; busyxactstate].

(** The transition table as section 4.2 of the specification words it. *)
Definition spec_transition (t : ChaincodeMessage_Type) (s : string) : option string :=
  match t with
  | ChaincodeMessage_REGISTER =>
      if decide (s = createdstate) then Some establishedstate else None
  | ChaincodeMessage_INIT =>
      if decide (s = establishedstate) then Some initstate else None
  | ChaincodeMessage_READY =>
      if decide (s = establishedstate) then Some readystate else None
  | ChaincodeMessage_TRANSACTION =>
      if decide (s = readystate) then Some transactionstate else None
  | ChaincodeMessage_PUT_STATE | ChaincodeMessage_DEL_STATE
  | ChaincodeMessage_INVOKE_CHAINCODE =>
      if decide (s = transactionstate) then Some busyxactstate
      else if decide (s = initstate) then Some busyinitstate else None
  | ChaincodeMessage_RESPONSE =>
      if decide (s = busyinitstate) then Some initstate
      else if decide (s = busyxactstate) then Some transactionstate else None
  | ChaincodeMessage_ERROR =>
      if decide (s = initstate) then Some endstate
      else if decide (s = busyinitstate) then Some initstate
      else if decide (s = transactionstate) then Some readystate
      else if decide (s = busyxactstate) then Some transactionstate else None
  | ChaincodeMessage_COMPLETED =>
      if decide (s ∈ [initstate; readystate; transactionstate]) then Some readystate
      else None
  | ChaincodeMessage_GET_STATE | ChaincodeMessage_RANGE_QUERY_STATE
  | ChaincodeMessage_RANGE_QUERY_STATE_NEXT | ChaincodeMessage_RANGE_QUERY_STATE_CLOSE =>
      if decide (s ∈ selfLoopStates) then Some s else None
  | _ => None
  end.

(** The types [HandleMessage] serves before it consults the FSM. *)
Definition outOfBand (t : ChaincodeMessage_Type) : bool :=
  bool_decide (t = ChaincodeMessage_QUERY_COMPLETED) ||
  bool_decide (t = ChaincodeMessage_QUERY_ERROR) ||
  bool_decide (t = ChaincodeMessage_INVOKE_QUERY).

Definition transitionList : list (string * string * string) :=
  Eval vm_compute in map_to_list transitions.

(** The frame and the error of the gate for a write-class type in query
    context. *)
Definition gateFrame (msg : ChaincodeMessage) : ChaincodeMessage :=
  ERROR_msg ("[" +:+ Uuid msg +:+ "]Cannot handle " +:+ Type_String (Type_ msg)
             +:+ " in query context") (Uuid msg).

Definition queryContextError (m : ChaincodeMessage) : ChaincodeMessage :=
  ERROR_msg ("Cannot handle " +:+ Type_String (Type_ m) +:+ " in query context") (Uuid m).

Definition parentState (busy : string) : string :=
  if decide (busy = busyinitstate) then initstate else transactionstate.

Definition isMutation (a : Action) : bool :=
  match a with
  | A_SetState _ _ _ | A_DeleteState _ _ | A_LaunchChaincode _ | A_Execute _ _ => true
  | _ => false
  end.

Definition withoutTransactionMark (uuid : string) (h : Handler) : Handler :=
  match isTransaction h with
  | Some m => set_isTransaction (Some (delete uuid m)) h
  | None => h
  end.

Definition deregistered (h : Handler) : Handler :=
  if registered h then set_trace (trace h ++ [A_deregisterHandler]) h else h.

Definition final {A} (o : outcome A) : Handler :=
  match o with
  | Ret _ h | Panic h | Block h => h
  end.

Definition guardTaken (uuid : string) (m : gmap string bool) (h : Handler) : Handler :=
  set_uuidMap (Some (<[uuid := true]> m)) h.

(** The frame [handleGetState] answers with once the ledger is reached. *)
Definition getStateReply (env : Environment) (msg : ChaincodeMessage) (h : Handler)
    (chaincodeID : string) : ChaincodeMessage :=
  match GetState env chaincodeID (Payload msg) (negb (isTransactionMark h (Uuid msg))) with
  | fail err => ERROR_msg (error_Error err) (Uuid msg)
  | ok res =>
      match cryptoResult env false (Uuid msg) res (txContextOf h (Uuid msg))
                         (deployTXSecContext h) with
      | ok res' => RESPONSE_msg res' (Uuid msg)
      | fail err => ERROR_msg (error_Error err) (Uuid msg)
      end
  end.

(** The requests of a scan by the transaction [tx1]. *)
Definition openScan : ChaincodeMessage :=
  mkMsg ChaincodeMessage_RANGE_QUERY_STATE "a" "tx1".

Definition nextPage : ChaincodeMessage :=
  mkMsg ChaincodeMessage_RANGE_QUERY_STATE_NEXT "it0" "tx1".

(** The ledger of the decrypt-failure scenario: a hundred values sealed for
    the transaction, then one that is not. *)
Definition sealedThenGarbage : list (string * string) :=
  map (fun n => (pretty n, "CHAINCODE_NEW/CHAINCODE_EXECUTE:v")) (seq 0 100)
  ++ [("z", "garbage")].

(** The iterator object positioned on the first pair of [l] ([Next] has
    been called and has answered [hasMore l]). *)
Definition iterAt (l : list (string * string)) (closed : nat) : RangeScanIterator :=
  match l with
  | [] => mkIter None [] closed
  | kv :: rest => mkIter (Some kv) rest closed
  end.

Definition hasMore (l : list (string * string)) : bool :=
  match l with
  | [] => false
  | _ :: _ => true
  end.

Definition decryptAll (dec : string -> string) (l : list (string * string))
  : list RangeQueryStateKeyValue :=
  map (fun kv => mkKV (fst kv) (dec (snd kv))) l.

Definition withIteratorMap (f : gmap string nat -> gmap string nat)
    (c : transactionContext) : transactionContext :=
  mkTxCtx (transactionSecContext c) (responseNotifier c) (f (rangeQueryIteratorMap c)).

(** What the crypto mediator reads of the handler for a uuid. *)
Definition secView (h : Handler) (uuid : string)
  : option (option Transaction) * option Transaction :=
  (transactionSecContext <$> txContextOf h uuid, deployTXSecContext h).

(** Every value of [l] decrypts, to its image by [dec]. *)
Definition decryptsTo (env : Environment) (h : Handler) (uuid : string)
    (dec : string -> string) (l : list (string * string)) : Prop :=
  forall kv, kv ∈ l ->
    cryptoResult env false uuid (snd kv) (txContextOf h uuid) (deployTXSecContext h)
    = ok (dec (snd kv)).

(** A scan in progress: the guard is free, the iterator [a] is registered
    under [id] in the context of [uuid] and stands on the first pair of
    [l]. *)
Definition scanning (h : Handler) (uuid id : string) (a : nat)
    (l : list (string * string)) (closed : nat) : Prop :=
  guardFree h uuid /\
  exists c, txContextOf h uuid = Some c /\
            rangeQueryIteratorMap c !! id = Some a /\
            iterators h !! a = Some (iterAt l closed).

(** A scan that is over: the iterator has received one more [Close] and its
    id is absent from the registry of the context. *)
Definition scanEnded (h : Handler) (uuid id : string) (a : nat) (closed : nat) : Prop :=
  guardFree h uuid /\
  exists c, txContextOf h uuid = Some c /\
            rangeQueryIteratorMap c !! id = None /\
            iterators h !! a = Some (mkIter None [] (S closed)).

Definition pageStatus (h : Handler) (uuid id : string) (a : nat)
    (l : list (string * string)) (closed : nat) : Prop :=
  if hasMore l then scanning h uuid id a l closed else scanEnded h uuid id a closed.

Definition pageFrame (dec : string -> string) (id : string) (l : list (string * string))
  : RangeQueryStateResponse :=
  mkRangeResp (decryptAll dec (take maxRangeQueryStateLimit l))
              (hasMore (drop maxRangeQueryStateLimit l)) id.

(** The state a page leaves behind: the iterator on the pair after the
    page; when no pair is left, the iterator closed and unregistered. *)
Definition afterPage (uuid id : string) (a : nat) (l : list (string * string))
    (closed : nat) (tm : gmap string transactionContext) (c : transactionContext)
    (h : Handler) : Handler :=
  let rest := drop maxRangeQueryStateLimit l in
  if hasMore rest then set_iterators (<[a := iterAt rest closed]> (iterators h)) h
  else set_txCtxs (Some (<[uuid := withIteratorMap (delete id) c]> tm))
         (set_iterators (<[a := mkIter None [] (S closed)]> (iterators h)) h).

(** The state in which the first page of a scan is drained: guard taken,
    ledger call recorded, iterator allocated at [a], registered under [id]
    and advanced once. *)
Definition scanOpened (uuid id : string) (a : nat) (kvs : list (string * string))
    (call : Action) (m : gmap string bool) (tm : gmap string transactionContext)
    (c : transactionContext) (h : Handler) : Handler :=
  set_iterators (<[a := iterAt kvs 0]> (<[a := mkIter None kvs 0]> (iterators h)))
    (set_txCtxs (Some (<[uuid := withIteratorMap (insert id a) c]> tm))
       (set_uuidsGenerated (S (uuidsGenerated h))
          (set_iterators (<[a := mkIter None kvs 0]> (iterators h))
             (set_trace (trace h ++ [call]) (guardTaken uuid m h))))).

(** The worker's side of a scan: the opening RANGE_QUERY_STATE, then [j]
    RANGE_QUERY_STATE_NEXT requests, each issued after the reply to the
    previous one. *)
Fixpoint scanRun (env : Environment) (first next : ChaincodeMessage) (j : nat)
    (h : Handler) : outcome unit :=
  match j with
  | O => handleRangeQueryState_task env first h
  | S j' =>
      match scanRun env first next j' h with
      | Ret _ h' => handleRangeQueryStateNext_task env next h'
      | o => o
      end
  end.

(** The [j]-th reply frame of a scan over [kvs]. *)
Definition scanFrame (dec : string -> string) (id : string) (kvs : list (string * string))
    (j : nat) : RangeQueryStateResponse :=
  pageFrame dec id (drop (j * maxRangeQueryStateLimit) kvs).

(** The ledger interval of the paging scenario: 250 entries. *)
Definition scanLedger : list (string * string) := replicate 250 ("k", "v").

(** * The rest of the handler *)

(** ** Deploy security context and the entry points of the host *)

Record pb_ChaincodeID : Set := mkChaincodeID { cid_Path : string; cid_Name : string }.

Record ChaincodeInput : Set := mkChaincodeInput {
  Function : string;
  Args : list string
}.

(** Modelled from the spec: the protobuf codec of transactions, chaincode
    identifiers and chaincode inputs is not under src/; payloads are "opaque
    byte strings with schema-typed wrappers". *)
Record SecCodec : Type := {
  Marshal_Transaction : option Transaction -> result string;
  Unmarshal_Transaction : string -> result Transaction;
  Unmarshal_pb_ChaincodeID : string -> result pb_ChaincodeID;
  Marshal_pb_ChaincodeID : pb_ChaincodeID -> result string;
  Marshal_ChaincodeInput : ChaincodeInput -> result string
}.

Definition set_deployTXSecContext (v : option Transaction) (h : Handler) : Handler :=
  mkHandler (FSM_current h) (ChaincodeID h) v (registered h) (readyNotify h)
    (txCtxs h) (uuidMap h) (isTransaction h) (nextState h) (iterators h)
    (uuidsGenerated h) (spawned h) (trace h).

Definition newline : string := String (Ascii.ascii_of_nat 10) "".

Section Entry.

Context (env : Environment) (codec : SecCodec).

Definition cloneTx (tx : option Transaction) : result Transaction :=
  match Marshal_Transaction codec tx with
  | fail err => fail err
  | ok raw =>
      match Unmarshal_Transaction codec raw with
      | fail err => fail err
      | ok clone => ok clone
      end
  end.

(** The code after the deploy transaction is installed: strip the payload,
    then erase the path of the embedded chaincode identifier. *)
Definition stripDeployTx : M (option error) :=
  do h <- get;
  do d <- deref (deployTXSecContext h);
  let d1 := mkTx (tx_Type d) (tx_ChaincodeID d) "" (tx_Uuid d) in
  run modify (set_deployTXSecContext (Some d1));
  match Unmarshal_pb_ChaincodeID codec (tx_ChaincodeID d1) with
  | fail err =>
      ret (Some (errorString ("Failed to unmarshall : " +:+ error_Error err +:+ newline)))
  | ok cID =>
      match Marshal_pb_ChaincodeID codec (mkChaincodeID "" (cid_Name cID)) with
      | fail err =>
          ret (Some (errorString ("Failed to marshall : " +:+ error_Error err +:+ newline)))
      | ok data =>
          run modify (set_deployTXSecContext
                        (Some (mkTx (tx_Type d1) data (tx_Payload d1) (tx_Uuid d1))));
          ret None
      end
  end.

Definition initializeSecContext (tx depTx : option Transaction) : M (option error) :=
  match depTx with
  | Some d =>
      run modify (set_deployTXSecContext (Some d));
      stripDeployTx
  | None =>
      match cloneTx tx with
      | fail err =>
          run modify (set_deployTXSecContext None);
          ret (Some (errorString ("Failed to clone transaction: " +:+ error_Error err
                                  +:+ newline)))
      | ok clone =>
          run modify (set_deployTXSecContext (Some clone));
          stripDeployTx
      end
  end.

(** [initOrReady]: [f] is a pointer to the function name and [initArgs] a
    slice, both possibly nil.  When the input does not marshal, the error
    message reads [ccMsg.Type] through the still nil [ccMsg]. *)
Definition initOrReady (uuid : string) (f : option string) (initArgs : option (list string))
    (tx depTx : option Transaction) : M (result unit) :=
  do created <- createTxContext uuid tx;
  match created with
  | fail funcErr => ret (fail funcErr)
  | ok _ =>
      do chosen <-
        (if bool_decide (is_Some f) || bool_decide (is_Some initArgs) then
           let f2 := default "" f in
           let funcArgsMsg := mkChaincodeInput f2 (default [] initArgs) in
           match Marshal_ChaincodeInput codec funcArgsMsg with
           | fail funcErr =>
               run deleteTxContext uuid;
               panic
           | ok payload => ret (mkMsg ChaincodeMessage_INIT payload uuid, false)
           end
         else ret (mkMsg ChaincodeMessage_READY "" uuid, true));
      let '(ccMsg, send) := chosen in
      do err <- initializeSecContext tx depTx;
      match err with
      | Some e =>
          run deleteTxContext uuid;
          ret (fail e)
      | None =>
          run triggerNextState (Some ccMsg) send;
          ret (ok tt)
      end
  end.

(** The loop of [processStream] on the successive values its [select]
    receives; the list ends while the loop is still running. *)
Fixpoint processStream (sels : list selected) : M (option error) :=
  match sels with
  | [] => ret None
  | sel :: rest =>
      do r <- processStream_turn env sel;
      match r with
      | Some err => ret (Some err)
      | None => processStream rest
      end
  end.

Definition HandleChaincodeStream (sels : list selected) : outcome (option error) :=
  processStream sels newChaincodeSupportHandler.

End Entry.

(** ** Notions used in the further properties *)

(** The goroutine a read request starts. *)
Definition readTaskOf (msg : ChaincodeMessage) : option Task :=
  match Type_ msg with
  | ChaincodeMessage_GET_STATE => Some (T_handleGetState msg)
  | ChaincodeMessage_RANGE_QUERY_STATE => Some (T_handleRangeQueryState msg)
  | ChaincodeMessage_RANGE_QUERY_STATE_NEXT => Some (T_handleRangeQueryStateNext msg)
  | ChaincodeMessage_RANGE_QUERY_STATE_CLOSE => Some (T_handleRangeQueryStateClose msg)
  | _ => None
  end.

(** The context of a waiter after [msg] has been put on its channel. *)
Definition delivered (msg : ChaincodeMessage) (c : transactionContext)
  : transactionContext :=
  mkTxCtx (transactionSecContext c) (responseNotifier c ++ [msg]) (rangeQueryIteratorMap c).

(** The iterator objects after [Close] has been called on every value of
    the registry [reg]. *)
Definition closeAll (reg : gmap string nat) (its : gmap nat RangeScanIterator)
  : gmap nat RangeScanIterator :=
  map_fold (fun _ v acc => alter iter_Close v acc) its reg.

(** The number of ids under which the iterator [a] is registered. *)
Definition registrations (reg : gmap string nat) (a : nat) : nat :=
  size (filter (fun p => p.2 = a) reg).

(** The state [notify] leaves when the channel of the context is free. *)
Definition notified (msg : ChaincodeMessage) (tm : gmap string transactionContext)
    (c : transactionContext) (h : Handler) : Handler :=
  set_iterators (closeAll (rangeQueryIteratorMap c) (iterators h))
    (set_txCtxs (Some (<[Uuid msg := delivered msg c]> tm)) h).

(** The busy state a write-class request leads to. *)
Definition busyState (current : string) : string :=
  if decide (current = initstate) then busyinitstate else busyxactstate.

(** The sample session with an iterator of [tx1] open under the id [it0]. *)
Definition scanningHandler : Handler :=
  mkHandler transactionstate (Some "cc") (Some deployTx) true None
    (Some {[ "tx1" := mkTxCtx (Some executeTx) [] {[ "it0" := 0 ]} ]})
    (Some ∅)
    (Some {[ "tx1" := true ]})
    [] {[ 0 := mkIter (Some ("k", "v")) [("l", "w")] 0 ]} 1 [] [].

(** A registered handler that has just completed the handshake. *)
Definition establishedHandler : Handler :=
  mkHandler establishedstate (Some "cc") None true (Some [])
    (Some ∅) (Some ∅) (Some ∅) [] ∅ 0 [] [].

(** A codec for the sample session: a transaction is encoded as its
    chaincode identifier and decoded as the deploy transaction [dep1]; a
    chaincode identifier is encoded as its name and decoded with the path
    [/go/src/cc]; an input is encoded as its function name. *)
Definition sampleCodec : SecCodec := {|
  Marshal_Transaction := fun tx =>
    match tx with
    | Some t => ok (tx_ChaincodeID t)
    | None => fail (errorString "proto: Marshal called with nil")
    end;
  Unmarshal_Transaction := fun raw => ok (mkTx Transaction_CHAINCODE_NEW raw "" "dep1");
  Unmarshal_pb_ChaincodeID := fun raw =>
    match raw with
    | "" => fail (errorString "unexpected EOF")
    | _ => ok (mkChaincodeID "/go/src/cc" raw)
    end;
  Marshal_pb_ChaincodeID := fun cid => ok (cid_Name cid);
  Marshal_ChaincodeInput := fun input => ok (Function input)
|}.

(** The pairs (type, state) whose transition enters [ready] from another
    state. *)
Definition entersReady (t : ChaincodeMessage_Type) (current : string) : Prop :=
  (t = ChaincodeMessage_COMPLETED /\ (current = initstate \/ current = transactionstate)) \/
  (t = ChaincodeMessage_ERROR /\ current = transactionstate) \/
  (t = ChaincodeMessage_READY /\ current = establishedstate).

(** The handler once the FSM has entered [ready] for [uuid], before the
    waiter is notified. *)
Definition readied (uuid : string) (h : Handler) : Handler :=
  withoutTransactionMark uuid (set_FSM_current readystate h).

(** The frame the waiter of a query receives for the closing frame [msg] of
    the worker: the encrypted result, or the report of the encryption
    failure; a QUERY_ERROR frame is passed as it is. *)
Definition queryReply (env : Environment) (msg : ChaincodeMessage) (h : Handler)
  : ChaincodeMessage :=
  if decide (Type_ msg = ChaincodeMessage_QUERY_COMPLETED) then
    match cryptoResult env true (Uuid msg) (Payload msg)
                       (txContextOf h (Uuid msg)) (deployTXSecContext h) with
    | ok payload => mkMsg ChaincodeMessage_QUERY_COMPLETED payload (Uuid msg)
    | fail err =>
        mkMsg ChaincodeMessage_QUERY_ERROR
              ("Failed to encrypt query result " +:+ error_Error err) (Uuid msg)
    end
  else msg.

Definition closesQuery (t : ChaincodeMessage_Type) : Prop :=
  t = ChaincodeMessage_QUERY_COMPLETED \/ t = ChaincodeMessage_QUERY_ERROR.

(** What a PUT_STATE request does to the ledger ([fst]) and the frame it
    queues for the worker ([snd]): the value is encrypted first, and the
    ledger is reached only when that succeeds. *)
Definition putOutcome (env : Environment) (m : ChaincodeMessage) (info : PutStateInfo)
    (h : Handler) (chaincodeID : string) : list Action * ChaincodeMessage :=
  match cryptoResult env true (Uuid m) (psi_Value info)
                     (txContextOf h (Uuid m)) (deployTXSecContext h) with
  | ok pVal =>
      ([A_SetState chaincodeID (psi_Key info) pVal],
       busyReply m (SetState env chaincodeID (psi_Key info) pVal) "")
  | fail err => ([], ERROR_msg (error_Error err) (Uuid m))
  end.

(** The handler after the goroutine of [enterBusyState] has done the calls
    [acts] and queued [reply]; [gm] is the guard table it started with. *)
Definition busyDone (acts : list Action) (reply : ChaincodeMessage) (uuid : string)
    (gm : gmap string bool) (h : Handler) : Handler :=
  set_nextState (nextState h ++ [mkNext (Some reply) true])
    (set_uuidMap (Some (delete uuid (<[uuid := true]> gm)))
       (set_trace (trace h ++ acts) h)).

(** The handler after the goroutine of [enterBusyState] has panicked past
    the calls [acts]: its deferred function has released the guard and then
    failed on the nil reply, so nothing is queued. *)
Definition busyPanicked (acts : list Action) (uuid : string)
    (gm : gmap string bool) (h : Handler) : Handler :=
  set_uuidMap (Some (delete uuid (<[uuid := true]> gm)))
    (set_trace (trace h ++ acts) h).

(** The environment [env] with another answer of [Execute]. *)
Definition set_Execute
    (f : string -> ChaincodeMessage -> option ChaincodeMessage * option error)
    (env : Environment) : Environment := {|
  getSecHelper := getSecHelper env;
  GetLedger := GetLedger env;
  GetState := GetState env;
  SetState := SetState env;
  DeleteState := DeleteState env;
  GetStateRangeScanIterator := GetStateRangeScanIterator env;
  GenerateUUID := GenerateUUID env;
  Send := Send env;
  registerHandler := registerHandler env;
  LaunchChaincode := LaunchChaincode env;
  Execute := f;
  Unmarshal_ChaincodeID := Unmarshal_ChaincodeID env;
  Unmarshal_PutStateInfo := Unmarshal_PutStateInfo env;
  Unmarshal_ChaincodeSpec := Unmarshal_ChaincodeSpec env;
  Unmarshal_RangeQueryState := Unmarshal_RangeQueryState env;
  Unmarshal_RangeQueryStateNext := Unmarshal_RangeQueryStateNext env;
  Unmarshal_RangeQueryStateClose := Unmarshal_RangeQueryStateClose env;
  Marshal_RangeQueryStateResponse := Marshal_RangeQueryStateResponse env
|}.

(** The reply of [handleQueryChaincode] once [Execute] has answered. *)
Definition queryChaincodeReply (msg : ChaincodeMessage)
    (response : option ChaincodeMessage) (execErr : option error) : option ChaincodeMessage :=
  match execErr with
  | Some err => Some (ERROR_msg (error_Error err) (Uuid msg))
  | None => (fun r => RESPONSE_msg (Payload r) (Uuid msg)) <$> response
  end.

(** The handler after the goroutine of [handleQueryChaincode] has done the
    calls [acts] and sent [reply] itself. *)
Definition queryServed (acts : list Action) (reply : ChaincodeMessage) (uuid : string)
    (gm : gmap string bool) (h : Handler) : Handler :=
  set_trace (trace h ++ acts ++ [A_Send reply])
    (set_uuidMap (Some (delete uuid (<[uuid := true]> gm))) h).

(** The event a write-class request raises and the handler that has
    admitted it: the FSM in the busy state, the goroutine started. *)
Definition writeEvent (msg : ChaincodeMessage) (current : string) : Event :=
  mkEvent (Type_String (Type_ msg)) current (busyState current) None
          [I_msg (Some msg)] false.

Definition writeAdmitted (msg : ChaincodeMessage) (h : Handler) : Handler :=
  set_spawned (spawned h ++ [T_enterBusyState (writeEvent msg (FSM_current h))
                                              (busyState (FSM_current h))])
    (set_FSM_current (busyState (FSM_current h)) h).

(** The frames that close a busy state. *)
Definition closesBusy (t : ChaincodeMessage_Type) : Prop :=
  t = ChaincodeMessage_RESPONSE \/ t = ChaincodeMessage_ERROR.

(** The handler after the pump has taken [msg] from [nextState], whose
    other entries are [q], moved back to the parent state and forwarded
    [msg] to the worker. *)
Definition busyClosed (msg : ChaincodeMessage) (q : list nextStateInfo) (h : Handler)
  : Handler :=
  set_trace (trace h ++ [A_Send msg])
    (set_FSM_current (parentState (FSM_current h)) (set_nextState q h)).

(** The handler after [notifyDuringStartup val]. *)
Definition startupNotified (val : bool) (h : Handler) : Handler :=
  match readyNotify h with
  | Some ch => set_readyNotify (Some (ch ++ [val])) h
  | None => h
  end.

Definition REGISTERED_msg : ChaincodeMessage := mkMsg ChaincodeMessage_REGISTERED "" "".

(** The cause [beforeRegisterEvent] cancels the REGISTER event with, if
    any: the payload is not a chaincode identifier, the support plane
    refuses the handler, or REGISTERED cannot be sent. *)
Definition registerError (env : Environment) (payload : string) : option error :=
  match Unmarshal_ChaincodeID env payload with
  | fail err =>
      Some (errorString
              ("Error in received REGISTER, could NOT unmarshal registration info: "
               +:+ error_Error err))
  | ok chaincodeID =>
      match registerHandler env chaincodeID with
      | Some err => Some err
      | None =>
          match Send env REGISTERED_msg with
          | Some err =>
              Some (errorString ("Error sending REGISTERED: "
                                 +:+ "Error sending REGISTERED: " +:+ error_Error err))
          | None => None
          end
      end
  end.

(** The handler after a REGISTER frame for [chaincodeID] was handled:
    [sent] tells whether the support plane accepted the handler (and
    REGISTERED was put on the stream), [moved] whether the handshake
    succeeded. *)
Definition registerTried (chaincodeID : string) (sent moved : bool) (h : Handler)
  : Handler :=
  let h1 := set_trace (trace h ++ [A_registerHandler chaincodeID])
              (set_ChaincodeID (Some chaincodeID) h) in
  let h2 := if sent
            then set_trace (trace h1 ++ [A_Send REGISTERED_msg]) (registeredBySupport h1)
            else h1 in
  startupNotified moved (if moved then set_FSM_current establishedstate h2 else h2).

(** The environment [env] with another decoder of chaincode identifiers. *)
Definition set_Unmarshal_ChaincodeID (f : string -> result string)
    (env : Environment) : Environment := {|
  getSecHelper := getSecHelper env;
  GetLedger := GetLedger env;
  GetState := GetState env;
  SetState := SetState env;
  DeleteState := DeleteState env;
  GetStateRangeScanIterator := GetStateRangeScanIterator env;
  GenerateUUID := GenerateUUID env;
  Send := Send env;
  registerHandler := registerHandler env;
  LaunchChaincode := LaunchChaincode env;
  Execute := Execute env;
  Unmarshal_ChaincodeID := f;
  Unmarshal_PutStateInfo := Unmarshal_PutStateInfo env;
  Unmarshal_ChaincodeSpec := Unmarshal_ChaincodeSpec env;
  Unmarshal_RangeQueryState := Unmarshal_RangeQueryState env;
  Unmarshal_RangeQueryStateNext := Unmarshal_RangeQueryStateNext env;
  Unmarshal_RangeQueryStateClose := Unmarshal_RangeQueryStateClose env;
  Marshal_RangeQueryStateResponse := Marshal_RangeQueryStateResponse env
|}.

(** The handler once [sendExecuteMessage] has installed the context of
    [msg] and marked its uuid: a QUERY frame is marked [false], every other
    type [true]. *)
Definition executeMarked (msg : ChaincodeMessage) (tx : option Transaction)
    (tm : gmap string transactionContext) (im : gmap string bool) (h : Handler) : Handler :=
  set_isTransaction
    (Some (<[Uuid msg := negb (bool_decide (Type_ msg = ChaincodeMessage_QUERY))]> im))
    (set_txCtxs (Some (<[Uuid msg := mkTxCtx tx [] ∅]> tm)) h).

(** The environment [env] with another transport. *)
Definition set_Send (f : ChaincodeMessage -> option error)
    (env : Environment) : Environment := {|
  getSecHelper := getSecHelper env;
  GetLedger := GetLedger env;
  GetState := GetState env;
  SetState := SetState env;
  DeleteState := DeleteState env;
  GetStateRangeScanIterator := GetStateRangeScanIterator env;
  GenerateUUID := GenerateUUID env;
  Send := f;
  registerHandler := registerHandler env;
  LaunchChaincode := LaunchChaincode env;
  Execute := Execute env;
  Unmarshal_ChaincodeID := Unmarshal_ChaincodeID env;
  Unmarshal_PutStateInfo := Unmarshal_PutStateInfo env;
  Unmarshal_ChaincodeSpec := Unmarshal_ChaincodeSpec env;
  Unmarshal_RangeQueryState := Unmarshal_RangeQueryState env;
  Unmarshal_RangeQueryStateNext := Unmarshal_RangeQueryStateNext env;
  Unmarshal_RangeQueryStateClose := Unmarshal_RangeQueryStateClose env;
  Marshal_RangeQueryStateResponse := Marshal_RangeQueryStateResponse env
|}.

(** [m] never panics, and what it returns satisfies [Q]. *)
Definition noPanic {A} (Q : A -> Prop) (m : M A) : Prop :=
  forall h, match m h with
            | Ret a _ => Q a
            | Panic _ => False
            | Block _ => True
            end.

(** The event [e] has the chaincode message [msg] as its first argument. *)
Definition carries (msg : ChaincodeMessage) (e : Event) : Prop :=
  exists rest, ev_Args e = I_msg (Some msg) :: rest.

Definition any {A} (_ : A) : Prop := True.

(** The deploy transaction [initializeSecContext] keeps of [d]: no payload,
    and the chaincode identifier encoded again without its path. *)
Definition strippedDeployTx (codec : SecCodec) (d : Transaction) : result Transaction :=
  match Unmarshal_pb_ChaincodeID codec (tx_ChaincodeID d) with
  | fail err => fail (errorString ("Failed to unmarshall : " +:+ error_Error err +:+ newline))
  | ok cID =>
      match Marshal_pb_ChaincodeID codec (mkChaincodeID "" (cid_Name cID)) with
      | fail err =>
          fail (errorString ("Failed to marshall : " +:+ error_Error err +:+ newline))
      | ok data => ok (mkTx (tx_Type d) data "" (tx_Uuid d))
      end
  end.

(** The deploy security context installed for the pair ([tx], [depTx]). *)
Definition deployContext (codec : SecCodec) (tx depTx : option Transaction)
  : result Transaction :=
  match depTx with
  | Some d => strippedDeployTx codec d
  | None =>
      match cloneTx codec tx with
      | fail err =>
          fail (errorString ("Failed to clone transaction: " +:+ error_Error err +:+ newline))
      | ok clone => strippedDeployTx codec clone
      end
  end.

(** The frame [initOrReady] queues and its forward flag: INIT, not
    forwarded, when a function or arguments are given; READY, forwarded,
    otherwise.  None when the input cannot be encoded. *)
Definition startFrame (codec : SecCodec) (uuid : string) (f : option string)
    (initArgs : option (list string)) : option (ChaincodeMessage * bool) :=
  if bool_decide (is_Some f) || bool_decide (is_Some initArgs) then
    match Marshal_ChaincodeInput codec
            (mkChaincodeInput (default "" f) (default [] initArgs)) with
    | ok payload => Some (mkMsg ChaincodeMessage_INIT payload uuid, false)
    | fail _ => None
    end
  else Some (mkMsg ChaincodeMessage_READY "" uuid, true).

(** The handler after a successful [initOrReady]. *)
Definition started (uuid : string) (tx : option Transaction) (d : Transaction)
    (ccMsg : ChaincodeMessage) (send : bool)
    (tm : gmap string transactionContext) (h : Handler) : Handler :=
  set_nextState (nextState h ++ [mkNext (Some ccMsg) send])
    (set_deployTXSecContext (Some d)
       (set_txCtxs (Some (<[uuid := mkTxCtx tx [] ∅]> tm)) h)).

(** The handler after [markIsTransaction uuid b]. *)
Definition markedAs (uuid : string) (b : bool) (h : Handler) : Handler :=
  match isTransaction h with
  | Some m => set_isTransaction (Some (<[uuid := b]> m)) h
  | None => h
  end.

(** The handler once the FSM has entered [init] on the INIT frame [msg]
    and the frame has been put on the stream. *)
Definition initSent (msg : ChaincodeMessage) (h : Handler) : Handler :=
  set_trace (trace h ++ [A_Send msg])
    (markedAs (Uuid msg) true (set_FSM_current initstate (startupNotified true h))).

(** [m] takes every handler to one related to it by [R], however it ends. *)
Definition keeps {A} (R : Handler -> Handler -> Prop) (m : M A) : Prop :=
  forall h, R h (final (m h)).

Definition isReadOrSend (a : Action) : bool :=
  match a with
  | A_Send _ | A_GetState _ _ _ | A_GetStateRangeScanIterator _ _ _ _ => true
  | _ => false
  end.

(** What a read action leaves alone: the FSM, the transaction marks, the
    [nextState] queue, the goroutines, the registration and the deploy
    security context; and its calls are ledger reads and sends only. *)
Definition readFrame (h h' : Handler) : Prop :=
  FSM_current h' = FSM_current h /\
  isTransaction h' = isTransaction h /\
  nextState h' = nextState h /\
  spawned h' = spawned h /\
  registered h' = registered h /\
  deployTXSecContext h' = deployTXSecContext h /\
  ChaincodeID h' = ChaincodeID h /\
  exists tail, trace h' = trace h ++ tail /\ forallb isReadOrSend tail = true.

(** The four read actions. *)
Definition isReadTask (t : Task) : bool :=
  match t with
  | T_handleGetState _ | T_handleRangeQueryState _
  | T_handleRangeQueryStateNext _ | T_handleRangeQueryStateClose _ => true
  | _ => false
  end.

(** The FSM is in the same state in [h'] as in [h]. *)
Definition fsmFrame (h h' : Handler) : Prop := FSM_current h' = FSM_current h.

(** The error of the gate of [HandleMessage] for a frame the FSM cannot
    handle in state [current]. *)
Definition gateError (msg : ChaincodeMessage) (marked : bool) (current : string) : error :=
  if isWriteClass (Type_ msg) && negb marked then
    errorString ("Cannot handle " +:+ Type_String (Type_ msg) +:+ " in query context")
  else
    errorString
      ("[" +:+ Uuid msg +:+ "]Chaincode handler validator FSM cannot handle message ("
       +:+ Type_String (Type_ msg) +:+ ") with payload size ("
       +:+ pretty (String.length (Payload msg)) +:+ ") while in state: " +:+ current).

(** Whether the guard of [u] is held. *)
Definition guardOf (h : Handler) (u : string) : bool :=
  match uuidMap h with
  | Some g => default false (g !! u)
  | None => false
  end.

(** The guard table is the same in [h'] as in [h]. *)
Definition guardFrame (h h' : Handler) : Prop := uuidMap h' = uuidMap h.

(** [P] holds of the handler a computation that returned or panicked left. *)
Definition ends {A} (P : Handler -> Prop) (o : outcome A) : Prop :=
  match o with
  | Ret _ h' | Panic h' => P h'
  | Block _ => True
  end.

(** * Properties *)

(** ** Pure views of the handler tables *)

Lemma getIsTransaction_spec uuid h :
  getIsTransaction uuid h = Ret (isTransactionMark h uuid) h.
Proof.
  unfold getIsTransaction, isTransactionMark, bind, get, ret.
  by destruct (isTransaction h).
Qed.

Lemma getTxContext_spec uuid h :
  getTxContext uuid h = Ret (match txContextOf h uuid with Some _ => Some uuid | None => None end) h.
Proof.
  unfold getTxContext, txContextOf, bind, get, ret.
  by destruct (txCtxs h).
Qed.

Lemma load_txContext_spec uuid h c :
  txContextOf h uuid = Some c -> load_txContext (Some uuid) h = Ret c h.
Proof.
  unfold load_txContext, txContextOf, bind, get, ret, deref; simpl.
  destruct (txCtxs h); [|done]. simpl. by intros ->.
Qed.

(** ** Crypto mediator *)

Lemma encryptOrDecrypt_pure env encrypt uuid payload h :
  encryptOrDecrypt env encrypt uuid payload h =
  Ret (cryptoResult env encrypt uuid payload (txContextOf h uuid) (deployTXSecContext h)) h.
Proof.
  unfold encryptOrDecrypt, cryptoResult.
  destruct (getSecHelper env) as [secHelper|]; [|done].
  unfold bind at 1. rewrite getTxContext_spec.
  destruct (txContextOf h uuid) as [c|] eqn:Hc; [|done].
  unfold bind at 1. rewrite (load_txContext_spec _ _ _ Hc).
  destruct (transactionSecContext c) as [tx|]; [|done].
  unfold bind, get, ret, useEncryptor.
  destruct (tx_Type tx); simpl; try reflexivity;
    by destruct (GetStateEncryptor _ _ _) as [[enc|] [err|]]; destruct encrypt.
Qed.

(** C7. [encryptOrDecrypt] never changes the handler.  Without a security
    helper the payload comes back unchanged.  With one, it fails when the
    uuid has no transaction context or the context has no security context;
    the encryptor is derived from (deploy, deploy) for a CHAINCODE_NEW
    (deploy) transaction and from (deploy, transaction) for an EXECUTE or
    QUERY transaction; every other type fails with "invalid transaction
    type". *)
Theorem encryptOrDecrypt_policy (env : Environment) (encrypt : bool)
    (uuid payload : string) (h : Handler) :
  (getSecHelper env = None ->
   encryptOrDecrypt env encrypt uuid payload h = Ret (ok payload) h) /\
  (forall secHelper, getSecHelper env = Some secHelper ->
     (txContextOf h uuid = None ->
      exists e, encryptOrDecrypt env encrypt uuid payload h = Ret (fail e) h) /\
     (forall c, txContextOf h uuid = Some c ->
        (transactionSecContext c = None ->
         exists e, encryptOrDecrypt env encrypt uuid payload h = Ret (fail e) h) /\
        (forall tx, transactionSecContext c = Some tx ->
           encryptOrDecrypt env encrypt uuid payload h =
           Ret (match tx_Type tx with
                | Transaction_CHAINCODE_NEW =>
                    useEncryptor encrypt uuid payload
                      "error getting crypto encryptor for deploy tx :"
                      (GetStateEncryptor secHelper (deployTXSecContext h)
                                         (deployTXSecContext h))
                | Transaction_CHAINCODE_EXECUTE | Transaction_CHAINCODE_QUERY =>
                    useEncryptor encrypt uuid payload
                      "error getting crypto encryptor "
                      (GetStateEncryptor secHelper (deployTXSecContext h) (Some tx))
                | other =>
                    fail (errorString ("invalid transaction type "
                                       +:+ Transaction_Type_String other))
                end) h))).
Proof.
  rewrite encryptOrDecrypt_pure. unfold cryptoResult. split.
  - by intros ->.
  - intros secHelper ->. split.
    + intros ->. eauto.
    + intros c ->. split.
      * intros ->. eauto.
      * by intros tx ->.
Qed.

(** Witness for C7: the query [q1] of the sample session encrypts with the
    encryptor derived from (deploy, query); without a helper the payload is
    unchanged. *)
Lemma encryptOrDecrypt_policy_witness :
  encryptOrDecrypt (sampleEnv None []) true "q1" "result" (sampleHandler readystate)
  = Ret (ok "result") (sampleHandler readystate) /\
  encryptOrDecrypt (sampleEnv (Some sampleSecHelper) []) true "q1" "result"
                   (sampleHandler readystate)
  = Ret (ok "CHAINCODE_NEW/CHAINCODE_QUERY:result") (sampleHandler readystate).
Proof.
  split.
  - apply (proj1 (encryptOrDecrypt_policy (sampleEnv None []) true "q1" "result"
                    (sampleHandler readystate))).
    reflexivity.
  - pose proof (proj2 (encryptOrDecrypt_policy (sampleEnv (Some sampleSecHelper) [])
                         true "q1" "result" (sampleHandler readystate))
                  sampleSecHelper eq_refl) as [_ H].
    destruct (H (mkTxCtx (Some queryTx) [] ∅) ltac:(vm_compute; reflexivity)) as [_ H'].
    exact (H' queryTx eq_refl).
Defined.

(** ** Error filter *)

Lemma filterError_cases (e : option error) :
  filterError e =
  match e with
  | Some (NoTransitionError (Some _)) | Some (CanceledError (Some _)) => e
  | _ => None
  end.
Proof. by destruct e as [[ | [] | [] | | | | ]|]. Qed.

(** C5. [filterError] swallows a no-transition error and a canceled error
    that carry no cause, and returns them when they carry one.  Every other
    error, however, is swallowed too: a plain error (whatever its text) and
    the other error types of the FSM library come back as nil.  An ERROR
    frame in state [init] is such an event: the FSM reports the plain error
    "Entered end state". *)
Theorem filterError_swallows_other_errors :
  filterError (Some (NoTransitionError None)) = None /\
  filterError (Some (CanceledError None)) = None /\
  (forall cause, filterError (Some (NoTransitionError (Some cause)))
                 = Some (NoTransitionError (Some cause))) /\
  (forall cause, filterError (Some (CanceledError (Some cause)))
                 = Some (CanceledError (Some cause))) /\
  (forall text, filterError (Some (errorString text)) = None) /\
  (forall ev st, filterError (Some (InvalidEventError ev st)) = None) /\
  filterError (Some InternalError) = None /\
  exists h',
    fsm.FSM_Event Events (Callbacks (sampleEnv None [])) "ERROR"
      [I_msg (Some (ERROR_msg "init failed" "tx1"))] (sampleHandler initstate)
    = Ret (Some (errorString "Entered end state")) h'.
Proof.
  repeat split; try reflexivity.
  eexists. vm_compute. reflexivity.
Qed.

(** ** Callbacks entering [ready] and [end] *)

Lemma deleteIsTransaction_total uuid h : exists h', deleteIsTransaction uuid h = Ret tt h'.
Proof.
  unfold deleteIsTransaction, bind, get, modify, ret.
  destruct (isTransaction h); eauto.
Qed.

Lemma notify_no_panic msg h h' : notify msg h <> Panic h'.
Proof.
  unfold notify, bind, get, modify, ret, block.
  destruct (txCtxs h) as [m|]; [|done].
  destruct (m !! Uuid msg) as [tctx|]; [|done].
  by case_decide.
Qed.

(** C9. [enterReadyState] and [enterEndState] read [msg.Uuid] before they
    test the result of the type assertion: when the first event argument is
    not a chaincode message they panic on the nil message instead of
    cancelling the event ([enterInitState], which tests first, cancels).
    They return only when the first argument is a chaincode message, and
    with such an argument they do not panic. *)
Theorem enterReady_enterEnd_need_message (env : Environment) (e : Event)
    (state : string) (h : Handler) :
  (forall rest, ev_Args e = I_other :: rest ->
     enterReadyState e state h = Panic h /\
     enterEndState e state h
       = Panic (if registered h then set_trace (trace h ++ [A_deregisterHandler]) h else h) /\
     enterInitState env e state h = Ret (fsm.Cancel unexpectedType e) h) /\
  (forall r h', enterReadyState e state h = Ret r h' \/ enterEndState e state h = Ret r h' ->
     exists m rest, ev_Args e = I_msg (Some m) :: rest) /\
  (forall m rest h', ev_Args e = I_msg (Some m) :: rest ->
     enterReadyState e state h <> Panic h' /\ enterEndState e state h <> Panic h').
Proof.
  split; [|split].
  - intros rest Hargs.
    unfold enterReadyState, enterEndState, enterInitState, with_defer_ret, deregister,
      Args0, bind, get, ret, panic.
    rewrite Hargs. simpl. repeat split.
    destruct (registered h); reflexivity.
  - intros r h' Hret.
    unfold enterReadyState, enterEndState, with_defer_ret, Args0, bind in Hret.
    destruct (ev_Args e) as [|[[m|]|] rest]; simpl in Hret; try (by destruct Hret);
      try (by eauto).
    + destruct Hret as [Hret|Hret]; [done|].
      unfold deregister, bind, get, ret, panic in Hret.
      by destruct (registered h).
    + destruct Hret as [Hret|Hret]; [done|].
      unfold deregister, bind, get, ret, panic in Hret.
      by destruct (registered h).
    + destruct Hret as [Hret|Hret]; [done|].
      unfold deregister, bind, get, ret, panic in Hret.
      by destruct (registered h).
  - intros m rest h' Hargs.
    unfold enterReadyState, enterEndState, with_defer_ret, Args0, bind.
    rewrite Hargs. simpl.
    destruct (deleteIsTransaction_total (Uuid m) h) as [h1 ->].
    pose proof (notify_no_panic m h1) as Hn.
    split.
    + destruct (notify m h1); [done| |done]. intros ?. by eapply Hn.
    + destruct (notify m h1) as [[] h2|h2|h2].
      * unfold deregister, bind, get, ret. by destruct (registered h2).
      * by destruct (Hn h2).
      * done.
Qed.

(** Witness for C9: a COMPLETED event whose argument is not a message. *)
Lemma enterReady_enterEnd_need_message_witness :
  enterReadyState (mkEvent "COMPLETED" transactionstate readystate None [I_other] false)
                  readystate (sampleHandler readystate)
  = Panic (sampleHandler readystate).
Proof.
  apply (proj1 (enterReady_enterEnd_need_message (sampleEnv None [])
                  (mkEvent "COMPLETED" transactionstate readystate None [I_other] false)
                  readystate (sampleHandler readystate)) []).
  reflexivity.
Defined.

(** ** The transition table and the admissibility gate *)

Lemma transitionList_eq : map_to_list transitions = transitionList.
Proof. vm_compute. reflexivity. Qed.

Lemma transitions_spec t s : transitions !! (Type_String t, s) = spec_transition t s.
Proof.
  destruct (transitions !! (Type_String t, s)) as [d|] eqn:E.
  - apply elem_of_map_to_list in E. rewrite transitionList_eq in E.
    unfold transitionList in E.
    repeat (apply elem_of_cons in E as [E|E];
            [injection E as E1 E2 E3; destruct t; try discriminate E1; subst; reflexivity|]).
    by apply elem_of_nil in E.
  - symmetry. destruct t; unfold spec_transition, selfLoopStates; try reflexivity;
      repeat case_decide; try reflexivity; exfalso;
      repeat match goal with
      | H : _ ∈ _ :: _ |- _ => apply elem_of_cons in H as [H|H]
      | H : _ ∈ [] |- _ => by apply elem_of_nil in H
      end; subst; vm_compute in E; discriminate E.
Qed.

Lemma Cannot_spec t h :
  fsm.Cannot transitions (Type_String t) h
  = Ret (negb (bool_decide (is_Some (spec_transition t (FSM_current h))))) h.
Proof.
  unfold fsm.Cannot, fsm.Can, bind, get, ret. by rewrite transitions_spec.
Qed.




(** ** Moving the FSM *)

(** [FSM_Event] on a transition that changes the state and has neither a
    [before_] nor a [leave_] callback. *)
Lemma FSM_Event_move env t args h dst :
  spec_transition t (FSM_current h) = Some dst ->
  FSM_current h <> dst ->
  fsm.find_callback ("before_" +:+ Type_String t) (Callbacks env) = None ->
  fsm.find_callback ("leave_" +:+ FSM_current h) (Callbacks env) = None ->
  fsm.FSM_Event Events (Callbacks env) (Type_String t) args h =
  (do e <- fsm.call ("enter_" +:+ dst) (Callbacks env)
             (mkEvent (Type_String t) (FSM_current h) dst None args false);
   do e' <- fsm.call ("after_" +:+ Type_String t) (Callbacks env) e;
   ret (ev_Err e')) (set_FSM_current dst h).
Proof.
  intros Htr Hne Hb Hl. unfold fsm.FSM_Event.
  unfold bind at 1, get at 1.
  fold transitions. rewrite transitions_spec, Htr.
  unfold fsm.call at 1. rewrite Hb. unfold bind at 1, ret at 1. simpl.
  case_decide; [done|].
  unfold fsm.call at 1. rewrite Hl. unfold bind at 1, ret at 1. simpl.
  unfold bind at 1, modify at 1. reflexivity.
Qed.

Lemma deregister_spec h :
  deregister h
  = Ret None (if registered h then set_trace (trace h ++ [A_deregisterHandler]) h else h).
Proof.
  unfold deregister, bind, get, ret, emit, modify. by destruct (registered h).
Qed.

Lemma serialSend_spec env msg h :
  exists r, serialSend env msg h = Ret r (set_trace (trace h ++ [A_Send msg]) h) /\
            (Send env msg = None -> r = None) /\
            (is_Some (Send env msg) -> is_Some r).
Proof.
  unfold serialSend, emit, modify, bind, ret.
  destruct (Send env msg); eexists; (split; [reflexivity|]); split; done.
Qed.

(** ** Write-class requests in query context *)

Lemma HandleMessage_fsm env msg h :
  outOfBand (Type_ msg) = false ->
  is_Some (spec_transition (Type_ msg) (FSM_current h)) ->
  HandleMessage env msg h =
  (do eventErr <- fsm.FSM_Event Events (Callbacks env) (Type_String (Type_ msg))
                    [I_msg (Some msg)];
   ret (filterError eventErr)) h.
Proof.
  intros Hoob Hsome. unfold HandleMessage, outOfBand in *.
  apply orb_false_iff in Hoob as [Hoob H3]. apply orb_false_iff in Hoob as [H1 H2].
  apply bool_decide_eq_false in H1, H2, H3.
  repeat (case_decide; [done|]).
  unfold bind at 1. rewrite Cannot_spec.
  by rewrite (bool_decide_eq_true_2 _ Hsome).
Qed.

Lemma processStream_turn_nextState env h msg send q :
  nextState h = mkNext (Some msg) send :: q ->
  processStream_turn env fromNextState h
  = processStream_handle env msg send (set_nextState q h).
Proof.
  intros Hq. unfold processStream_turn, bind, get, modify. by rewrite Hq.
Qed.

(** [ERROR] handled in a busy state: back to the parent state, no error. *)
Lemma HandleMessage_ERROR_busy env msg h :
  Type_ msg = ChaincodeMessage_ERROR ->
  FSM_current h = busyinitstate \/ FSM_current h = busyxactstate ->
  HandleMessage env msg h = Ret None (set_FSM_current (parentState (FSM_current h)) h).
Proof.
  intros Hty Hbusy.
  assert (Htr : spec_transition (Type_ msg) (FSM_current h)
                = Some (parentState (FSM_current h))).
  { rewrite Hty. by destruct Hbusy as [-> | ->]. }
  rewrite HandleMessage_fsm; [| by rewrite Hty | by rewrite Htr].
  unfold bind at 1.
  rewrite (FSM_Event_move env (Type_ msg) _ h _ Htr);
    [| by destruct Hbusy as [-> | ->]
     | by rewrite Hty
     | by destruct Hbusy as [-> | ->] ].
  rewrite Hty.
  destruct Hbusy as [Hb | Hb]; rewrite Hb.
  - unfold parentState. simpl decide. cbv iota.
    unfold fsm.call. simpl fsm.find_callback.
    unfold closure, enterInitState, Args0, bind, get, ret, deref. simpl.
    rewrite Hty. by case_decide.
  - reflexivity.
Qed.

(** The pump takes the ERROR frame of [enterBusyState] from [nextState]
    while the FSM is in a busy state. *)
Lemma pump_queryContextError env m h q :
  nextState h = mkNext (Some (queryContextError m)) true :: q ->
  FSM_current h = busyinitstate \/ FSM_current h = busyxactstate ->
  exists r h',
    processStream_turn env fromNextState h = Ret r h' /\
    FSM_current h' = parentState (FSM_current h) /\
    exists tail, trace h' = trace h ++ A_Send (queryContextError m) :: tail /\
                 forallb (fun a => negb (isMutation a)) tail = true.
Proof.
  intros Hq Hbusy.
  rewrite (processStream_turn_nextState _ _ _ _ _ Hq).
  unfold processStream_handle. unfold bind at 1.
  rewrite HandleMessage_ERROR_busy; [|done|done].
  unfold bind at 1.
  destruct (serialSend_spec env (queryContextError m)
              (set_FSM_current (parentState (FSM_current (set_nextState q h)))
                               (set_nextState q h))) as (r & -> & _ & _).
  destruct r as [e|].
  - unfold processStream_return, bind. rewrite deregister_spec. unfold ret.
    eexists _, _. split; [reflexivity|].
    change (registered _) with (registered h).
    destruct (registered h).
    + split; [done|]. exists [A_deregisterHandler]. split; [|done].
      simpl. by rewrite <- app_assoc.
    + split; [done|]. exists []. done.
  - unfold ret. eexists _, _. split; [reflexivity|]. split; [done|].
    exists []. done.
Qed.

(** C1. The goroutine of [enterBusyState], given a message whose uuid is
    not marked as a transaction, does one thing: it posts on [nextState] an
    ERROR frame for the same uuid with the text "Cannot handle <Type> in
    query context", to be forwarded to the worker.  The trace is unchanged:
    no [SetState], [DeleteState], [LaunchChaincode] or [Execute] is issued.
    When the pump takes that frame in a busy state, the FSM goes back to the
    parent state and the frame is sent to the worker, again without any
    ledger or execute call. *)
Theorem enterBusyState_refuses_query_context (env : Environment) (e : Event)
    (state : string) (h : Handler) (m : ChaincodeMessage) (rest : list iface) :
  ev_Args e = I_msg (Some m) :: rest ->
  isTransactionMark h (Uuid m) = false ->
  enterBusyState_task env e state h
  = Ret tt (set_nextState (nextState h ++ [mkNext (Some (queryContextError m)) true]) h) /\
  (forall h2 q,
     nextState h2 = mkNext (Some (queryContextError m)) true :: q ->
     FSM_current h2 = busyinitstate \/ FSM_current h2 = busyxactstate ->
     exists r h3,
       processStream_turn env fromNextState h2 = Ret r h3 /\
       FSM_current h3 = parentState (FSM_current h2) /\
       exists tail, trace h3 = trace h2 ++ A_Send (queryContextError m) :: tail /\
                    forallb (fun a => negb (isMutation a)) tail = true).
Proof.
  intros Hargs Hmark. split.
  - unfold enterBusyState_task, Args0. rewrite Hargs.
    cbv beta iota delta [bind ret deref assert_ChaincodeMessage].
    rewrite getIsTransaction_spec, Hmark. reflexivity.
  - intros h2 q Hq Hbusy. by apply (pump_queryContextError env m h2 q).
Qed.

(** Witness for C1: PUT_STATE on behalf of the query [q1] while the
    transaction [tx1] keeps the FSM in [busyxact]. *)
Lemma enterBusyState_refuses_query_context_witness :
  enterBusyState_task (sampleEnv None [])
    (mkEvent "PUT_STATE" transactionstate busyxactstate None
       [I_msg (Some (mkMsg ChaincodeMessage_PUT_STATE "a" "q1"))] false)
    busyxactstate (sampleHandler busyxactstate)
  = Ret tt (set_nextState
              [mkNext (Some (ERROR_msg "Cannot handle PUT_STATE in query context" "q1")) true]
              (sampleHandler busyxactstate)).
Proof.
  exact (proj1 (enterBusyState_refuses_query_context (sampleEnv None [])
                  (mkEvent "PUT_STATE" transactionstate busyxactstate None
                     [I_msg (Some (mkMsg ChaincodeMessage_PUT_STATE "a" "q1"))] false)
                  busyxactstate (sampleHandler busyxactstate)
                  (mkMsg ChaincodeMessage_PUT_STATE "a" "q1") [] eq_refl eq_refl)).
Defined.

(** ** ERROR while in [init] *)

Lemma deleteIsTransaction_spec uuid h :
  deleteIsTransaction uuid h = Ret tt (withoutTransactionMark uuid h).
Proof.
  unfold deleteIsTransaction, withoutTransactionMark, bind, get, modify.
  by destruct (isTransaction h).
Qed.

Lemma notify_Ret msg h u h' :
  notify msg h = Ret u h' ->
  FSM_current h' = FSM_current h /\ trace h' = trace h /\ registered h' = registered h.
Proof.
  unfold notify, bind, get, modify, ret, block.
  destruct (txCtxs h) as [m|]; [|by intros [= _ <-]].
  destruct (m !! Uuid msg) as [tctx|]; [|by intros [= _ <-]].
  case_decide; [done|]. by intros [= _ <-].
Qed.

(** Delivery on a free channel. *)
Lemma notify_free msg h c :
  txContextOf h (Uuid msg) = Some c ->
  responseNotifier c = [] ->
  exists h', notify msg h = Ret tt h' /\
             txContextOf h' (Uuid msg)
             = Some (mkTxCtx (transactionSecContext c) [msg] (rangeQueryIteratorMap c)).
Proof.
  unfold notify, txContextOf, bind, get, modify, ret, block.
  destruct (txCtxs h) as [m|]; [|done]. intros -> Hfree. rewrite Hfree. simpl.
  eexists. split; [reflexivity|]. simpl. by rewrite lookup_insert_eq.
Qed.

Lemma enterEndState_message e state h m rest :
  ev_Args e = I_msg (Some m) :: rest ->
  enterEndState e state h =
  match notify m (withoutTransactionMark (Uuid m) h) with
  | Ret _ h' => Ret (fsm.Cancel (errorString "Entered end state") e) (deregistered h')
  | Panic h' => Panic (deregistered h')
  | Block h' => Block h'
  end.
Proof.
  intros Hargs. unfold enterEndState, with_defer_ret, Args0. rewrite Hargs.
  cbv beta iota delta [bind ret deref assert_ChaincodeMessage negb].
  rewrite deleteIsTransaction_spec.
  destruct (notify m _) as [[] h1|h1|h1]; try reflexivity;
    by rewrite deregister_spec.
Qed.

Lemma HandleMessage_ERROR_init env msg h :
  Type_ msg = ChaincodeMessage_ERROR ->
  FSM_current h = initstate ->
  HandleMessage env msg h =
  match enterEndState (mkEvent "ERROR" initstate endstate None [I_msg (Some msg)] false)
                      endstate (set_FSM_current endstate h) with
  | Ret e h' => Ret (filterError (ev_Err e)) h'
  | Panic h' => Panic h'
  | Block h' => Block h'
  end.
Proof.
  intros Hty Hcur.
  assert (Htr : spec_transition (Type_ msg) (FSM_current h) = Some endstate)
    by (by rewrite Hty, Hcur).
  rewrite HandleMessage_fsm; [| by rewrite Hty | by rewrite Htr].
  unfold bind at 1.
  rewrite (FSM_Event_move env (Type_ msg) _ h _ Htr);
    [| by rewrite Hcur | by rewrite Hty | by rewrite Hcur].
  rewrite Hty, Hcur. unfold fsm.call. simpl fsm.find_callback.
  unfold closure. cbv beta iota delta [bind get ret].
  change (FSM_current (set_FSM_current endstate h)) with endstate.
  change (Type_String ChaincodeMessage_ERROR) with "ERROR".
  by destruct (enterEndState _ _ _).
Qed.

(** C10. An ERROR frame handled in state [init] takes the FSM to [end];
    [enterEndState] notifies the waiter of the uuid, cancels the event with
    the cause "Entered end state" and deregisters the handler.  The cause
    reaches [filterError] as a plain error, which it swallows: whenever
    [HandleMessage] returns, it returns nil, and the turn of the pump ends
    without an error, so the loop of [processStream] goes on. *)
Theorem HandleMessage_ERROR_in_init_returns_nil (env : Environment)
    (msg : ChaincodeMessage) (h : Handler) :
  Type_ msg = ChaincodeMessage_ERROR ->
  FSM_current h = initstate ->
  (forall r h', HandleMessage env msg h = Ret r h' ->
     r = None /\ FSM_current h' = endstate /\
     processStream_turn env (msgAvail (Some msg) None) h = Ret None h') /\
  (forall c, txContextOf h (Uuid msg) = Some c -> responseNotifier c = [] ->
     exists h',
       HandleMessage env msg h = Ret None h' /\
       txContextOf h' (Uuid msg)
       = Some (mkTxCtx (transactionSecContext c) [msg] (rangeQueryIteratorMap c)) /\
       trace h' = trace h ++ (if registered h then [A_deregisterHandler] else [])).
Proof.
  intros Hty Hcur.
  pose proof (HandleMessage_ERROR_init env msg h Hty Hcur) as HM.
  rewrite (enterEndState_message
             (mkEvent "ERROR" initstate endstate None [I_msg (Some msg)] false)
             endstate (set_FSM_current endstate h) msg [] eq_refl) in HM.
  split.
  - intros r h' Hret.
    assert (Hr : r = None /\ FSM_current h' = endstate).
    { rewrite HM in Hret.
      destruct (notify msg _) as [u h1|h1|h1] eqn:Hn; [|done|done].
      injection Hret as <- <-. split; [done|].
      apply notify_Ret in Hn as (Hc & _ & _).
      unfold deregistered. destruct (registered h1); simpl; rewrite Hc;
        unfold withoutTransactionMark; by destruct (isTransaction _). }
    destruct Hr as [-> Hend]. repeat split; [done|].
    unfold processStream_turn, processStream_handle, bind. by rewrite Hret.
  - intros c Hc Hfree.
    destruct (notify_free msg (withoutTransactionMark (Uuid msg) (set_FSM_current endstate h)) c)
      as (h1 & Hn & Hctx); [|done|].
    { unfold withoutTransactionMark, txContextOf in *. simpl.
      by destruct (isTransaction h). }
    rewrite Hn in HM. eexists. split; [exact HM|].
    apply notify_Ret in Hn as (_ & Htrace & Hreg).
    assert (Hreg' : registered h1 = registered h).
    { rewrite Hreg. unfold withoutTransactionMark. simpl. by destruct (isTransaction h). }
    assert (Htrace' : trace h1 = trace h).
    { rewrite Htrace. unfold withoutTransactionMark. simpl. by destruct (isTransaction h). }
    unfold deregistered. rewrite Hreg'. destruct (registered h); simpl.
    + by rewrite Htrace'.
    + by rewrite Htrace', app_nil_r.
Qed.

(** Witness for C10: the transaction [tx1] of the sample session fails while
    the FSM is in [init]. *)
Lemma HandleMessage_ERROR_in_init_returns_nil_witness :
  exists h',
    HandleMessage (sampleEnv None []) (ERROR_msg "init failed" "tx1")
                  (sampleHandler initstate) = Ret None h' /\
    txContextOf h' "tx1"
    = Some (mkTxCtx (Some executeTx) [ERROR_msg "init failed" "tx1"] ∅) /\
    trace h' = [A_deregisterHandler].
Proof.
  exact (proj2 (HandleMessage_ERROR_in_init_returns_nil (sampleEnv None [])
                  (ERROR_msg "init failed" "tx1") (sampleHandler initstate)
                  eq_refl eq_refl)
           (mkTxCtx (Some executeTx) [] ∅) ltac:(vm_compute; reflexivity) eq_refl).
Defined.

(** ** Running the actions *)

Lemma bind_Ret {A B} (m : M A) (k : A -> M B) h a h' :
  m h = Ret a h' -> bind m k h = k a h'.
Proof. unfold bind. by intros ->. Qed.

Lemma bind_Panic {A B} (m : M A) (k : A -> M B) h h' :
  m h = Panic h' -> bind m k h = Panic h'.
Proof. unfold bind. by intros ->. Qed.

Lemma bind_bind {A B C} (m : M A) (k1 : A -> M B) (k2 : B -> M C) h :
  bind (bind m k1) k2 h = bind m (fun x => bind (k1 x) k2) h.
Proof. unfold bind. by destruct (m h). Qed.

Lemma with_defer_Ret {A} (body : M A) (deferred : option A -> M unit) h a h1 h2 :
  body h = Ret a h1 -> deferred (Some a) h1 = Ret tt h2 ->
  with_defer body deferred h = Ret tt h2.
Proof. unfold with_defer, with_defer_ret, bind, ret. by intros -> ->. Qed.

Lemma with_defer_Panic {A} (body : M A) (deferred : option A -> M unit) h h1 :
  body h = Panic h1 ->
  with_defer body deferred h =
  match deferred None h1 with
  | Ret _ h2 | Panic h2 => Panic h2
  | Block h2 => Block h2
  end.
Proof.
  unfold with_defer, with_defer_ret, bind, ret. intros ->.
  by destruct (deferred None h1).
Qed.

Lemma createUUIDEntry_free uuid h m :
  uuidMap h = Some m -> default false (m !! uuid) = false ->
  createUUIDEntry uuid h = Ret true (guardTaken uuid m h).
Proof.
  unfold createUUIDEntry, bind, get, modify, ret. by intros -> ->.
Qed.

Lemma createUUIDEntry_busy uuid h :
  ~ guardFree h uuid -> createUUIDEntry uuid h = Ret false h.
Proof.
  unfold createUUIDEntry, guardFree. cbv beta iota delta [bind get modify ret].
  intros Hn.
  destruct (uuidMap h) as [m|]; [|done].
  destruct (default false (m !! uuid)) eqn:E; [done|].
  exfalso. apply Hn. eauto.
Qed.

Lemma deferred_serialSend_spec env uuid reply h m :
  uuidMap h = Some m ->
  exists r, deferred_serialSend env uuid (Some reply) h
            = Ret tt (set_trace (trace h ++ [A_Send reply])
                                (set_uuidMap (Some (delete uuid m)) h)) /\
            r = Send env reply.
Proof.
  intros Hm. unfold deferred_serialSend, deleteUUIDEntry, serialSend, emit.
  cbv beta iota delta [bind get modify ret deref]. rewrite Hm.
  exists (Send env reply). split; [|done]. by destruct (Send env reply).
Qed.

(** ** GET_STATE *)

Lemma handleGetState_run env msg h m chaincodeID :
  uuidMap h = Some m -> default false (m !! Uuid msg) = false ->
  GetLedger env = None ->
  ChaincodeID h = Some chaincodeID ->
  handleGetState_task env msg h
  = Ret tt (set_trace
              (trace h ++ [A_GetState chaincodeID (Payload msg)
                                      (negb (isTransactionMark h (Uuid msg)));
                           A_Send (getStateReply env msg h chaincodeID)])
              (set_uuidMap (Some (delete (Uuid msg) (<[Uuid msg := true]> m))) h)).
Proof.
  intros Hm Hfree Hledger Hcc. unfold handleGetState_task.
  rewrite (bind_Ret _ _ _ _ _ (createUUIDEntry_free _ _ _ Hm Hfree)). change (negb true) with false. cbv iota.
  rewrite Hledger.
  eapply with_defer_Ret.
  - unfold bind at 1, get at 1.
    change (ChaincodeID (guardTaken (Uuid msg) m h)) with (ChaincodeID h). rewrite Hcc.
    unfold bind at 1, deref at 1, ret at 1.
    rewrite (bind_Ret _ _ _ _ _ (getIsTransaction_spec _ _)).
    change (isTransactionMark (guardTaken (Uuid msg) m h) (Uuid msg))
      with (isTransactionMark h (Uuid msg)).
    unfold bind at 1, emit at 1, modify at 1.
    instantiate (1 := set_trace (trace h ++ [A_GetState chaincodeID (Payload msg)
                                    (negb (isTransactionMark h (Uuid msg)))])
                                (guardTaken (Uuid msg) m h)).
    instantiate (1 := getStateReply env msg h chaincodeID).
    unfold getStateReply.
    destruct (GetState env _ _ _) as [res|err]; [|reflexivity].
    unfold decrypt, bind at 1. rewrite encryptOrDecrypt_pure.
    change (txContextOf (set_trace _ (guardTaken (Uuid msg) m h)) (Uuid msg))
      with (txContextOf h (Uuid msg)).
    change (deployTXSecContext (set_trace _ (guardTaken (Uuid msg) m h)))
      with (deployTXSecContext h).
    by destruct (cryptoResult _ _ _ _ _ _).
  - destruct (deferred_serialSend_spec env (Uuid msg) (getStateReply env msg h chaincodeID)
                (set_trace (trace h ++ [A_GetState chaincodeID (Payload msg)
                                    (negb (isTransactionMark h (Uuid msg)))])
                           (guardTaken (Uuid msg) m h))
                (<[Uuid msg := true]> m) eq_refl) as (r & -> & _).
    simpl. by rewrite <- app_assoc.
Qed.

(** C6. [handleGetState] reads the ledger with [readCommitted] equal to the
    negation of the transaction mark of the uuid.  Whatever the run, every
    [GetState] call it adds to the trace asks for the key of the request
    with that mode; and when the guard admits the request, the ledger is
    available and the chaincode is registered, it makes exactly one such
    call and then sends its reply. *)
Theorem handleGetState_readCommitted (env : Environment) (msg : ChaincodeMessage)
    (h : Handler) :
  (exists added,
     trace (final (handleGetState_task env msg h)) = trace h ++ added /\
     forall chaincodeID key committed,
       A_GetState chaincodeID key committed ∈ added ->
       committed = negb (isTransactionMark h (Uuid msg)) /\ key = Payload msg) /\
  (guardFree h (Uuid msg) -> GetLedger env = None ->
   forall chaincodeID, ChaincodeID h = Some chaincodeID ->
     exists h',
       handleGetState_task env msg h = Ret tt h' /\
       trace h' = trace h ++
         [A_GetState chaincodeID (Payload msg) (negb (isTransactionMark h (Uuid msg)));
          A_Send (getStateReply env msg h chaincodeID)]).
Proof.
  split.
  - destruct (uuidMap h) as [m|] eqn:Hm;
      [destruct (default false (m !! Uuid msg)) eqn:Hfree|].
    + exists []. unfold handleGetState_task.
      erewrite bind_Ret by (apply createUUIDEntry_busy; intros (m' & ? & ?); congruence).
      simpl. split; [by rewrite app_nil_r|]. intros ? ? ? H. by apply elem_of_nil in H.
    + destruct (GetLedger env) as [ledgerErr|] eqn:Hledger;
        [|destruct (ChaincodeID h) as [cc|] eqn:Hcc].
      * exists [A_Send (ERROR_msg (error_Error ledgerErr) (Uuid msg))].
        unfold handleGetState_task.
        rewrite (bind_Ret _ _ _ _ _ (createUUIDEntry_free _ _ _ Hm Hfree)).
        change (negb true) with false. cbv iota. rewrite Hledger.
        destruct (deferred_serialSend_spec env (Uuid msg)
                    (ERROR_msg (error_Error ledgerErr) (Uuid msg))
                    (guardTaken (Uuid msg) m h) (<[Uuid msg := true]> m) eq_refl)
          as (r & Hd & _).
        erewrite with_defer_Ret; [|reflexivity|exact Hd].
        split; [done|]. intros ? ? ? H.
        apply list_elem_of_singleton in H. discriminate H.
      * rewrite (handleGetState_run env msg h m cc Hm Hfree Hledger Hcc).
        eexists. split; [reflexivity|]. intros ? ? ? H.
        apply elem_of_cons in H as [H|H]; [by injection H as -> -> ->|].
        apply list_elem_of_singleton in H. discriminate H.
      * exists []. unfold handleGetState_task.
        rewrite (bind_Ret _ _ _ _ _ (createUUIDEntry_free _ _ _ Hm Hfree)).
        change (negb true) with false. cbv iota. rewrite Hledger.
        erewrite with_defer_Panic.
        2:{ unfold bind at 1, get at 1.
            change (ChaincodeID (guardTaken (Uuid msg) m h)) with (ChaincodeID h).
            rewrite Hcc. reflexivity. }
        unfold deferred_serialSend, deleteUUIDEntry.
        cbv beta iota delta [bind get modify ret deref panic]. simpl.
        split; [by rewrite app_nil_r|]. intros ? ? ? H. by apply elem_of_nil in H.
    + exists []. unfold handleGetState_task.
      erewrite bind_Ret by (apply createUUIDEntry_busy; intros (m' & ? & ?); congruence).
      simpl. split; [by rewrite app_nil_r|]. intros ? ? ? H. by apply elem_of_nil in H.
  - intros (m & Hm & Hfree) Hledger cc Hcc.
    rewrite (handleGetState_run env msg h m cc Hm Hfree Hledger Hcc).
    eexists. split; reflexivity.
Qed.

(** Witness for C6: a GET_STATE of the query [q1] reads committed state. *)
Lemma handleGetState_readCommitted_witness :
  exists h',
    handleGetState_task (sampleEnv None []) (mkMsg ChaincodeMessage_GET_STATE "a" "q1")
                        (sampleHandler readystate) = Ret tt h' /\
    trace h' = [A_GetState "cc" "a" true; A_Send (RESPONSE_msg "committed" "q1")].
Proof.
  exact (proj2 (handleGetState_readCommitted (sampleEnv None [])
                  (mkMsg ChaincodeMessage_GET_STATE "a" "q1") (sampleHandler readystate))
           (ex_intro _ ∅ (conj eq_refl eq_refl)) eq_refl "cc" eq_refl).
Defined.

(** ** RANGE_QUERY_STATE_CLOSE *)

Lemma getRangeQueryIterator_spec uuid id h c :
  txContextOf h uuid = Some c ->
  getRangeQueryIterator (Some uuid) id h = Ret (rangeQueryIteratorMap c !! id) h.
Proof.
  intros Hc. unfold getRangeQueryIterator.
  by rewrite (bind_Ret _ _ _ _ _ (load_txContext_spec _ _ _ Hc)).
Qed.

Lemma getTxContext_Some uuid h c :
  txContextOf h uuid = Some c -> getTxContext uuid h = Ret (Some uuid) h.
Proof. intros Hc. by rewrite getTxContext_spec, Hc. Qed.

(** C8. A RANGE_QUERY_STATE_CLOSE whose id is not in the iterator registry
    of the transaction context closes nothing and is answered with a
    RESPONSE frame carrying [HasMore = false] and the id of the request:
    the iterator objects and the transaction contexts are untouched and the
    only frame sent is that RESPONSE. *)
Theorem handleRangeQueryStateClose_unknown_id (env : Environment)
    (msg : ChaincodeMessage) (h : Handler) (c : transactionContext)
    (closeID payloadBytes : string) :
  guardFree h (Uuid msg) ->
  Unmarshal_RangeQueryStateClose env (Payload msg) = ok closeID ->
  txContextOf h (Uuid msg) = Some c ->
  rangeQueryIteratorMap c !! closeID = None ->
  Marshal_RangeQueryStateResponse env (mkRangeResp [] false closeID) = ok payloadBytes ->
  exists h',
    handleRangeQueryStateClose_task env msg h = Ret tt h' /\
    trace h' = trace h ++ [A_Send (RESPONSE_msg payloadBytes (Uuid msg))] /\
    iterators h' = iterators h /\
    txCtxs h' = txCtxs h.
Proof.
  intros (m & Hm & Hfree) Hun Hc Hid Hmarshal.
  unfold handleRangeQueryStateClose_task.
  rewrite (bind_Ret _ _ _ _ _ (createUUIDEntry_free _ _ _ Hm Hfree)).
  change (negb true) with false. cbv iota. rewrite Hun.
  assert (Hc' : txContextOf (guardTaken (Uuid msg) m h) (Uuid msg) = Some c) by exact Hc.
  destruct (deferred_serialSend_spec env (Uuid msg) (RESPONSE_msg payloadBytes (Uuid msg))
              (guardTaken (Uuid msg) m h) (<[Uuid msg := true]> m) eq_refl)
    as (r & Hd & _).
  erewrite with_defer_Ret; [| |exact Hd].
  - eexists. split; [reflexivity|]. done.
  - rewrite (bind_Ret _ _ _ _ _ (getTxContext_Some _ _ _ Hc')).
    rewrite (bind_Ret _ _ _ _ _ (getRangeQueryIterator_spec _ _ _ _ Hc')).
    rewrite Hid. unfold bind at 1, ret at 1. by rewrite Hmarshal.
Qed.

(** Witness for C8: the transaction [tx1] closes an iterator it never
    opened. *)
Lemma handleRangeQueryStateClose_unknown_id_witness :
  exists h',
    handleRangeQueryStateClose_task (sampleEnv None [])
      (mkMsg ChaincodeMessage_RANGE_QUERY_STATE_CLOSE "it7" "tx1")
      (sampleHandler transactionstate) = Ret tt h' /\
    trace h' = [A_Send (RESPONSE_msg "0.it7" "tx1")] /\
    iterators h' = ∅ /\
    txCtxs h' = txCtxs (sampleHandler transactionstate).
Proof.
  exact (handleRangeQueryStateClose_unknown_id (sampleEnv None [])
           (mkMsg ChaincodeMessage_RANGE_QUERY_STATE_CLOSE "it7" "tx1")
           (sampleHandler transactionstate) (mkTxCtx (Some executeTx) [] ∅) "it7" "0.it7"
           (ex_intro _ ∅ (conj eq_refl eq_refl)) eq_refl
           ltac:(vm_compute; reflexivity) eq_refl eq_refl).
Defined.

(** ** Decrypt failure during a range scan *)

Lemma rangeIter_GetKeyValue_spec a h it :
  iterators h !! a = Some it ->
  rangeIter_GetKeyValue a h = Ret (iter_GetKeyValue it) h.
Proof.
  intros Hit. unfold rangeIter_GetKeyValue. cbv beta iota delta [bind get ret deref].
  by rewrite Hit.
Qed.

(** In the paging loop [unmarshalErr] is nil (the request was decoded), so
    the decrypt-failure branch panics when it calls [unmarshalErr.Error()]:
    nothing after that call runs. *)
Lemma rangeQueryLoop_decrypt_failure env n msg txContext iterID rangeIter acc h it err :
  iterators h !! rangeIter = Some it ->
  cryptoResult env false (Uuid msg) (snd (iter_GetKeyValue it))
               (txContextOf h (Uuid msg)) (deployTXSecContext h) = fail err ->
  rangeQueryLoop env (S n) msg None txContext iterID rangeIter acc true h = Panic h.
Proof.
  intros Hit Hfail. simpl.
  rewrite (bind_Ret _ _ _ _ _ (rangeIter_GetKeyValue_spec _ _ _ Hit)).
  unfold decrypt. rewrite (bind_Ret _ _ _ _ _ (encryptOrDecrypt_pure _ _ _ _ _)).
  by rewrite Hfail.
Qed.

(** C4. When the decryption of a scanned value fails, neither range action
    sends an ERROR frame: both panic while building its payload.
    RANGE_QUERY_STATE over a ledger whose first value cannot be decrypted
    panics with nothing sent, and leaves the iterator open (never closed)
    and registered.  RANGE_QUERY_STATE_NEXT does the same when the first
    value of the second page cannot be decrypted: the only frame on the
    trace is the RESPONSE of the first page. *)
Theorem range_scan_decrypt_failure_panics :
  (exists h1,
     handleRangeQueryState_task (sampleEnv (Some sampleSecHelper) [("a", "garbage")])
       openScan (sampleHandler transactionstate) = Panic h1 /\
     trace h1 = [A_GetStateRangeScanIterator "cc" "a" "a" false] /\
     (rangeQueryIteratorMap <$> txContextOf h1 "tx1") = Some {[ "it0" := 0 ]} /\
     iterators h1 = {[ 0 := mkIter (Some ("a", "garbage")) [] 0 ]}) /\
  (exists h1 h2,
     handleRangeQueryState_task (sampleEnv (Some sampleSecHelper) sealedThenGarbage)
       openScan (sampleHandler transactionstate) = Ret tt h1 /\
     handleRangeQueryStateNext_task (sampleEnv (Some sampleSecHelper) sealedThenGarbage)
       nextPage h1 = Panic h2 /\
     trace h2 = [A_GetStateRangeScanIterator "cc" "a" "a" false;
                 A_Send (RESPONSE_msg "100+it0" "tx1")] /\
     (rangeQueryIteratorMap <$> txContextOf h2 "tx1") = Some {[ "it0" := 0 ]} /\
     iterators h2 = {[ 0 := mkIter (Some ("z", "garbage")) [] 0 ]}).
Proof.
  split.
  - eexists. split; [vm_compute; reflexivity|].
    repeat split; vm_compute; reflexivity.
  - eexists _, _. split; [vm_compute; reflexivity|].
    split; [vm_compute; reflexivity|].
    repeat split; vm_compute; reflexivity.
Qed.

(** ** Paging a range scan *)

Lemma iter_Next_unopened l closed :
  iter_Next (mkIter None l closed) = (hasMore l, iterAt l closed).
Proof. by destruct l. Qed.

Lemma iter_Next_iterAt kv rest closed :
  iter_Next (iterAt (kv :: rest) closed) = (hasMore rest, iterAt rest closed).
Proof. by destruct rest. Qed.

Lemma rangeIter_Next_spec a h it :
  iterators h !! a = Some it ->
  rangeIter_Next a h
  = Ret (fst (iter_Next it)) (set_iterators (<[a := snd (iter_Next it)]> (iterators h)) h).
Proof.
  intros Hit. unfold rangeIter_Next. cbv beta iota delta [bind get ret deref modify].
  rewrite Hit. by destruct (iter_Next it).
Qed.

Lemma rangeIter_Close_spec a h it :
  iterators h !! a = Some it ->
  rangeIter_Close a h = Ret tt (set_iterators (<[a := iter_Close it]> (iterators h)) h).
Proof.
  intros Hit. unfold rangeIter_Close. cbv beta iota delta [bind get ret deref modify].
  by rewrite Hit.
Qed.

Lemma store_after_load uuid f h tm c :
  txCtxs h = Some tm -> tm !! uuid = Some c ->
  (do c' <- load_txContext (Some uuid);
   store_txContext (Some uuid) (withIteratorMap f c')) h
  = Ret tt (set_txCtxs (Some (<[uuid := withIteratorMap f c]> tm)) h).
Proof.
  intros Htm Hc.
  unfold load_txContext, store_txContext.
  cbv beta iota delta [bind get ret deref modify].
  rewrite Htm. cbv beta iota. rewrite Hc. cbv beta iota. by rewrite Htm.
Qed.

Lemma putRangeQueryIterator_spec uuid id a h tm c :
  txCtxs h = Some tm -> tm !! uuid = Some c ->
  putRangeQueryIterator (Some uuid) id a h
  = Ret tt (set_txCtxs (Some (<[uuid := withIteratorMap (insert id a) c]> tm)) h).
Proof. apply (store_after_load uuid (insert id a)). Qed.

Lemma deleteRangeQueryIterator_spec uuid id h tm c :
  txCtxs h = Some tm -> tm !! uuid = Some c ->
  deleteRangeQueryIterator (Some uuid) id h
  = Ret tt (set_txCtxs (Some (<[uuid := withIteratorMap (delete id) c]> tm)) h).
Proof. apply (store_after_load uuid (delete id)). Qed.

Lemma set_iterators_id h a it :
  iterators h !! a = Some it -> set_iterators (<[a := it]> (iterators h)) h = h.
Proof. intros Hit. rewrite insert_id by done. by destruct h. Qed.

Lemma hasMore_drop n (l : list (string * string)) :
  hasMore (drop n l) = bool_decide (n < length l).
Proof.
  revert l. induction n as [|n IH]; intros [|kv l]; simpl; try done.
  - rewrite IH. apply bool_decide_ext. lia.
Qed.

(** The paging loop when every value decrypts: it drains the first [n]
    pairs of [l] and leaves the iterator on the pair that follows. *)
Lemma rangeQueryLoop_run env dec msg unmarshalErr txContext iterID a closed :
  forall n l acc h,
    iterators h !! a = Some (iterAt l closed) ->
    (forall kv, kv ∈ l ->
       cryptoResult env false (Uuid msg) (snd kv) (txContextOf h (Uuid msg))
                    (deployTXSecContext h) = ok (dec (snd kv))) ->
    rangeQueryLoop env n msg unmarshalErr txContext iterID a acc (hasMore l) h
    = Ret (LoopDone (acc ++ decryptAll dec (take n l)) (hasMore (drop n l)))
          (set_iterators (<[a := iterAt (drop n l) closed]> (iterators h)) h).
Proof.
  induction n as [|n IH]; intros l acc h Hit Hdec.
  - simpl. rewrite app_nil_r. by rewrite set_iterators_id.
  - destruct l as [|kv rest].
    + simpl. rewrite app_nil_r. by rewrite set_iterators_id.
    + change (hasMore (kv :: rest)) with true.
      cbn [rangeQueryLoop negb].
      rewrite (bind_Ret _ _ _ _ _ (rangeIter_GetKeyValue_spec _ _ _ Hit)).
      unfold decrypt. rewrite (bind_Ret _ _ _ _ _ (encryptOrDecrypt_pure _ _ _ _ _)).
      change (iter_GetKeyValue (iterAt (kv :: rest) closed)) with kv.
      rewrite (Hdec kv) by apply list_elem_of_here.
      rewrite (bind_Ret _ _ _ _ _ (rangeIter_Next_spec _ _ _ Hit)).
      rewrite iter_Next_iterAt. cbn [fst snd].
      rewrite IH.
      * cbn [take drop decryptAll map iterators set_iterators].
        rewrite insert_insert_eq. by rewrite <- app_assoc.
      * cbn [iterators set_iterators]. by rewrite lookup_insert_eq.
      * intros kv' Hin. apply Hdec. by apply list_elem_of_further.
Qed.

Lemma cryptoResult_view env encrypt uuid payload ctx1 ctx2 dep :
  transactionSecContext <$> ctx1 = transactionSecContext <$> ctx2 ->
  cryptoResult env encrypt uuid payload ctx1 dep
  = cryptoResult env encrypt uuid payload ctx2 dep.
Proof.
  unfold cryptoResult. destruct (getSecHelper env); [|done].
  destruct ctx1 as [c1|], ctx2 as [c2|]; simpl; try done.
  by intros [= ->].
Qed.

Lemma decryptsTo_view env h h' uuid dec l :
  secView h' uuid = secView h uuid ->
  decryptsTo env h uuid dec l -> decryptsTo env h' uuid dec l.
Proof.
  unfold secView, decryptsTo. intros [= Hctx Hdep] Hd kv Hin.
  rewrite Hdep, (cryptoResult_view _ _ _ _ _ _ _ Hctx). by apply Hd.
Qed.

Lemma decryptsTo_drop env h uuid dec l n :
  decryptsTo env h uuid dec l -> decryptsTo env h uuid dec (drop n l).
Proof.
  intros Hd kv Hin. apply Hd.
  apply list_elem_of_lookup in Hin as [i Hi]. rewrite lookup_drop in Hi.
  by eapply list_elem_of_lookup_2.
Qed.

Lemma txContextOf_Some h uuid c :
  txContextOf h uuid = Some c -> exists tm, txCtxs h = Some tm /\ tm !! uuid = Some c.
Proof. unfold txContextOf. destruct (txCtxs h) as [tm|]; [eauto|done]. Qed.

(** Loop and reply of a page, from a state where the iterator stands on a
    pair. *)
Lemma page_run env dec enc msg unmarshalErr id a l closed h tm c :
  (forall r, Marshal_RangeQueryStateResponse env r = ok (enc r)) ->
  txCtxs h = Some tm -> tm !! Uuid msg = Some c ->
  iterators h !! a = Some (iterAt l closed) ->
  decryptsTo env h (Uuid msg) dec l ->
  (do exit <- rangeQueryLoop env maxRangeQueryStateLimit msg unmarshalErr
                (Some (Uuid msg)) id a [] (hasMore l);
   rangeQueryReply env msg (Some (Uuid msg)) id a exit) h
  = Ret (RESPONSE_msg (enc (pageFrame dec id l)) (Uuid msg))
        (afterPage (Uuid msg) id a l closed tm c h).
Proof.
  intros Hmarshal Htm Hc Hit Hdec.
  rewrite (bind_Ret _ _ _ _ _
             (rangeQueryLoop_run env dec msg unmarshalErr (Some (Uuid msg)) id a closed
                maxRangeQueryStateLimit l [] h Hit Hdec)).
  unfold rangeQueryReply, pageFrame, afterPage. rewrite app_nil_l.
  destruct (hasMore (drop maxRangeQueryStateLimit l)) eqn:Hmore.
  - change (negb true) with false. cbv iota.
    unfold bind at 1, ret at 1. by rewrite Hmarshal.
  - change (negb false) with true. cbv iota.
    assert (Hnil : drop maxRangeQueryStateLimit l = []).
    { by destruct (drop maxRangeQueryStateLimit l). }
    rewrite Hnil.
    set (h1 := set_iterators _ h).
    assert (Hit1 : iterators h1 !! a = Some (iterAt [] closed)).
    { subst h1. cbn [iterators set_iterators]. by rewrite lookup_insert_eq. }
    rewrite bind_bind.
    rewrite (bind_Ret _ _ _ _ _ (rangeIter_Close_spec _ _ _ Hit1)).
    set (h2 := set_iterators _ h1).
    rewrite (bind_Ret _ _ _ _ _
               (deleteRangeQueryIterator_spec (Uuid msg) id h2 tm c Htm Hc)).
    rewrite Hmarshal. unfold ret. f_equal.
    subst h2 h1. cbn [iterators set_iterators iter_Close iterAt cursor pending closes].
    by rewrite insert_insert_eq.
Qed.

Lemma afterPage_frame uuid id a l closed tm c h :
  uuidMap (afterPage uuid id a l closed tm c h) = uuidMap h /\
  trace (afterPage uuid id a l closed tm c h) = trace h.
Proof. unfold afterPage. cbv zeta. by destruct (hasMore _). Qed.

Lemma afterPage_status uuid id a l closed tm c h m T :
  txCtxs h = Some tm -> tm !! uuid = Some c ->
  rangeQueryIteratorMap c !! id = Some a ->
  let h' := set_trace T (set_uuidMap (Some (delete uuid m))
                           (afterPage uuid id a l closed tm c h)) in
  pageStatus h' uuid id a (drop maxRangeQueryStateLimit l) closed /\
  secView h' uuid = secView h uuid.
Proof.
  intros Htm Hc Hid h'. subst h'. unfold pageStatus, afterPage.
  assert (Hguard : forall g, guardFree (set_trace T (set_uuidMap (Some (delete uuid m)) g)) uuid).
  { intros g. exists (delete uuid m). split; [done|]. by rewrite lookup_delete_eq. }
  destruct (hasMore (drop maxRangeQueryStateLimit l)).
  - split.
    + split; [apply Hguard|]. exists c. repeat split.
      * unfold txContextOf. cbn. by rewrite Htm.
      * done.
      * cbn. by rewrite lookup_insert_eq.
    + unfold secView, txContextOf. cbn. by rewrite Htm.
  - split.
    + split; [apply Hguard|]. exists (withIteratorMap (delete id) c). repeat split.
      * unfold txContextOf. cbn. by rewrite lookup_insert_eq.
      * cbn. by rewrite lookup_delete_eq.
      * cbn. by rewrite lookup_insert_eq.
    + unfold secView, txContextOf. cbn. rewrite Htm, lookup_insert_eq, Hc. done.
Qed.

(** One RANGE_QUERY_STATE_NEXT on a scan in progress. *)
Lemma handleRangeQueryStateNext_page env dec enc msg id a l closed h :
  (forall r, Marshal_RangeQueryStateResponse env r = ok (enc r)) ->
  Unmarshal_RangeQueryStateNext env (Payload msg) = ok id ->
  scanning h (Uuid msg) id a l closed ->
  hasMore l = true ->
  decryptsTo env h (Uuid msg) dec l ->
  exists h',
    handleRangeQueryStateNext_task env msg h = Ret tt h' /\
    trace h' = trace h ++ [A_Send (RESPONSE_msg (enc (pageFrame dec id l)) (Uuid msg))] /\
    secView h' (Uuid msg) = secView h (Uuid msg) /\
    pageStatus h' (Uuid msg) id a (drop maxRangeQueryStateLimit l) closed.
Proof.
  intros Hmarshal Hun ((m & Hm & Hfree) & c & Hc & Hid & Hit) Hmore Hdec.
  destruct (txContextOf_Some _ _ _ Hc) as (tm & Htm & Hc').
  set (h1 := guardTaken (Uuid msg) m h).
  assert (Hc1 : txContextOf h1 (Uuid msg) = Some c) by exact Hc.
  pose proof (page_run env dec enc msg None id a l closed h1 tm c
                Hmarshal Htm Hc' Hit Hdec) as Hpage.
  rewrite Hmore in Hpage.
  set (reply := RESPONSE_msg (enc (pageFrame dec id l)) (Uuid msg)) in *.
  destruct (deferred_serialSend_spec env (Uuid msg) reply
              (afterPage (Uuid msg) id a l closed tm c h1) (<[Uuid msg := true]> m))
    as (r & Hd & _).
  { by rewrite (proj1 (afterPage_frame _ _ _ _ _ _ _ _)). }
  eexists. split; [|split].
  - unfold handleRangeQueryStateNext_task.
    rewrite (bind_Ret _ _ _ _ _ (createUUIDEntry_free _ _ _ Hm Hfree)).
    change (negb true) with false. cbv iota. rewrite Hun. cbv zeta iota beta.
    eapply with_defer_Ret; [|exact Hd].
    rewrite (bind_Ret _ _ _ _ _ (getTxContext_Some _ _ _ Hc1)).
    rewrite (bind_Ret _ _ _ _ _ (getRangeQueryIterator_spec _ _ _ _ Hc1)).
    rewrite Hid. exact Hpage.
  - cbn [trace set_trace]. by rewrite (proj2 (afterPage_frame _ _ _ _ _ _ _ _)).
  - destruct (afterPage_status (Uuid msg) id a l closed tm c h1 (<[Uuid msg := true]> m)
                (trace (afterPage (Uuid msg) id a l closed tm c h1) ++ [A_Send reply])
                Htm Hc' Hid) as [Hst Hview].
    split; [exact Hview|exact Hst].
Qed.

Lemma new_iterator_spec kvs h :
  new_iterator kvs h
  = Ret (fresh (dom (iterators h)))
        (set_iterators (<[fresh (dom (iterators h)) := mkIter None kvs 0]> (iterators h)) h).
Proof. reflexivity. Qed.

Lemma util_GenerateUUID_spec env h :
  util_GenerateUUID env h
  = Ret (GenerateUUID env (uuidsGenerated h)) (set_uuidsGenerated (S (uuidsGenerated h)) h).
Proof. reflexivity. Qed.

(** The RANGE_QUERY_STATE that opens a scan. *)
Lemma handleRangeQueryState_page env dec enc msg h c rqs chaincodeID kvs :
  (forall r, Marshal_RangeQueryStateResponse env r = ok (enc r)) ->
  guardFree h (Uuid msg) ->
  Unmarshal_RangeQueryState env (Payload msg) = ok rqs ->
  GetLedger env = None ->
  ChaincodeID h = Some chaincodeID ->
  GetStateRangeScanIterator env chaincodeID (StartKey rqs) (EndKey rqs)
    (negb (isTransactionMark h (Uuid msg))) = ok kvs ->
  txContextOf h (Uuid msg) = Some c ->
  decryptsTo env h (Uuid msg) dec kvs ->
  let id := GenerateUUID env (uuidsGenerated h) in
  let a := fresh (dom (iterators h)) in
  exists h',
    handleRangeQueryState_task env msg h = Ret tt h' /\
    trace h' = trace h ++
      [A_GetStateRangeScanIterator chaincodeID (StartKey rqs) (EndKey rqs)
         (negb (isTransactionMark h (Uuid msg)));
       A_Send (RESPONSE_msg (enc (pageFrame dec id kvs)) (Uuid msg))] /\
    secView h' (Uuid msg) = secView h (Uuid msg) /\
    pageStatus h' (Uuid msg) id a (drop maxRangeQueryStateLimit kvs) 0.
Proof.
  intros Hmarshal (m & Hm & Hfree) Hun Hledger Hcc Hscan Hc Hdec id a.
  destruct (txContextOf_Some _ _ _ Hc) as (tm & Htm & Hc').
  set (call := A_GetStateRangeScanIterator chaincodeID (StartKey rqs) (EndKey rqs)
                 (negb (isTransactionMark h (Uuid msg)))).
  set (c6 := withIteratorMap (insert id a) c).
  set (tm6 := <[Uuid msg := c6]> tm).
  set (h6 := scanOpened (Uuid msg) id a kvs call m tm c h).
  assert (Htm6 : txCtxs h6 = Some tm6) by reflexivity.
  assert (Hc6 : tm6 !! Uuid msg = Some c6) by apply lookup_insert_eq.
  assert (Hit6 : iterators h6 !! a = Some (iterAt kvs 0)) by apply lookup_insert_eq.
  assert (Hview6 : secView h6 (Uuid msg) = secView h (Uuid msg)).
  { unfold secView, txContextOf. rewrite Htm6, Hc6, Htm, Hc'. reflexivity. }
  pose proof (page_run env dec enc msg None id a kvs 0 h6 tm6 c6 Hmarshal Htm6 Hc6 Hit6
                (decryptsTo_view _ _ _ _ _ _ Hview6 Hdec)) as Hpage.
  set (reply := RESPONSE_msg (enc (pageFrame dec id kvs)) (Uuid msg)) in *.
  destruct (deferred_serialSend_spec env (Uuid msg) reply
              (afterPage (Uuid msg) id a kvs 0 tm6 c6 h6) (<[Uuid msg := true]> m))
    as (r & Hd & _).
  { by rewrite (proj1 (afterPage_frame _ _ _ _ _ _ _ _)). }
  eexists. split; [|split].
  - unfold handleRangeQueryState_task.
    rewrite (bind_Ret _ _ _ _ _ (createUUIDEntry_free _ _ _ Hm Hfree)).
    change (negb true) with false. cbv iota. rewrite Hun. cbv zeta iota beta.
    rewrite Hledger.
    eapply with_defer_Ret; [|exact Hd].
    unfold bind at 1, get at 1.
    change (ChaincodeID (guardTaken (Uuid msg) m h)) with (ChaincodeID h). rewrite Hcc.
    unfold bind at 1, deref at 1, ret at 1.
    rewrite (bind_Ret _ _ _ _ _ (getIsTransaction_spec _ _)).
    change (isTransactionMark (guardTaken (Uuid msg) m h) (Uuid msg))
      with (isTransactionMark h (Uuid msg)).
    unfold bind at 1, emit at 1, modify at 1.
    rewrite Hscan.
    rewrite (bind_Ret _ _ _ _ _ (new_iterator_spec _ _)).
    rewrite (bind_Ret _ _ _ _ _ (util_GenerateUUID_spec _ _)).
    match goal with
    | |- bind (getTxContext _) _ ?hh = _ =>
        rewrite (bind_Ret _ _ _ _ _ (getTxContext_Some (Uuid msg) hh c Hc))
    end.
    match goal with
    | |- bind (putRangeQueryIterator _ _ _) _ ?hh = _ =>
        rewrite (bind_Ret _ _ _ _ _
                   (putRangeQueryIterator_spec (Uuid msg) id a hh tm c Htm Hc'))
    end.
    match goal with
    | |- bind (rangeIter_Next _) _ ?hh = _ =>
        rewrite (bind_Ret _ _ _ _ _
                   (rangeIter_Next_spec a hh (mkIter None kvs 0)
                      (lookup_insert_eq _ _ _)))
    end.
    rewrite iter_Next_unopened. cbn [fst snd].
    exact Hpage.
  - cbn [trace set_trace]. rewrite (proj2 (afterPage_frame _ _ _ _ _ _ _ _)).
    subst h6. unfold scanOpened. cbn [trace set_trace set_iterators set_txCtxs
      set_uuidsGenerated guardTaken set_uuidMap]. by rewrite <- app_assoc.
  - destruct (afterPage_status (Uuid msg) id a kvs 0 tm6 c6 h6 (<[Uuid msg := true]> m)
                (trace (afterPage (Uuid msg) id a kvs 0 tm6 c6 h6) ++ [A_Send reply])
                Htm6 Hc6) as [Hst Hview].
    { subst c6. cbn. apply lookup_insert_eq. }
    split; [by rewrite Hview|exact Hst].
Qed.

Lemma scanFrame_HasMore dec id kvs j :
  HasMore (scanFrame dec id kvs j)
  = bool_decide ((j + 1) * maxRangeQueryStateLimit < length kvs).
Proof.
  unfold scanFrame, pageFrame. cbn [HasMore].
  rewrite drop_drop, hasMore_drop. apply bool_decide_ext. lia.
Qed.

Lemma scanFrame_length dec id kvs j :
  length (KeysAndValues (scanFrame dec id kvs j))
  = min maxRangeQueryStateLimit (length kvs - j * maxRangeQueryStateLimit).
Proof.
  unfold scanFrame, pageFrame, decryptAll. cbn [KeysAndValues].
  by rewrite length_map, length_take, length_drop.
Qed.

Lemma scanRun_pages env dec enc first next h c rqs chaincodeID kvs :
  (forall r, Marshal_RangeQueryStateResponse env r = ok (enc r)) ->
  guardFree h (Uuid first) ->
  Unmarshal_RangeQueryState env (Payload first) = ok rqs ->
  GetLedger env = None ->
  ChaincodeID h = Some chaincodeID ->
  GetStateRangeScanIterator env chaincodeID (StartKey rqs) (EndKey rqs)
    (negb (isTransactionMark h (Uuid first))) = ok kvs ->
  txContextOf h (Uuid first) = Some c ->
  decryptsTo env h (Uuid first) dec kvs ->
  Uuid next = Uuid first ->
  Unmarshal_RangeQueryStateNext env (Payload next)
  = ok (GenerateUUID env (uuidsGenerated h)) ->
  let id := GenerateUUID env (uuidsGenerated h) in
  let a := fresh (dom (iterators h)) in
  forall j, j = 0 \/ j * maxRangeQueryStateLimit < length kvs ->
    exists h',
      scanRun env first next j h = Ret tt h' /\
      trace h' = trace h ++
        A_GetStateRangeScanIterator chaincodeID (StartKey rqs) (EndKey rqs)
          (negb (isTransactionMark h (Uuid first)))
        :: map (fun i => A_Send (RESPONSE_msg (enc (scanFrame dec id kvs i)) (Uuid first)))
               (seq 0 (S j)) /\
      secView h' (Uuid first) = secView h (Uuid first) /\
      pageStatus h' (Uuid first) id a (drop ((j + 1) * maxRangeQueryStateLimit) kvs) 0.
Proof.
  intros Hmarshal Hguard Hun Hledger Hcc Hscan Hc Hdec Huuid Hnext id a.
  induction j as [|j IH]; intros Hj.
  - destruct (handleRangeQueryState_page env dec enc first h c rqs chaincodeID kvs
                Hmarshal Hguard Hun Hledger Hcc Hscan Hc Hdec)
      as (h' & Hrun & Htrace & Hview & Hst).
    exists h'. repeat split; done.
  - assert (Hlt : S j * maxRangeQueryStateLimit < length kvs) by (destruct Hj; [done|lia]).
    destruct IH as (hj & Hrun & Htrace & Hview & Hst); [right; lia|].
    set (l := drop ((j + 1) * maxRangeQueryStateLimit) kvs) in *.
    assert (Hmore : hasMore l = true).
    { subst l. rewrite hasMore_drop. apply bool_decide_eq_true_2. lia. }
    unfold pageStatus in Hst. rewrite Hmore in Hst.
    rewrite <- Huuid in Hst.
    destruct (handleRangeQueryStateNext_page env dec enc next id a l 0 hj
                Hmarshal Hnext Hst Hmore) as (h' & Hrun' & Htrace' & Hview' & Hst').
    { rewrite Huuid. eapply decryptsTo_view; [exact Hview|].
      by apply decryptsTo_drop. }
    exists h'. split; [|split; [|split]].
    + cbn [scanRun]. by rewrite Hrun.
    + rewrite Htrace', Htrace, <- app_assoc. f_equal. cbn [app]. f_equal.
      rewrite (seq_S (S j)), map_app. cbn [map]. rewrite Huuid.
      unfold scanFrame. subst l. by rewrite Nat.add_1_r.
    + by rewrite <- Huuid, Hview', Huuid.
    + rewrite Huuid in Hst'. subst l. rewrite drop_drop in Hst'.
      by replace ((S j + 1) * maxRangeQueryStateLimit)
        with ((j + 1) * maxRangeQueryStateLimit + maxRangeQueryStateLimit) by lia.
Qed.

(** C3. A range scan over a ledger interval [kvs] with [N] entries, when
    every value decrypts and every reply is marshalled.  Frame [j] carries
    the pairs [j*K .. j*K + K - 1] of the interval, at most [K = 100] of
    them, with [HasMore] set exactly when more than [(j + 1) * K] entries
    exist; a frame with [HasMore] carries exactly [K] pairs; with [N < K]
    the first frame carries all [N] pairs and [HasMore = false].  The
    opening request followed by [j] NEXT requests (as long as the previous
    frame had [HasMore]) sends exactly the frames [0 .. j]; after a frame
    with [HasMore] the iterator is registered, not closed, and stands on the
    next pair; after the frame without [HasMore] it has been closed once and
    its id is absent from the registry. *)
Theorem range_scan_paging (env : Environment) (dec : string -> string)
    (enc : RangeQueryStateResponse -> string) (first next : ChaincodeMessage)
    (h : Handler) (c : transactionContext) (rqs : RangeQueryState)
    (chaincodeID : string) (kvs : list (string * string)) :
  (forall r, Marshal_RangeQueryStateResponse env r = ok (enc r)) ->
  guardFree h (Uuid first) ->
  Unmarshal_RangeQueryState env (Payload first) = ok rqs ->
  GetLedger env = None ->
  ChaincodeID h = Some chaincodeID ->
  GetStateRangeScanIterator env chaincodeID (StartKey rqs) (EndKey rqs)
    (negb (isTransactionMark h (Uuid first))) = ok kvs ->
  txContextOf h (Uuid first) = Some c ->
  decryptsTo env h (Uuid first) dec kvs ->
  Uuid next = Uuid first ->
  Unmarshal_RangeQueryStateNext env (Payload next)
  = ok (GenerateUUID env (uuidsGenerated h)) ->
  let K := maxRangeQueryStateLimit in
  let N := length kvs in
  let id := GenerateUUID env (uuidsGenerated h) in
  let a := fresh (dom (iterators h)) in
  let frame := scanFrame dec id kvs in
  (forall j, KeysAndValues (frame j) = decryptAll dec (take K (drop (j * K) kvs)) /\
             length (KeysAndValues (frame j)) <= K /\
             HasMore (frame j) = bool_decide ((j + 1) * K < N) /\
             ID (frame j) = id /\
             (HasMore (frame j) = true -> length (KeysAndValues (frame j)) = K)) /\
  (N < K -> frame 0 = mkRangeResp (decryptAll dec kvs) false id) /\
  (forall j, j = 0 \/ j * K < N ->
     exists h',
       scanRun env first next j h = Ret tt h' /\
       trace h' = trace h ++
         A_GetStateRangeScanIterator chaincodeID (StartKey rqs) (EndKey rqs)
           (negb (isTransactionMark h (Uuid first)))
         :: map (fun i => A_Send (RESPONSE_msg (enc (frame i)) (Uuid first)))
                (seq 0 (S j)) /\
       if HasMore (frame j)
       then scanning h' (Uuid first) id a (drop ((j + 1) * K) kvs) 0
       else scanEnded h' (Uuid first) id a 0).
Proof.
  intros Hmarshal Hguard Hun Hledger Hcc Hscan Hc Hdec Huuid Hnext K N id a frame.
  split; [|split].
  - intros j. subst frame K N. split; [reflexivity|].
    rewrite scanFrame_HasMore, scanFrame_length.
    split; [apply Nat.le_min_l|]. split; [reflexivity|]. split; [reflexivity|].
    intros Hmore%bool_decide_eq_true_1. apply Nat.min_l. nia.
  - intros HN. subst frame K N. unfold scanFrame, pageFrame. cbn [Nat.mul drop].
    rewrite drop_0, take_ge, drop_ge by lia. reflexivity.
  - intros j Hj.
    destruct (scanRun_pages env dec enc first next h c rqs chaincodeID kvs
                Hmarshal Hguard Hun Hledger Hcc Hscan Hc Hdec Huuid Hnext j Hj)
      as (h' & Hrun & Htrace & _ & Hst).
    exists h'. split; [exact Hrun|]. split; [exact Htrace|].
    unfold pageStatus in Hst. subst frame.
    rewrite scanFrame_HasMore, <- hasMore_drop. exact Hst.
Qed.

(** Witness for C3: the scan of 250 entries of section 8, scenario 4; the
    third frame carries the last 50 pairs, the iterator has been closed once
    and its id is gone from the registry. *)
Lemma range_scan_paging_witness :
  exists h',
    scanRun (sampleEnv None scanLedger) openScan nextPage 2
      (sampleHandler transactionstate) = Ret tt h' /\
    trace h' = [A_GetStateRangeScanIterator "cc" "a" "a" false;
                A_Send (RESPONSE_msg "100+it0" "tx1");
                A_Send (RESPONSE_msg "100+it0" "tx1");
                A_Send (RESPONSE_msg "50.it0" "tx1")] /\
    scanEnded h' "tx1" "it0" 0 0.
Proof.
  destruct (proj2 (proj2
      (range_scan_paging (sampleEnv None scanLedger) (fun v => v)
         (fun r => pretty (length (KeysAndValues r))
                   +:+ (if HasMore r then "+" else ".") +:+ ID r)
         openScan nextPage
         (sampleHandler transactionstate) (mkTxCtx (Some executeTx) [] ∅)
         {| StartKey := "a"; EndKey := "a" |} "cc" scanLedger
         (fun r => eq_refl) (ex_intro _ ∅ (conj eq_refl eq_refl)) eq_refl eq_refl eq_refl
         eq_refl ltac:(vm_compute; reflexivity) (fun kv _ => eq_refl) eq_refl
         ltac:(vm_compute; reflexivity))) 2 ltac:(right; vm_compute; lia))
    as (h' & Hrun & Htrace & Hst).
  exists h'. split; [exact Hrun|]. split; [|exact Hst].
  rewrite Htrace. vm_compute. reflexivity.
Defined.

(** * Further properties of the handler *)

(** ** Transaction registry *)

Lemma set_txCtxs_id h m : txCtxs h = Some m -> set_txCtxs (Some m) h = h.
Proof. intros Hm. destruct h. simpl in *. by subst. Qed.

(** X1. [createTxContext] refuses a uuid that is already registered (and a
    handler whose table is not allocated) without touching the handler.
    For a fresh uuid it installs a context with the given security context,
    an empty channel and no iterator; the other contexts are unchanged, a
    second [createTxContext] on the uuid is refused, and [deleteTxContext]
    brings the handler back to the state before the creation. *)
Theorem createTxContext_registry (uuid : string) (tx : option Transaction) (h : Handler) :
  (txCtxs h = None ->
   createTxContext uuid tx h
   = Ret (fail (errorString ("cannot create notifier for Uuid:" +:+ uuid))) h) /\
  (is_Some (txContextOf h uuid) ->
   createTxContext uuid tx h
   = Ret (fail (errorString ("Uuid:" +:+ uuid +:+ " exists"))) h) /\
  (forall m, txCtxs h = Some m -> m !! uuid = None ->
     exists h',
       createTxContext uuid tx h = Ret (ok (mkTxCtx tx [] ∅)) h' /\
       txContextOf h' uuid = Some (mkTxCtx tx [] ∅) /\
       (forall u, u <> uuid -> txContextOf h' u = txContextOf h u) /\
       (forall tx', createTxContext uuid tx' h'
                    = Ret (fail (errorString ("Uuid:" +:+ uuid +:+ " exists"))) h') /\
       deleteTxContext uuid h' = Ret tt h).
Proof.
  unfold createTxContext, deleteTxContext, txContextOf, new_transactionContext.
  cbv beta iota delta [bind get modify ret].
  split; [by intros ->|]. split.
  - destruct (txCtxs h) as [m|]; [|by intros [? ?]].
    by intros [c ->].
  - intros m Hm Hnone. rewrite Hm, Hnone. eexists. split; [reflexivity|].
    cbn [txCtxs set_txCtxs]. rewrite lookup_insert_eq.
    split; [done|]. split; [|split].
    + intros u Hu. by rewrite lookup_insert_ne.
    + done.
    + rewrite delete_insert_eq, delete_id by done.
      f_equal. destruct h. simpl in *. by subst.
Qed.

(** Witness for X1: a third uuid joins the sample session. *)
Lemma createTxContext_registry_witness :
  exists h',
    createTxContext "tx2" (Some executeTx) (sampleHandler readystate)
    = Ret (ok (mkTxCtx (Some executeTx) [] ∅)) h' /\
    txContextOf h' "tx2" = Some (mkTxCtx (Some executeTx) [] ∅) /\
    deleteTxContext "tx2" h' = Ret tt (sampleHandler readystate).
Proof.
  destruct (proj2 (proj2 (createTxContext_registry "tx2" (Some executeTx)
                            (sampleHandler readystate)))
              _ eq_refl ltac:(vm_compute; reflexivity))
    as (h' & Hc & Hl & _ & _ & Hd).
  exists h'. split; [exact Hc|]. split; [exact Hl|exact Hd].
Defined.

(** ** In-flight guard *)

(** X2. The in-flight guard admits one request per uuid: once
    [createUUIDEntry] has answered true, it answers false for the same uuid
    (leaving the handler as it is) until [deleteUUIDEntry] releases the
    uuid; the guard of every other uuid is unaffected throughout. *)
Theorem createUUIDEntry_exclusive (uuid : string) (h : Handler) :
  guardFree h uuid ->
  exists h1 h2,
    createUUIDEntry uuid h = Ret true h1 /\
    createUUIDEntry uuid h1 = Ret false h1 /\
    deleteUUIDEntry uuid h1 = Ret tt h2 /\
    guardFree h2 uuid /\
    (forall u, u <> uuid ->
       (guardFree h1 u <-> guardFree h u) /\ (guardFree h2 u <-> guardFree h u)).
Proof.
  intros (m & Hm & Hfree).
  exists (guardTaken uuid m h), (set_uuidMap (Some (delete uuid (<[uuid := true]> m))) h).
  split; [by apply createUUIDEntry_free|].
  split.
  { unfold createUUIDEntry. cbv beta iota delta [bind get modify ret].
    cbn [uuidMap guardTaken set_uuidMap]. by rewrite lookup_insert_eq. }
  split; [reflexivity|]. split.
  { eexists. split; [reflexivity|]. by rewrite lookup_delete_eq. }
  intros u Hu. unfold guardFree. cbn [uuidMap guardTaken set_uuidMap]. rewrite Hm.
  split; split; intros (m' & [= <-] & Hf); eexists; (split; [reflexivity|]);
    revert Hf; rewrite ?lookup_delete_ne, ?lookup_insert_ne by done; done.
Qed.

(** Witness for X2. *)
Lemma createUUIDEntry_exclusive_witness :
  exists h1 h2,
    createUUIDEntry "tx1" (sampleHandler transactionstate) = Ret true h1 /\
    createUUIDEntry "tx1" h1 = Ret false h1 /\
    deleteUUIDEntry "tx1" h1 = Ret tt h2 /\
    guardFree h2 "tx1".
Proof.
  destruct (createUUIDEntry_exclusive "tx1" (sampleHandler transactionstate)
              (ex_intro _ ∅ (conj eq_refl eq_refl)))
    as (h1 & h2 & H1 & H2 & H3 & H4 & _).
  exists h1, h2. repeat split; assumption.
Defined.

(** X3. A request that finds the guard of its uuid taken is dropped: each
    of the four read actions, the nested query and the write action of a
    transaction returns at once, with the handler unchanged (no frame, no
    ledger call, nothing posted on [nextState]). *)
Theorem duplicate_request_dropped (env : Environment) (msg : ChaincodeMessage)
    (h : Handler) :
  ~ guardFree h (Uuid msg) ->
  handleGetState_task env msg h = Ret tt h /\
  handleRangeQueryState_task env msg h = Ret tt h /\
  handleRangeQueryStateNext_task env msg h = Ret tt h /\
  handleRangeQueryStateClose_task env msg h = Ret tt h /\
  handleQueryChaincode_task env msg h = Ret tt h /\
  (forall e state rest,
     ev_Args e = I_msg (Some msg) :: rest ->
     isTransactionMark h (Uuid msg) = true ->
     enterBusyState_task env e state h = Ret tt h).
Proof.
  intros Hbusy. pose proof (createUUIDEntry_busy _ _ Hbusy) as Hc.
  unfold handleGetState_task, handleRangeQueryState_task, handleRangeQueryStateNext_task,
    handleRangeQueryStateClose_task, handleQueryChaincode_task.
  rewrite !(bind_Ret _ _ _ _ _ Hc). repeat split.
  intros e state rest Hargs Hmark.
  unfold enterBusyState_task, Args0. rewrite Hargs.
  cbv beta iota delta [bind ret deref assert_ChaincodeMessage].
  rewrite getIsTransaction_spec, Hmark. cbv beta iota delta [negb].
  by rewrite Hc.
Qed.

(** Witness for X3: a GET_STATE of [tx1] while another request of [tx1] is
    in flight. *)
Lemma duplicate_request_dropped_witness :
  handleGetState_task (sampleEnv None [])
    (mkMsg ChaincodeMessage_GET_STATE "a" "tx1")
    (guardTaken "tx1" ∅ (sampleHandler transactionstate))
  = Ret tt (guardTaken "tx1" ∅ (sampleHandler transactionstate)).
Proof.
  apply (duplicate_request_dropped (sampleEnv None [])
           (mkMsg ChaincodeMessage_GET_STATE "a" "tx1")
           (guardTaken "tx1" ∅ (sampleHandler transactionstate))).
  intros (m & Hm & Hfree). injection Hm as <-. vm_compute in Hfree. discriminate Hfree.
Defined.

(** ** Iterator registry: NEXT and CLOSE *)

Lemma handleRangeQueryStateNext_not_found env msg h c id :
  guardFree h (Uuid msg) ->
  Unmarshal_RangeQueryStateNext env (Payload msg) = ok id ->
  txContextOf h (Uuid msg) = Some c ->
  rangeQueryIteratorMap c !! id = None ->
  exists h',
    handleRangeQueryStateNext_task env msg h = Ret tt h' /\
    trace h' = trace h ++ [A_Send (ERROR_msg "Range query iterator not found" (Uuid msg))] /\
    iterators h' = iterators h /\
    txCtxs h' = txCtxs h.
Proof.
  intros (m & Hm & Hfree) Hun Hc Hid.
  unfold handleRangeQueryStateNext_task.
  rewrite (bind_Ret _ _ _ _ _ (createUUIDEntry_free _ _ _ Hm Hfree)).
  change (negb true) with false. cbv iota. rewrite Hun. cbv zeta iota beta.
  assert (Hc' : txContextOf (guardTaken (Uuid msg) m h) (Uuid msg) = Some c) by exact Hc.
  destruct (deferred_serialSend_spec env (Uuid msg)
              (ERROR_msg "Range query iterator not found" (Uuid msg))
              (guardTaken (Uuid msg) m h) (<[Uuid msg := true]> m) eq_refl)
    as (r & Hd & _).
  erewrite with_defer_Ret; [| |exact Hd].
  - eexists. split; [reflexivity|]. done.
  - rewrite (bind_Ret _ _ _ _ _ (getTxContext_Some _ _ _ Hc')).
    rewrite (bind_Ret _ _ _ _ _ (getRangeQueryIterator_spec _ _ _ _ Hc')).
    by rewrite Hid.
Qed.



(** X5. A RANGE_QUERY_STATE_CLOSE on a registered id closes that iterator
    once, removes the id from the registry of the context (the other ids
    stay) and answers RESPONSE; a RANGE_QUERY_STATE_NEXT that then names the
    id is answered "Range query iterator not found". *)
Theorem handleRangeQueryStateClose_known_id (env : Environment)
    (msg : ChaincodeMessage) (h : Handler) (c : transactionContext) (id : string)
    (a : nat) (it : RangeScanIterator) (payloadBytes : string) :
  guardFree h (Uuid msg) ->
  Unmarshal_RangeQueryStateClose env (Payload msg) = ok id ->
  txContextOf h (Uuid msg) = Some c ->
  rangeQueryIteratorMap c !! id = Some a ->
  iterators h !! a = Some it ->
  Marshal_RangeQueryStateResponse env (mkRangeResp [] false id) = ok payloadBytes ->
  exists h',
    handleRangeQueryStateClose_task env msg h = Ret tt h' /\
    trace h' = trace h ++ [A_Send (RESPONSE_msg payloadBytes (Uuid msg))] /\
    iterators h' = <[a := iter_Close it]> (iterators h) /\
    txContextOf h' (Uuid msg) = Some (withIteratorMap (delete id) c) /\
    (forall next, Uuid next = Uuid msg ->
       Unmarshal_RangeQueryStateNext env (Payload next) = ok id ->
       exists h'',
         handleRangeQueryStateNext_task env next h' = Ret tt h'' /\
         trace h'' = trace h' ++
           [A_Send (ERROR_msg "Range query iterator not found" (Uuid msg))]).
Proof.
  intros (m & Hm & Hfree) Hun Hc Hid Hit Hmarshal.
  destruct (txContextOf_Some _ _ _ Hc) as (tm & Htm & Hc').
  set (h1 := guardTaken (Uuid msg) m h).
  assert (Hc1 : txContextOf h1 (Uuid msg) = Some c) by exact Hc.
  set (h3 := set_txCtxs (Some (<[Uuid msg := withIteratorMap (delete id) c]> tm))
               (set_iterators (<[a := iter_Close it]> (iterators h1)) h1)).
  destruct (deferred_serialSend_spec env (Uuid msg) (RESPONSE_msg payloadBytes (Uuid msg))
              h3 (<[Uuid msg := true]> m) eq_refl) as (r & Hd & _).
  eexists. split; [|split; [|split; [|split]]].
  - unfold handleRangeQueryStateClose_task.
    rewrite (bind_Ret _ _ _ _ _ (createUUIDEntry_free _ _ _ Hm Hfree)).
    change (negb true) with false. cbv iota. rewrite Hun.
    eapply with_defer_Ret; [|exact Hd].
    rewrite (bind_Ret _ _ _ _ _ (getTxContext_Some _ _ _ Hc1)).
    rewrite (bind_Ret _ _ _ _ _ (getRangeQueryIterator_spec _ _ _ _ Hc1)).
    rewrite Hid. rewrite bind_bind.
    rewrite (bind_Ret _ _ _ _ _ (rangeIter_Close_spec a h1 it Hit)). cbv beta.
    match goal with
    | |- bind (deleteRangeQueryIterator _ _) _ ?hh = _ =>
        rewrite (bind_Ret _ _ _ _ _
                   (deleteRangeQueryIterator_spec (Uuid msg) id hh tm c Htm Hc'))
    end.
    by rewrite Hmarshal.
  - done.
  - done.
  - unfold txContextOf. cbn. by rewrite lookup_insert_eq.
  - intros next Huuid Hnext.
    set (h4 := set_trace (trace h3 ++ [A_Send (RESPONSE_msg payloadBytes (Uuid msg))])
                 (set_uuidMap (Some (delete (Uuid msg) (<[Uuid msg := true]> m))) h3)).
    assert (Hg4 : guardFree h4 (Uuid next)).
    { rewrite Huuid. eexists. split; [reflexivity|]. by rewrite lookup_delete_eq. }
    assert (Hc4 : txContextOf h4 (Uuid next) = Some (withIteratorMap (delete id) c)).
    { rewrite Huuid. unfold txContextOf. cbn. by rewrite lookup_insert_eq. }
    assert (Hid4 : rangeQueryIteratorMap (withIteratorMap (delete id) c) !! id = None).
    { cbn. by rewrite lookup_delete_eq. }
    destruct (handleRangeQueryStateNext_not_found env next h4 _ id Hg4 Hnext Hc4 Hid4)
      as (h'' & Hrun & Htrace & _).
    exists h''. split; [exact Hrun|]. by rewrite Htrace, Huuid.
Qed.

(** Witness for X5: [tx1] closes the iterator it has open. *)
Lemma handleRangeQueryStateClose_known_id_witness :
  exists h',
    handleRangeQueryStateClose_task (sampleEnv None [])
      (mkMsg ChaincodeMessage_RANGE_QUERY_STATE_CLOSE "it0" "tx1") scanningHandler
    = Ret tt h' /\
    trace h' = [A_Send (RESPONSE_msg "0.it0" "tx1")] /\
    iterators h' = {[ 0 := mkIter (Some ("k", "v")) [("l", "w")] 1 ]}.
Proof.
  pose (c := mkTxCtx (Some executeTx) [] ({[ "it0" := 0 ]} : gmap string nat)).
  destruct (handleRangeQueryStateClose_known_id (sampleEnv None [])
              (mkMsg ChaincodeMessage_RANGE_QUERY_STATE_CLOSE "it0" "tx1") scanningHandler
              c "it0" 0
              (mkIter (Some ("k", "v")) [("l", "w")] 0) "0.it0"
              (ex_intro _ ∅ (conj eq_refl eq_refl)) eq_refl
              ltac:(vm_compute; reflexivity) ltac:(vm_compute; reflexivity)
              ltac:(vm_compute; reflexivity) eq_refl)
    as (h' & Hrun & Htrace & Hits & _).
  exists h'. split; [exact Hrun|]. split; [exact Htrace|].
  rewrite Hits. vm_compute. reflexivity.
Defined.

(** ** Frames the FSM admits *)

(** [FSM_Event] once the table has answered [dst]. *)
Lemma FSM_Event_unfold env t args h dst :
  spec_transition t (FSM_current h) = Some dst ->
  fsm.FSM_Event Events (Callbacks env) (Type_String t) args h =
  (do e <- fsm.call ("before_" +:+ Type_String t) (Callbacks env)
             (mkEvent (Type_String t) (FSM_current h) dst None args false);
   if ev_canceled e then ret (Some (CanceledError (ev_Err e)))
   else if decide (FSM_current h = dst) then
     do e' <- fsm.call ("after_" +:+ Type_String t) (Callbacks env) e;
     ret (Some (NoTransitionError (ev_Err e')))
   else
     do e' <- fsm.call ("leave_" +:+ FSM_current h) (Callbacks env) e;
     if ev_canceled e' then ret (Some (CanceledError (ev_Err e')))
     else
       run modify (set_FSM_current dst);
       do e1 <- fsm.call ("enter_" +:+ dst) (Callbacks env) e';
       do e2 <- fsm.call ("after_" +:+ Type_String t) (Callbacks env) e1;
       ret (ev_Err e2)) h.
Proof.
  intros Htr. unfold fsm.FSM_Event. unfold bind at 1, get at 1.
  fold transitions. by rewrite transitions_spec, Htr.
Qed.

Lemma readTaskOf_type msg task :
  readTaskOf msg = Some task ->
  outOfBand (Type_ msg) = false /\
  (forall s, s ∈ selfLoopStates -> spec_transition (Type_ msg) s = Some s).
Proof.
  unfold readTaskOf.
  destruct (Type_ msg); intros [= <-] || intros [=]; (split; [done|]);
    intros s Hs; unfold spec_transition; by rewrite decide_True.
Qed.

(** X6. A read request (GET_STATE and the three RANGE_QUERY_STATE types)
    received in one of the five live states is admitted: [HandleMessage]
    returns nil, the FSM stays where it is and exactly one goroutine, the
    action of the request, is started; nothing else changes (the ledger is
    only reached from that goroutine). *)
Theorem HandleMessage_starts_read_action (env : Environment) (msg : ChaincodeMessage)
    (task : Task) (h : Handler) :
  readTaskOf msg = Some task ->
  FSM_current h ∈ selfLoopStates ->
  HandleMessage env msg h = Ret None (set_spawned (spawned h ++ [task]) h).
Proof.
  intros Htask Hstate.
  destruct (readTaskOf_type _ _ Htask) as [Hoob Hloop].
  pose proof (Hloop _ Hstate) as Htr.
  rewrite HandleMessage_fsm; [|done|by rewrite Htr].
  unfold bind at 1. rewrite (FSM_Event_unfold env (Type_ msg) _ h _ Htr).
  unfold readTaskOf in Htask.
  destruct (Type_ msg); try discriminate Htask; injection Htask as <-;
    unfold fsm.call; simpl fsm.find_callback;
    unfold closure, afterGetState, afterRangeQueryState, afterRangeQueryStateNext,
      afterRangeQueryStateClose, afterRead, Args0;
    cbv beta iota delta [bind get ret deref go modify assert_ChaincodeMessage negb
                         ev_Args ev_canceled ev_Err];
    by rewrite decide_True.
Qed.

(** Witness for X6: a GET_STATE while the transaction is busy writing. *)
Lemma HandleMessage_starts_read_action_witness :
  HandleMessage (sampleEnv None []) (mkMsg ChaincodeMessage_GET_STATE "a" "tx1")
                (sampleHandler busyxactstate)
  = Ret None (set_spawned [T_handleGetState (mkMsg ChaincodeMessage_GET_STATE "a" "tx1")]
                          (sampleHandler busyxactstate)).
Proof.
  apply (HandleMessage_starts_read_action (sampleEnv None [])
           (mkMsg ChaincodeMessage_GET_STATE "a" "tx1")
           (T_handleGetState (mkMsg ChaincodeMessage_GET_STATE "a" "tx1"))
           (sampleHandler busyxactstate) eq_refl).
  vm_compute. repeat constructor.
Defined.

(** X7. A COMPLETED frame received while the FSM is already in [ready] is
    absorbed: the event is a transition from [ready] to [ready], so
    [enterReadyState] does not run; [HandleMessage] returns nil and the
    handler is unchanged: no waiter is notified and the transaction mark of
    the uuid stays. *)
Theorem HandleMessage_COMPLETED_in_ready (env : Environment) (msg : ChaincodeMessage)
    (h : Handler) :
  Type_ msg = ChaincodeMessage_COMPLETED ->
  FSM_current h = readystate ->
  HandleMessage env msg h = Ret None h.
Proof.
  intros Hty Hcur.
  assert (Htr : spec_transition (Type_ msg) (FSM_current h) = Some readystate)
    by (by rewrite Hty, Hcur).
  rewrite HandleMessage_fsm; [|by rewrite Hty|by rewrite Htr].
  unfold bind at 1. rewrite (FSM_Event_unfold env (Type_ msg) _ h _ Htr).
  rewrite Hty, Hcur. unfold fsm.call. simpl fsm.find_callback.
  unfold closure, beforeCompletedEvent, Args0.
  cbv beta iota delta [bind get ret deref assert_ChaincodeMessage negb
                       ev_Args ev_canceled ev_Err].
  reflexivity.
Qed.

(** Witness for X7. *)
Lemma HandleMessage_COMPLETED_in_ready_witness :
  HandleMessage (sampleEnv None []) (mkMsg ChaincodeMessage_COMPLETED "done" "tx1")
                (sampleHandler readystate)
  = Ret None (sampleHandler readystate).
Proof.
  exact (HandleMessage_COMPLETED_in_ready (sampleEnv None [])
           (mkMsg ChaincodeMessage_COMPLETED "done" "tx1") (sampleHandler readystate)
           eq_refl eq_refl).
Defined.

(** ** Notifying a waiter *)

Lemma iter_fmap_S {A} (f : A -> A) n (x : option A) :
  f <$> (Nat.iter n f <$> x) = Nat.iter (S n) f <$> x.
Proof. by destruct x. Qed.

(** X8. [notify] delivers the message on the channel of the context of its
    uuid when that channel is free, then calls [Close] on every iterator the
    context has registered: an iterator object is closed once for each id it
    is registered under and an unregistered one is left alone.  The registry
    itself is not emptied (closed iterators stay registered), no frame is
    sent and the FSM is not moved.  On a channel that already holds a
    message the send blocks, and without a context nothing happens. *)
Theorem notify_delivers_and_closes (msg : ChaincodeMessage) (h : Handler) :
  (txContextOf h (Uuid msg) = None -> notify msg h = Ret tt h) /\
  (forall c, txContextOf h (Uuid msg) = Some c -> responseNotifier c <> [] ->
     notify msg h = Block h) /\
  (forall c, txContextOf h (Uuid msg) = Some c -> responseNotifier c = [] ->
     exists h',
       notify msg h = Ret tt h' /\
       txContextOf h' (Uuid msg)
       = Some (mkTxCtx (transactionSecContext c) [msg] (rangeQueryIteratorMap c)) /\
       (forall a, iterators h' !! a
                  = Nat.iter (registrations (rangeQueryIteratorMap c) a) iter_Close
                    <$> iterators h !! a) /\
       trace h' = trace h /\ FSM_current h' = FSM_current h).
Proof.
  unfold notify, txContextOf. cbv beta iota delta [bind get modify ret block].
  split; [|split].
  - destruct (txCtxs h) as [tm|]; [|done]. by intros ->.
  - intros c Hc Hfull. destruct (txCtxs h) as [tm|]; [|done]. rewrite Hc.
    rewrite decide_True; [done|]. destruct (responseNotifier c); [done|simpl; lia].
  - intros c Hc Hfree. destruct (txCtxs h) as [tm|]; [|done]. rewrite Hc, Hfree.
    cbn [length]. rewrite decide_False by lia.
    eexists. split; [reflexivity|]. cbn [txCtxs set_txCtxs set_iterators].
    rewrite lookup_insert_eq. split; [done|]. split; [|done].
    intros a. cbn [iterators set_iterators set_txCtxs]. unfold registrations.
    apply (map_fold_weak_ind
             (fun r (m : gmap string nat) =>
                r !! a = Nat.iter (size (filter (fun p => p.2 = a) m)) iter_Close
                         <$> iterators h !! a)).
    + rewrite map_filter_empty, map_size_empty. by destruct (iterators h !! a).
    + intros i x m r Hi IH. destruct (decide (x = a)) as [->|Hne].
      * rewrite lookup_alter_eq, IH, map_filter_insert_True by done.
        rewrite map_size_insert_None by (by apply map_lookup_filter_None_2; left).
        apply iter_fmap_S.
      * rewrite lookup_alter_ne, IH by done.
        by rewrite map_filter_insert_False, delete_id by done.
Qed.

(** Witness for X8: the context of [tx1] has one iterator open. *)
Lemma notify_delivers_and_closes_witness :
  exists h',
    notify (mkMsg ChaincodeMessage_COMPLETED "done" "tx1") scanningHandler = Ret tt h' /\
    iterators h' !! 0 = Some (mkIter (Some ("k", "v")) [("l", "w")] 1).
Proof.
  pose (c := mkTxCtx (Some executeTx) [] ({[ "it0" := 0 ]} : gmap string nat)).
  destruct (proj2 (proj2 (notify_delivers_and_closes
                            (mkMsg ChaincodeMessage_COMPLETED "done" "tx1") scanningHandler))
              c ltac:(vm_compute; reflexivity) eq_refl)
    as (h' & Hrun & _ & Hits & _).
  exists h'. split; [exact Hrun|]. rewrite Hits. vm_compute. reflexivity.
Defined.

(** ** Entering [ready] *)

Lemma notify_free_eq msg h tm c :
  txCtxs h = Some tm -> tm !! Uuid msg = Some c -> responseNotifier c = [] ->
  notify msg h = Ret tt (notified msg tm c h).
Proof.
  intros Htm Hc Hfree. unfold notify, notified, closeAll, delivered.
  cbv beta iota delta [bind get modify ret block].
  rewrite Htm, Hc, Hfree. cbn [length].
  destruct (decide (1 <= 0)%nat); [lia|]. by destruct h.
Qed.

Lemma notify_absent msg h :
  txContextOf h (Uuid msg) = None -> notify msg h = Ret tt h.
Proof.
  unfold notify, txContextOf. cbv beta iota delta [bind get modify ret block].
  destruct (txCtxs h) as [tm|]; [|done]. by intros ->.
Qed.

Lemma withoutTransactionMark_mark uuid h :
  isTransactionMark (withoutTransactionMark uuid h) uuid = false.
Proof.
  unfold isTransactionMark, withoutTransactionMark.
  destruct (isTransaction h) as [m|] eqn:Hm; cbn; [|by rewrite Hm].
  by rewrite lookup_delete_eq.
Qed.

Lemma withoutTransactionMark_frame uuid h :
  txCtxs (withoutTransactionMark uuid h) = txCtxs h /\
  FSM_current (withoutTransactionMark uuid h) = FSM_current h /\
  trace (withoutTransactionMark uuid h) = trace h /\
  iterators (withoutTransactionMark uuid h) = iterators h /\
  deployTXSecContext (withoutTransactionMark uuid h) = deployTXSecContext h.
Proof. unfold withoutTransactionMark. by destruct (isTransaction h). Qed.

Lemma enterReadyState_message e state h m rest :
  ev_Args e = I_msg (Some m) :: rest ->
  enterReadyState e state h =
  match notify m (withoutTransactionMark (Uuid m) h) with
  | Ret _ h' => Ret e h'
  | Panic h' => Panic h'
  | Block h' => Block h'
  end.
Proof.
  intros Hargs. unfold enterReadyState, Args0. rewrite Hargs.
  cbv beta iota delta [bind ret deref assert_ChaincodeMessage negb].
  rewrite deleteIsTransaction_spec. by destruct (notify m _) as [[] ?|?|?].
Qed.


Lemma HandleMessage_enter_ready env msg h :
  entersReady (Type_ msg) (FSM_current h) ->
  HandleMessage env msg h =
  match notify msg (readied (Uuid msg) h) with
  | Ret _ h' => Ret None h'
  | Panic h' => Panic h'
  | Block h' => Block h'
  end.
Proof.
  intros Hin.
  assert (Htr : spec_transition (Type_ msg) (FSM_current h) = Some readystate).
  { destruct Hin as [[-> [->| ->]]|[[-> ->]|[-> ->]]]; reflexivity. }
  assert (Hne : FSM_current h <> readystate).
  { destruct Hin as [[_ [->| ->]]|[[_ ->]|[_ ->]]]; discriminate. }
  rewrite HandleMessage_fsm; [| |by rewrite Htr].
  2:{ destruct Hin as [[-> _]|[[-> _]|[-> _]]]; reflexivity. }
  unfold bind at 1. rewrite (FSM_Event_unfold env (Type_ msg) _ h _ Htr).
  unfold readied.
  destruct Hin as [[-> [->| ->]]|[[-> ->]|[-> ->]]];
    unfold fsm.call; simpl fsm.find_callback;
    unfold closure, beforeCompletedEvent, Args0;
    cbv beta iota delta [bind get ret deref modify assert_ChaincodeMessage negb
                         ev_Args ev_canceled ev_Err];
    (case_decide; [done|]);
    (erewrite enterReadyState_message by reflexivity);
    by destruct (notify msg _) as [[] ?|?|?].
Qed.

(** X9. A COMPLETED frame received in [init] or [transaction], an ERROR
    frame received in [transaction] and a READY frame received in
    [established] take the FSM to [ready]:
    [enterReadyState] removes the transaction mark of the uuid and notifies
    the waiter.  With no context for the uuid nothing else happens; with a
    context whose channel is free the frame is delivered on it and the
    iterators of the context are closed; in both cases [HandleMessage]
    returns nil and sends nothing.  With a channel that already holds a
    message the handler blocks, the FSM already in [ready] and the mark
    already gone. *)
Theorem HandleMessage_enters_ready (env : Environment) (msg : ChaincodeMessage)
    (h : Handler) :
  entersReady (Type_ msg) (FSM_current h) ->
  (txContextOf h (Uuid msg) = None ->
     HandleMessage env msg h = Ret None (readied (Uuid msg) h)) /\
  (forall tm c, txCtxs h = Some tm -> tm !! Uuid msg = Some c ->
     (responseNotifier c = [] ->
        HandleMessage env msg h = Ret None (notified msg tm c (readied (Uuid msg) h))) /\
     (responseNotifier c <> [] ->
        HandleMessage env msg h = Block (readied (Uuid msg) h))) /\
  FSM_current (readied (Uuid msg) h) = readystate /\
  isTransactionMark (readied (Uuid msg) h) (Uuid msg) = false /\
  trace (readied (Uuid msg) h) = trace h.
Proof.
  intros Hin. rewrite (HandleMessage_enter_ready env msg h Hin).
  destruct (withoutTransactionMark_frame (Uuid msg) (set_FSM_current readystate h))
    as (Htx & Hcur & Htr & _).
  repeat split.
  - intros Hnone. rewrite notify_absent; [done|].
    unfold txContextOf, readied in *. by rewrite Htx.
  - intros Hfree. erewrite notify_free_eq; [done| |done..].
    unfold readied. by rewrite Htx.
  - intros Hfull. unfold notify. cbv beta iota delta [bind get].
    unfold readied at 1 2. rewrite Htx. cbn [txCtxs set_FSM_current].
    rewrite H, H0. destruct (responseNotifier c); [done|].
    cbn [length]. by rewrite decide_True by lia.
  - done.
  - apply withoutTransactionMark_mark.
  - done.
Qed.

(** Witness for X9. *)
Lemma HandleMessage_enters_ready_witness :
  HandleMessage (sampleEnv None []) (mkMsg ChaincodeMessage_ERROR "boom" "tx1")
                scanningHandler
  = Ret None (notified (mkMsg ChaincodeMessage_ERROR "boom" "tx1")
                {[ "tx1" := mkTxCtx (Some executeTx) [] {[ "it0" := 0 ]} ]}
                (mkTxCtx (Some executeTx) [] {[ "it0" := 0 ]})
                (readied "tx1" scanningHandler)).
Proof.
  pose (c := mkTxCtx (Some executeTx) [] ({[ "it0" := 0 ]} : gmap string nat)).
  refine (proj1 (proj1 (proj2 (HandleMessage_enters_ready (sampleEnv None [])
           (mkMsg ChaincodeMessage_ERROR "boom" "tx1") scanningHandler _))
           {[ "tx1" := c ]} c eq_refl _) eq_refl).
  - right. left. split; reflexivity.
  - vm_compute. reflexivity.
Defined.

(** ** Closing a query *)

Lemma queryReply_Uuid env msg h : Uuid (queryReply env msg h) = Uuid msg.
Proof.
  unfold queryReply. case_decide; [|done]. by destruct (cryptoResult _ _ _ _ _ _).
Qed.

Lemma HandleMessage_query_reply env msg h :
  closesQuery (Type_ msg) ->
  HandleMessage env msg h =
  match notify (queryReply env msg h) (withoutTransactionMark (Uuid msg) h) with
  | Ret _ h' => Ret None h'
  | Panic h' => Panic h'
  | Block h' => Block h'
  end.
Proof.
  intros Hty.
  destruct (withoutTransactionMark_frame (Uuid msg) h) as (Htx & _ & _ & _ & Hdep).
  unfold HandleMessage, queryReply. destruct Hty as [Hty|Hty].
  - rewrite !decide_True by done.
    unfold bind at 1. rewrite deleteIsTransaction_spec.
    unfold bind at 1, encrypt. rewrite encryptOrDecrypt_pure.
    unfold txContextOf at 1. rewrite Htx, Hdep. fold (txContextOf h (Uuid msg)).
    rewrite Hty. unfold bind, ret.
    by destruct (cryptoResult _ _ _ _ _ _); destruct (notify _ _) as [[] ?|?|?].
  - repeat case_decide; try congruence.
    unfold bind at 1. rewrite deleteIsTransaction_spec.
    unfold bind, ret. by destruct (notify _ _) as [[] ?|?|?].
Qed.

(** X10. QUERY_COMPLETED and QUERY_ERROR frames are served in every state
    of the FSM, [created] and [end] included, without an event: the
    transaction mark of the uuid is removed and the waiter whose channel is
    free receives the reply, which for QUERY_COMPLETED carries the encrypted
    payload, or, when the encryption fails, is a QUERY_ERROR frame with the
    text "Failed to encrypt query result <cause>".  [HandleMessage] returns
    nil, the FSM stays where it is and no frame is sent; with no context
    for the uuid the frame is dropped. *)
Theorem HandleMessage_closes_query (env : Environment) (msg : ChaincodeMessage)
    (h : Handler) :
  closesQuery (Type_ msg) ->
  (txContextOf h (Uuid msg) = None ->
     HandleMessage env msg h = Ret None (withoutTransactionMark (Uuid msg) h)) /\
  (forall tm c, txCtxs h = Some tm -> tm !! Uuid msg = Some c ->
     responseNotifier c = [] ->
     exists h', HandleMessage env msg h = Ret None h' /\
       h' = notified (queryReply env msg h) tm c (withoutTransactionMark (Uuid msg) h) /\
       txContextOf h' (Uuid msg) = Some (delivered (queryReply env msg h) c) /\
       FSM_current h' = FSM_current h /\
       isTransactionMark h' (Uuid msg) = false /\
       trace h' = trace h).
Proof.
  intros Hty. rewrite (HandleMessage_query_reply env msg h Hty).
  destruct (withoutTransactionMark_frame (Uuid msg) h) as (Htx & Hcur & Htr & _).
  split.
  - intros Hnone. rewrite notify_absent; [done|].
    rewrite queryReply_Uuid. unfold txContextOf in *. by rewrite Htx.
  - intros tm c Htm Hc Hfree. eexists.
    rewrite (notify_free_eq _ _ tm c); [|by rewrite Htx|by rewrite queryReply_Uuid|done].
    split; [reflexivity|]. split; [reflexivity|].
    unfold notified, txContextOf. cbn. rewrite queryReply_Uuid.
    rewrite lookup_insert_eq. repeat split; try done.
    pose proof (withoutTransactionMark_mark (Uuid msg) h) as Hm.
    unfold isTransactionMark in *. cbn.
    by destruct (withoutTransactionMark (Uuid msg) h).
Qed.

(** Witness for X10. *)
Lemma HandleMessage_closes_query_witness :
  HandleMessage (sampleEnv (Some sampleSecHelper) [])
                (mkMsg ChaincodeMessage_QUERY_COMPLETED "42" "q1") (sampleHandler endstate)
  = Ret None (withoutTransactionMark "q1"
                (set_txCtxs (Some {[ "tx1" := mkTxCtx (Some executeTx) [] ∅;
                                     "q1" := mkTxCtx (Some queryTx)
                                       [mkMsg ChaincodeMessage_QUERY_COMPLETED
                                              "CHAINCODE_NEW/CHAINCODE_QUERY:42" "q1"] ∅ ]})
                   (sampleHandler endstate))).
Proof.
  pose (c := mkTxCtx (Some queryTx) [] (∅ : gmap string nat)).
  pose (tm := ({[ "tx1" := mkTxCtx (Some executeTx) [] ∅; "q1" := c ]}
               : gmap string transactionContext)).
  destruct (proj2 (HandleMessage_closes_query (sampleEnv (Some sampleSecHelper) [])
              (mkMsg ChaincodeMessage_QUERY_COMPLETED "42" "q1") (sampleHandler endstate)
              (or_introl eq_refl)) tm c eq_refl ltac:(vm_compute; reflexivity) eq_refl)
    as (h' & -> & -> & _).
  vm_compute. reflexivity.
Defined.

(** ** The write actions *)

Ltac busy_enter h Hargs Hmark Hgm Hfree Hledger Hcid :=
  unfold enterBusyState_task, Args0; rewrite Hargs;
  cbv beta iota delta [bind ret deref assert_ChaincodeMessage];
  rewrite getIsTransaction_spec, Hmark; cbv beta iota delta [negb];
  rewrite (createUUIDEntry_free _ _ _ Hgm Hfree); cbv beta iota;
  unfold with_defer, with_defer_ret; rewrite Hledger;
  cbv beta iota delta [bind get ret deref];
  change (ChaincodeID (guardTaken _ _ h)) with (ChaincodeID h); rewrite Hcid;
  cbv beta iota.

Lemma enterBusyState_task_put env e state h m rest gm chaincodeID info :
  ev_Args e = I_msg (Some m) :: rest ->
  Type_ m = ChaincodeMessage_PUT_STATE ->
  isTransactionMark h (Uuid m) = true ->
  uuidMap h = Some gm -> default false (gm !! Uuid m) = false ->
  GetLedger env = None ->
  ChaincodeID h = Some chaincodeID ->
  Unmarshal_PutStateInfo env (Payload m) = ok info ->
  enterBusyState_task env e state h
  = Ret tt (busyDone (putOutcome env m info h chaincodeID).1
                     (putOutcome env m info h chaincodeID).2 (Uuid m) gm h).
Proof.
  intros Hargs Hty Hmark Hgm Hfree Hledger Hcid Hinfo.
  busy_enter h Hargs Hmark Hgm Hfree Hledger Hcid.
  rewrite decide_True by done. rewrite Hinfo.
  unfold encrypt. rewrite encryptOrDecrypt_pure.
  unfold putOutcome, busyDone.
  change (txContextOf (guardTaken _ _ h) _) with (txContextOf h (Uuid m)).
  change (deployTXSecContext (guardTaken _ _ h)) with (deployTXSecContext h).
  destruct (cryptoResult _ _ _ _ _ _) as [pVal|err];
    unfold emit, deleteUUIDEntry, triggerNextState, busyReply, guardTaken;
    cbv beta iota delta [bind get ret deref modify]; cbn.
  - reflexivity.
  - by rewrite app_nil_r; destruct h.
Qed.

Lemma busyDone_guardFree acts reply uuid gm h :
  guardFree (busyDone acts reply uuid gm h) uuid.
Proof.
  unfold guardFree, busyDone. eexists. split; [reflexivity|].
  by rewrite lookup_delete_eq.
Qed.

(** X11. PUT_STATE in a transaction context: the goroutine of
    [enterBusyState] encrypts the value and only then calls [SetState] with
    the encrypted value; when the encryption fails the ledger is not reached
    and the reply is an ERROR frame with the cause.  Otherwise the reply is
    ERROR with the ledger's error, or RESPONSE with an empty payload.  The
    reply is queued on [nextState] to be forwarded to the worker, the guard
    of the uuid is released, and nothing is sent from the goroutine itself. *)
Theorem enterBusyState_put_state (env : Environment) (e : Event) (state : string)
    (h : Handler) (m : ChaincodeMessage) (rest : list iface)
    (gm : gmap string bool) (chaincodeID : string) (info : PutStateInfo) :
  ev_Args e = I_msg (Some m) :: rest ->
  Type_ m = ChaincodeMessage_PUT_STATE ->
  isTransactionMark h (Uuid m) = true ->
  uuidMap h = Some gm -> default false (gm !! Uuid m) = false ->
  GetLedger env = None ->
  ChaincodeID h = Some chaincodeID ->
  Unmarshal_PutStateInfo env (Payload m) = ok info ->
  enterBusyState_task env e state h
  = Ret tt (busyDone (putOutcome env m info h chaincodeID).1
                     (putOutcome env m info h chaincodeID).2 (Uuid m) gm h) /\
  guardFree (busyDone (putOutcome env m info h chaincodeID).1
                      (putOutcome env m info h chaincodeID).2 (Uuid m) gm h) (Uuid m).
Proof.
  intros Hargs Hty Hmark Hgm Hfree Hledger Hcid Hinfo. split.
  - by apply (enterBusyState_task_put env e state h m rest).
  - apply busyDone_guardFree.
Qed.

(** Witness for X11: the value is sealed by the encryptor of the session
    before it reaches the ledger. *)
Lemma enterBusyState_put_state_witness :
  enterBusyState_task (sampleEnv (Some sampleSecHelper) [])
    (mkEvent "PUT_STATE" transactionstate busyxactstate None
       [I_msg (Some (mkMsg ChaincodeMessage_PUT_STATE "a" "tx1"))] false)
    busyxactstate (sampleHandler busyxactstate)
  = Ret tt (busyDone [A_SetState "cc" "a" "CHAINCODE_NEW/CHAINCODE_EXECUTE:a"]
                     (RESPONSE_msg "" "tx1") "tx1" ∅ (sampleHandler busyxactstate)).
Proof.
  exact (proj1 (enterBusyState_put_state (sampleEnv (Some sampleSecHelper) [])
           (mkEvent "PUT_STATE" transactionstate busyxactstate None
              [I_msg (Some (mkMsg ChaincodeMessage_PUT_STATE "a" "tx1"))] false)
           busyxactstate (sampleHandler busyxactstate)
           (mkMsg ChaincodeMessage_PUT_STATE "a" "tx1") [] ∅ "cc"
           {| psi_Key := "a"; psi_Value := "a" |}
           eq_refl eq_refl eq_refl eq_refl eq_refl eq_refl eq_refl eq_refl)).
Defined.

(** X12. DEL_STATE in a transaction context: the payload of the request is
    the key, passed to [DeleteState] as it is; the crypto mediator is not
    consulted, so the request is served whatever the security context.  The
    reply (ERROR with the ledger's error, or RESPONSE with an empty payload)
    is queued on [nextState] and the guard of the uuid is released. *)
Theorem enterBusyState_del_state (env : Environment) (e : Event) (state : string)
    (h : Handler) (m : ChaincodeMessage) (rest : list iface)
    (gm : gmap string bool) (chaincodeID : string) :
  ev_Args e = I_msg (Some m) :: rest ->
  Type_ m = ChaincodeMessage_DEL_STATE ->
  isTransactionMark h (Uuid m) = true ->
  uuidMap h = Some gm -> default false (gm !! Uuid m) = false ->
  GetLedger env = None ->
  ChaincodeID h = Some chaincodeID ->
  enterBusyState_task env e state h
  = Ret tt (busyDone [A_DeleteState chaincodeID (Payload m)]
                     (busyReply m (DeleteState env chaincodeID (Payload m)) "")
                     (Uuid m) gm h).
Proof.
  intros Hargs Hty Hmark Hgm Hfree Hledger Hcid.
  busy_enter h Hargs Hmark Hgm Hfree Hledger Hcid.
  rewrite decide_False by (rewrite Hty; discriminate).
  rewrite decide_True by done.
  unfold emit, deleteUUIDEntry, triggerNextState, guardTaken, busyDone.
  cbv beta iota delta [bind get ret deref modify]. reflexivity.
Qed.

(** Witness for X12. *)
Lemma enterBusyState_del_state_witness :
  enterBusyState_task (sampleEnv (Some sampleSecHelper) [])
    (mkEvent "DEL_STATE" initstate busyinitstate None
       [I_msg (Some (mkMsg ChaincodeMessage_DEL_STATE "a" "tx1"))] false)
    busyinitstate (sampleHandler busyinitstate)
  = Ret tt (busyDone [A_DeleteState "cc" "a"] (RESPONSE_msg "" "tx1") "tx1" ∅
                     (sampleHandler busyinitstate)).
Proof.
  exact (enterBusyState_del_state (sampleEnv (Some sampleSecHelper) [])
           (mkEvent "DEL_STATE" initstate busyinitstate None
              [I_msg (Some (mkMsg ChaincodeMessage_DEL_STATE "a" "tx1"))] false)
           busyinitstate (sampleHandler busyinitstate)
           (mkMsg ChaincodeMessage_DEL_STATE "a" "tx1") [] ∅ "cc"
           eq_refl eq_refl eq_refl eq_refl eq_refl eq_refl eq_refl).
Defined.

(** X13. INVOKE_CHAINCODE in a transaction context, once the invoked
    chaincode is launched: the payload of the response of [Execute] is read
    before its error is looked at.  With a response, the reply is ERROR with
    the error of [Execute] if there is one and RESPONSE with the payload of
    the response otherwise.  With a nil response the goroutine panics
    whether or not [Execute] reported an error: its deferred function
    releases the guard and fails in turn on the reply that was never set,
    so nothing is queued on [nextState] and the worker gets no answer. *)
Theorem enterBusyState_invoke_chaincode (env : Environment) (e : Event) (state : string)
    (h : Handler) (m : ChaincodeMessage) (rest : list iface)
    (gm : gmap string bool) (chaincodeID : string) (spec : ChaincodeSpec)
    (chaincodeInput : string)
    (response : option ChaincodeMessage) (execErr : option error) :
  ev_Args e = I_msg (Some m) :: rest ->
  Type_ m = ChaincodeMessage_INVOKE_CHAINCODE ->
  isTransactionMark h (Uuid m) = true ->
  uuidMap h = Some gm -> default false (gm !! Uuid m) = false ->
  GetLedger env = None ->
  ChaincodeID h = Some chaincodeID ->
  Unmarshal_ChaincodeSpec env (Payload m) = ok spec ->
  LaunchChaincode env (NewChaincodeExecute spec (Uuid m) Transaction_CHAINCODE_EXECUTE)
    = ok chaincodeInput ->
  Execute env (spec_ChaincodeID_Name spec)
          (createTransactionMessage (Uuid m) chaincodeInput) = (response, execErr) ->
  enterBusyState_task env e state h =
  let acts :=
    [A_LaunchChaincode (NewChaincodeExecute spec (Uuid m) Transaction_CHAINCODE_EXECUTE);
     A_Execute (spec_ChaincodeID_Name spec)
               (createTransactionMessage (Uuid m) chaincodeInput)] in
  match response with
  | Some r => Ret tt (busyDone acts (busyReply m execErr (Payload r)) (Uuid m) gm h)
  | None => Panic (busyPanicked acts (Uuid m) gm h)
  end.
Proof.
  intros Hargs Hty Hmark Hgm Hfree Hledger Hcid Hspec Hlaunch Hexec.
  busy_enter h Hargs Hmark Hgm Hfree Hledger Hcid.
  rewrite !decide_False by (rewrite Hty; discriminate).
  rewrite decide_True by done. rewrite Hspec.
  unfold emit. cbv beta iota zeta delta [bind get ret deref modify].
  rewrite Hlaunch.
  change (tx_Uuid (NewChaincodeExecute spec (Uuid m) Transaction_CHAINCODE_EXECUTE))
    with (Uuid m).
  cbv beta iota zeta. rewrite Hexec.
  unfold deleteUUIDEntry, triggerNextState, guardTaken, busyDone, busyPanicked, panic.
  destruct response as [r|];
    cbv beta iota delta [bind get ret deref modify panic]; cbn;
    by rewrite <- app_assoc.
Qed.

(** Witness for X13: [Execute] fails without a response. *)
Lemma enterBusyState_invoke_chaincode_witness :
  enterBusyState_task
    (set_Execute (fun _ _ => (None, Some (errorString "timeout"))) (sampleEnv None []))
    (mkEvent "INVOKE_CHAINCODE" transactionstate busyxactstate None
       [I_msg (Some (mkMsg ChaincodeMessage_INVOKE_CHAINCODE "other" "tx1"))] false)
    busyxactstate (sampleHandler busyxactstate)
  = Panic (busyPanicked
             [A_LaunchChaincode (mkTx Transaction_CHAINCODE_EXECUTE "other" "" "tx1");
              A_Execute "other" (mkMsg ChaincodeMessage_TRANSACTION "" "tx1")]
             "tx1" ∅ (sampleHandler busyxactstate)).
Proof.
  exact (enterBusyState_invoke_chaincode
           (set_Execute (fun _ _ => (None, Some (errorString "timeout"))) (sampleEnv None []))
           (mkEvent "INVOKE_CHAINCODE" transactionstate busyxactstate None
              [I_msg (Some (mkMsg ChaincodeMessage_INVOKE_CHAINCODE "other" "tx1"))] false)
           busyxactstate (sampleHandler busyxactstate)
           (mkMsg ChaincodeMessage_INVOKE_CHAINCODE "other" "tx1") [] ∅ "cc"
           {| spec_ChaincodeID_Name := "other"; spec_Input := "" |} ""
           None (Some (errorString "timeout"))
           eq_refl eq_refl eq_refl eq_refl eq_refl eq_refl eq_refl eq_refl eq_refl eq_refl).
Defined.

(** X14. INVOKE_QUERY, once the invoked chaincode is launched: unlike the
    goroutine of [enterBusyState], [handleQueryChaincode] looks at the error
    of [Execute] before it reads the response, does not ask for a
    transaction mark and does not go through [nextState].  It sends the
    reply itself: ERROR with the error of [Execute], or RESPONSE with the
    payload of the response.  A failure of that send is ignored; the guard
    of the uuid is released and the FSM is not moved. *)
Theorem handleQueryChaincode_reply (env : Environment) (msg reply : ChaincodeMessage)
    (h : Handler) (gm : gmap string bool) (spec : ChaincodeSpec) (chaincodeInput : string)
    (response : option ChaincodeMessage) (execErr : option error) :
  uuidMap h = Some gm -> default false (gm !! Uuid msg) = false ->
  Unmarshal_ChaincodeSpec env (Payload msg) = ok spec ->
  LaunchChaincode env (NewChaincodeExecute spec (Uuid msg) Transaction_CHAINCODE_QUERY)
    = ok chaincodeInput ->
  Execute env (spec_ChaincodeID_Name spec)
          (createQueryMessage (Uuid msg) chaincodeInput) = (response, execErr) ->
  queryChaincodeReply msg response execErr = Some reply ->
  handleQueryChaincode_task env msg h
  = Ret tt (queryServed
              [A_LaunchChaincode
                 (NewChaincodeExecute spec (Uuid msg) Transaction_CHAINCODE_QUERY);
               A_Execute (spec_ChaincodeID_Name spec)
                         (createQueryMessage (Uuid msg) chaincodeInput)]
              reply (Uuid msg) gm h).
Proof.
  intros Hgm Hfree Hspec Hlaunch Hexec Hreply.
  unfold handleQueryChaincode_task. unfold bind at 1.
  rewrite (createUUIDEntry_free _ _ _ Hgm Hfree). cbv beta iota delta [negb].
  unfold with_defer, with_defer_ret. rewrite Hspec.
  unfold emit. cbv beta iota zeta delta [bind get ret deref modify].
  rewrite Hlaunch.
  change (tx_Uuid (NewChaincodeExecute spec (Uuid msg) Transaction_CHAINCODE_QUERY))
    with (Uuid msg).
  cbv beta iota zeta. rewrite Hexec.
  unfold queryChaincodeReply in Hreply.
  unfold deleteUUIDEntry, serialSend, emit, guardTaken, queryServed.
  destruct execErr as [err|]; [injection Hreply as <-|];
    [|destruct response as [r|]; [injection Hreply as <-|discriminate]];
    cbv beta iota delta [bind get ret deref modify]; cbn;
    rewrite <- !app_assoc; cbn; by destruct (Send env _).
Qed.

(** Witness for X14: [Execute] fails without a response and the worker
    is told so. *)
Lemma handleQueryChaincode_reply_witness :
  handleQueryChaincode_task
    (set_Execute (fun _ _ => (None, Some (errorString "timeout"))) (sampleEnv None []))
    (mkMsg ChaincodeMessage_INVOKE_QUERY "other" "q1") (sampleHandler readystate)
  = Ret tt (queryServed
              [A_LaunchChaincode (mkTx Transaction_CHAINCODE_QUERY "other" "" "q1");
               A_Execute "other" (mkMsg ChaincodeMessage_QUERY "" "q1")]
              (ERROR_msg "timeout" "q1") "q1" ∅ (sampleHandler readystate)).
Proof.
  exact (handleQueryChaincode_reply
           (set_Execute (fun _ _ => (None, Some (errorString "timeout"))) (sampleEnv None []))
           (mkMsg ChaincodeMessage_INVOKE_QUERY "other" "q1") (ERROR_msg "timeout" "q1")
           (sampleHandler readystate) ∅
           {| spec_ChaincodeID_Name := "other"; spec_Input := "" |} ""
           None (Some (errorString "timeout"))
           eq_refl eq_refl eq_refl eq_refl eq_refl eq_refl).
Defined.

Lemma HandleMessage_write env msg h :
  isWriteClass (Type_ msg) = true ->
  FSM_current h = initstate \/ FSM_current h = transactionstate ->
  HandleMessage env msg h = Ret None (writeAdmitted msg h).
Proof.
  intros Hw Hcur.
  assert (Htr : spec_transition (Type_ msg) (FSM_current h)
                = Some (busyState (FSM_current h))).
  { unfold isWriteClass in Hw. unfold busyState.
    destruct (Type_ msg); try discriminate Hw; by destruct Hcur as [-> | ->]. }
  assert (Hne : FSM_current h <> busyState (FSM_current h)).
  { unfold busyState. by destruct Hcur as [-> | ->]. }
  rewrite HandleMessage_fsm; [| |by rewrite Htr].
  2:{ unfold isWriteClass in Hw. by destruct (Type_ msg). }
  unfold bind at 1. rewrite (FSM_Event_unfold env (Type_ msg) _ h _ Htr).
  unfold writeAdmitted, writeEvent. unfold isWriteClass in Hw.
  destruct (Type_ msg); try discriminate Hw;
    destruct Hcur as [Hc | Hc]; rewrite Hc in *;
    unfold fsm.call; simpl fsm.find_callback;
    unfold closure, enterBusyState, afterPutState, afterDelState, afterInvokeChaincode,
      afterWrite, Args0;
    cbv beta iota delta [bind get ret deref go modify assert_ChaincodeMessage negb
                         ev_Args ev_canceled ev_Err];
    (case_decide; [done|]); reflexivity.
Qed.

(** X15. A write-class request (PUT_STATE, DEL_STATE, INVOKE_CHAINCODE)
    received in [init] or [transaction] is admitted whatever the mark of
    its uuid: the FSM enters the busy state of the current state
    ([busyinit], [busyxact]), the goroutine of [enterBusyState] is started
    with the event, and [HandleMessage] returns nil.  No frame is sent and
    the ledger is not reached by the pump itself. *)
Theorem HandleMessage_starts_write_action (env : Environment) (msg : ChaincodeMessage)
    (h : Handler) :
  isWriteClass (Type_ msg) = true ->
  FSM_current h = initstate \/ FSM_current h = transactionstate ->
  HandleMessage env msg h = Ret None (writeAdmitted msg h).
Proof. apply HandleMessage_write. Qed.

(** Witness for X15: a PUT_STATE for the query [q1] is admitted too. *)
Lemma HandleMessage_starts_write_action_witness :
  HandleMessage (sampleEnv None []) (mkMsg ChaincodeMessage_PUT_STATE "a" "q1")
                (sampleHandler transactionstate)
  = Ret None (set_spawned
                [T_enterBusyState
                   (mkEvent "PUT_STATE" transactionstate busyxactstate None
                      [I_msg (Some (mkMsg ChaincodeMessage_PUT_STATE "a" "q1"))] false)
                   busyxactstate]
                (sampleHandler busyxactstate)).
Proof.
  exact (HandleMessage_starts_write_action (sampleEnv None [])
           (mkMsg ChaincodeMessage_PUT_STATE "a" "q1") (sampleHandler transactionstate)
           eq_refl (or_intror eq_refl)).
Defined.

(** ** Closing a busy state *)

Lemma HandleMessage_reply_busy env msg h :
  closesBusy (Type_ msg) ->
  FSM_current h = busyinitstate \/ FSM_current h = busyxactstate ->
  HandleMessage env msg h = Ret None (set_FSM_current (parentState (FSM_current h)) h).
Proof.
  intros Hty Hbusy.
  assert (Htr : spec_transition (Type_ msg) (FSM_current h)
                = Some (parentState (FSM_current h))).
  { by destruct Hty as [-> | ->]; destruct Hbusy as [-> | ->]. }
  rewrite HandleMessage_fsm; [| by destruct Hty as [-> | ->] | by rewrite Htr].
  unfold bind at 1.
  rewrite (FSM_Event_move env (Type_ msg) _ h _ Htr);
    [| by destruct Hbusy as [-> | ->]
     | by destruct Hty as [-> | ->]
     | by destruct Hbusy as [-> | ->] ].
  destruct Hbusy as [Hb | Hb]; rewrite Hb.
  - unfold parentState. simpl decide. cbv iota.
    destruct Hty as [Hty | Hty]; rewrite Hty;
      unfold fsm.call; simpl fsm.find_callback;
      unfold closure, enterInitState, Args0, bind, get, ret, deref; simpl;
      rewrite Hty; by case_decide.
  - by destruct Hty as [-> | ->].
Qed.

Lemma pump_closes_busy env msg q h :
  closesBusy (Type_ msg) ->
  FSM_current h = busyinitstate \/ FSM_current h = busyxactstate ->
  nextState h = mkNext (Some msg) true :: q ->
  processStream_turn env fromNextState h =
  match Send env msg with
  | None => Ret None (busyClosed msg q h)
  | Some err =>
      Ret (Some (errorString
                   ("[" +:+ shortuuid (Uuid msg) +:+ "]serial sending received error "
                    +:+ "Error sending " +:+ Type_String (Type_ msg) +:+ ": "
                    +:+ error_Error err)))
          (deregistered (busyClosed msg q h))
  end.
Proof.
  intros Hty Hbusy Hq.
  rewrite (processStream_turn_nextState _ _ _ _ _ Hq).
  unfold processStream_handle. unfold bind at 1.
  rewrite HandleMessage_reply_busy; [|done|done].
  unfold serialSend, emit, busyClosed.
  cbv beta iota delta [bind get ret modify].
  destruct (Send env msg) as [err|]; [|reflexivity].
  unfold processStream_return. unfold bind. rewrite deregister_spec.
  reflexivity.
Qed.

(** X16. A turn of the pump on a RESPONSE or ERROR frame queued by a busy
    goroutine with the forward flag, the FSM being in a busy state: the
    frame leaves [nextState], the FSM goes back to the parent state
    ([busyinit] to [init], [busyxact] to [transaction]) and the frame is
    sent to the worker, in that order.  When the send succeeds the loop
    goes on; when it fails the pump returns the error
    "[<short uuid>]serial sending received error ..." and its deferred
    [deregister] runs. *)
Theorem processStream_turn_closes_busy (env : Environment) (msg : ChaincodeMessage)
    (q : list nextStateInfo) (h : Handler) :
  closesBusy (Type_ msg) ->
  FSM_current h = busyinitstate \/ FSM_current h = busyxactstate ->
  nextState h = mkNext (Some msg) true :: q ->
  processStream_turn env fromNextState h =
  match Send env msg with
  | None => Ret None (busyClosed msg q h)
  | Some err =>
      Ret (Some (errorString
                   ("[" +:+ shortuuid (Uuid msg) +:+ "]serial sending received error "
                    +:+ "Error sending " +:+ Type_String (Type_ msg) +:+ ": "
                    +:+ error_Error err)))
          (deregistered (busyClosed msg q h))
  end.
Proof. apply pump_closes_busy. Qed.

(** Witness for X16. *)
Lemma processStream_turn_closes_busy_witness :
  processStream_turn (sampleEnv None []) fromNextState
    (busyDone [] (RESPONSE_msg "" "tx1") "tx1" ∅ (sampleHandler busyxactstate))
  = Ret None (busyClosed (RESPONSE_msg "" "tx1") []
                (busyDone [] (RESPONSE_msg "" "tx1") "tx1" ∅ (sampleHandler busyxactstate))).
Proof.
  exact (processStream_turn_closes_busy (sampleEnv None []) (RESPONSE_msg "" "tx1") []
           (busyDone [] (RESPONSE_msg "" "tx1") "tx1" ∅ (sampleHandler busyxactstate))
           (or_introl eq_refl) (or_intror eq_refl) eq_refl).
Defined.

(** ** A write, from the request to the reply *)

Lemma putOutcome_closesBusy env m info h chaincodeID :
  closesBusy (Type_ (putOutcome env m info h chaincodeID).2).
Proof.
  unfold putOutcome, closesBusy, busyReply.
  destruct (cryptoResult _ _ _ _ _ _) as [pVal|err]; cbn; [|by right].
  destruct (SetState env _ _ _); cbn; auto.
Qed.

Lemma parentState_busyState current :
  current = initstate \/ current = transactionstate ->
  parentState (busyState current) = current.
Proof. by intros [-> | ->]. Qed.

(** X17. A PUT_STATE round trip.  From [init] or [transaction], with the
    uuid marked as a transaction, its guard free and nothing queued: the
    pump admits the request, the goroutine it started writes the encrypted
    value and queues the reply, and the next turn of the pump on
    [nextState] forwards the reply to the worker.  At the end the FSM is
    back in the state it started from, the queue is empty again, the guard
    is free, and what happened in between is the ledger call (none when the
    encryption failed) followed by exactly one frame sent, the reply. *)
Theorem put_state_round_trip (env : Environment) (msg : ChaincodeMessage) (h : Handler)
    (gm : gmap string bool) (chaincodeID : string) (info : PutStateInfo) :
  Type_ msg = ChaincodeMessage_PUT_STATE ->
  FSM_current h = initstate \/ FSM_current h = transactionstate ->
  isTransactionMark h (Uuid msg) = true ->
  uuidMap h = Some gm -> default false (gm !! Uuid msg) = false ->
  nextState h = [] ->
  GetLedger env = None ->
  ChaincodeID h = Some chaincodeID ->
  Unmarshal_PutStateInfo env (Payload msg) = ok info ->
  Send env (putOutcome env msg info h chaincodeID).2 = None ->
  exists task h1 h2 h3,
    HandleMessage env msg h = Ret None h1 /\
    spawned h1 = spawned h ++ [task] /\
    run_task env task h1 = Ret tt h2 /\
    processStream_turn env fromNextState h2 = Ret None h3 /\
    FSM_current h3 = FSM_current h /\
    nextState h3 = [] /\
    guardFree h3 (Uuid msg) /\
    trace h3 = trace h ++ (putOutcome env msg info h chaincodeID).1
                       ++ [A_Send (putOutcome env msg info h chaincodeID).2] /\
    txCtxs h3 = txCtxs h /\ isTransaction h3 = isTransaction h.
Proof.
  intros Hty Hcur Hmark Hgm Hfree Hq Hledger Hcid Hinfo Hsend.
  set (out := putOutcome env msg info h chaincodeID) in *.
  eexists _, (writeAdmitted msg h), _, _.
  split; [apply HandleMessage_write; [by rewrite Hty|done]|].
  split; [reflexivity|].
  split.
  { cbn [run_task].
    apply (enterBusyState_task_put env _ _ (writeAdmitted msg h) msg []
             gm chaincodeID info); done. }
  change (putOutcome env msg info (writeAdmitted msg h) chaincodeID) with out.
  split.
  { rewrite (pump_closes_busy env out.2 []).
    - by rewrite Hsend.
    - apply putOutcome_closesBusy.
    - cbn. unfold busyState. destruct Hcur as [-> | ->]; auto.
    - cbn. by rewrite Hq. }
  split; [cbn; by apply parentState_busyState|].
  split; [done|].
  split; [eexists; split; [reflexivity|by rewrite lookup_delete_eq]|].
  split; [cbn; by rewrite <- app_assoc|].
  done.
Qed.

(** Witness for X17. *)
Lemma put_state_round_trip_witness :
  exists task h1 h2 h3,
    HandleMessage (sampleEnv (Some sampleSecHelper) [])
                  (mkMsg ChaincodeMessage_PUT_STATE "a" "tx1")
                  (sampleHandler transactionstate) = Ret None h1 /\
    spawned h1 = [task] /\
    run_task (sampleEnv (Some sampleSecHelper) []) task h1 = Ret tt h2 /\
    processStream_turn (sampleEnv (Some sampleSecHelper) []) fromNextState h2
      = Ret None h3 /\
    FSM_current h3 = transactionstate /\
    nextState h3 = [] /\
    guardFree h3 "tx1" /\
    trace h3 = [A_SetState "cc" "a" "CHAINCODE_NEW/CHAINCODE_EXECUTE:a";
                A_Send (RESPONSE_msg "" "tx1")] /\
    txCtxs h3 = txCtxs (sampleHandler transactionstate) /\
    isTransaction h3 = isTransaction (sampleHandler transactionstate).
Proof.
  exact (put_state_round_trip (sampleEnv (Some sampleSecHelper) [])
           (mkMsg ChaincodeMessage_PUT_STATE "a" "tx1") (sampleHandler transactionstate)
           ∅ "cc" {| psi_Key := "a"; psi_Value := "a" |}
           eq_refl (or_intror eq_refl) eq_refl eq_refl eq_refl eq_refl eq_refl eq_refl
           eq_refl eq_refl).
Defined.

(** ** The registration handshake *)

Lemma HandleMessage_REGISTER env msg h :
  Type_ msg = ChaincodeMessage_REGISTER ->
  FSM_current h = createdstate ->
  HandleMessage env msg h =
  match Unmarshal_ChaincodeID env (Payload msg) with
  | fail err => Ret (option_map (fun e => CanceledError (Some e))
                                (registerError env (Payload msg))) h
  | ok chaincodeID =>
      match registerHandler env chaincodeID with
      | Some err => Ret (Some (CanceledError (Some err)))
                        (registerTried chaincodeID false false h)
      | None =>
          match Send env REGISTERED_msg with
          | Some err => Ret (option_map (fun e => CanceledError (Some e))
                                        (registerError env (Payload msg)))
                            (registerTried chaincodeID true false h)
          | None => Ret None (registerTried chaincodeID true true h)
          end
      end
  end.
Proof.
  intros Hty Hcur.
  assert (Htr : spec_transition (Type_ msg) (FSM_current h) = Some establishedstate)
    by (by rewrite Hty, Hcur).
  rewrite HandleMessage_fsm; [|by rewrite Hty|by rewrite Htr].
  unfold bind at 1. rewrite (FSM_Event_unfold env (Type_ msg) _ h _ Htr).
  rewrite Hty, Hcur. unfold fsm.call. simpl fsm.find_callback.
  unfold closure, beforeRegisterEvent, enterEstablishedState, Args0, registerError,
    registerTried, startupNotified.
  cbv beta iota delta [bind get ret deref assert_ChaincodeMessage negb ev_Args].
  destruct (Unmarshal_ChaincodeID env (Payload msg)) as [chaincodeID|err]; [|done].
  unfold emit, serialSend, notifyDuringStartup, emit.
  cbv beta iota zeta delta [bind get ret modify].
  destruct (registerHandler env chaincodeID) as [err|].
  - cbn. by destruct (readyNotify h).
  - fold REGISTERED_msg. destruct (Send env REGISTERED_msg) as [err|].
    + cbn. by destruct (readyNotify h).
    + cbn. case_decide; [done|]. cbn. by destruct (readyNotify h).
Qed.

(** X18. The registration handshake.  A REGISTER frame received in
    [created] whose payload is the chaincode identifier [chaincodeID], when
    the support plane accepts the handler and REGISTERED can be sent: the
    identifier is recorded, the handler is registered, REGISTERED is sent
    after the call of [registerHandler], the FSM enters [established], the
    starter of the chaincode, if one waits, is told [true] once, and
    [HandleMessage] returns nil. *)
Theorem register_handshake (env : Environment) (msg : ChaincodeMessage) (h : Handler)
    (chaincodeID : string) :
  Type_ msg = ChaincodeMessage_REGISTER ->
  FSM_current h = createdstate ->
  Unmarshal_ChaincodeID env (Payload msg) = ok chaincodeID ->
  registerError env (Payload msg) = None ->
  exists h',
    HandleMessage env msg h = Ret None h' /\
    FSM_current h' = establishedstate /\
    ChaincodeID h' = Some chaincodeID /\
    registered h' = true /\
    trace h' = trace h ++ [A_registerHandler chaincodeID; A_Send REGISTERED_msg] /\
    readyNotify h' = (fun ch => ch ++ [true]) <$> readyNotify h.
Proof.
  intros Hty Hcur Hcid Hok.
  rewrite (HandleMessage_REGISTER env msg h Hty Hcur), Hcid.
  unfold registerError in Hok. rewrite Hcid in Hok.
  destruct (registerHandler env chaincodeID); [done|].
  destruct (Send env REGISTERED_msg); [done|].
  eexists. split; [reflexivity|].
  unfold registerTried, startupNotified. cbn.
  destruct (readyNotify h) eqn:E; cbn; rewrite ?E, <- ?app_assoc; done.
Qed.

(** Witness for X18. *)
Lemma register_handshake_witness :
  exists h',
    HandleMessage (sampleEnv None []) (mkMsg ChaincodeMessage_REGISTER "cc" "")
                  (set_readyNotify (Some []) newChaincodeSupportHandler) = Ret None h' /\
    FSM_current h' = establishedstate /\
    ChaincodeID h' = Some "cc" /\
    registered h' = true /\
    trace h' = [A_registerHandler "cc"; A_Send REGISTERED_msg] /\
    readyNotify h' = Some [true].
Proof.
  exact (register_handshake (sampleEnv None []) (mkMsg ChaincodeMessage_REGISTER "cc" "")
           (set_readyNotify (Some []) newChaincodeSupportHandler) "cc"
           eq_refl eq_refl eq_refl eq_refl).
Defined.

(** X19. A REGISTER frame that fails (the payload is not a chaincode
    identifier, the support plane refuses the handler, or REGISTERED cannot
    be sent) leaves the FSM in [created] and [HandleMessage] returns the
    cause wrapped in a canceled-event error.  The starter of the chaincode
    is told [false] unless the payload could not be read: in that case it
    is not told anything and nothing else changes.  When the send of
    REGISTERED fails the handler stays registered with the support
    plane. *)
Theorem register_refused (env : Environment) (msg : ChaincodeMessage) (h : Handler)
    (cause : error) :
  Type_ msg = ChaincodeMessage_REGISTER ->
  FSM_current h = createdstate ->
  registerError env (Payload msg) = Some cause ->
  exists h',
    HandleMessage env msg h = Ret (Some (CanceledError (Some cause))) h' /\
    FSM_current h' = createdstate /\
    match Unmarshal_ChaincodeID env (Payload msg) with
    | fail _ => h' = h
    | ok chaincodeID =>
        readyNotify h' = (fun ch => ch ++ [false]) <$> readyNotify h /\
        ChaincodeID h' = Some chaincodeID /\
        match registerHandler env chaincodeID with
        | Some _ => registered h' = registered h /\
                    trace h' = trace h ++ [A_registerHandler chaincodeID]
        | None => registered h' = true /\
                  trace h' = trace h ++ [A_registerHandler chaincodeID;
                                         A_Send REGISTERED_msg]
        end
    end.
Proof.
  intros Hty Hcur Hcause.
  rewrite (HandleMessage_REGISTER env msg h Hty Hcur). rewrite Hcause.
  unfold registerError in Hcause.
  destruct (Unmarshal_ChaincodeID env (Payload msg)) as [chaincodeID|err].
  - destruct (registerHandler env chaincodeID) as [err|].
    + injection Hcause as ->. eexists. split; [reflexivity|].
      unfold registerTried, startupNotified. cbn.
      destruct (readyNotify h) eqn:E; cbn; rewrite ?E; done.
    + destruct (Send env REGISTERED_msg) as [err|]; [|done].
      injection Hcause as <-.
      eexists. split; [reflexivity|].
      unfold registerTried, startupNotified. cbn.
      destruct (readyNotify h) eqn:E; cbn; rewrite ?E, <- ?app_assoc; done.
  - eexists. split; [reflexivity|]. done.
Qed.

(** Witness for X19: the payload of REGISTER cannot be read. *)
Lemma register_refused_witness :
  exists h',
    HandleMessage (set_Unmarshal_ChaincodeID (fun _ => fail (errorString "bad wire type"))
                     (sampleEnv None []))
                  (mkMsg ChaincodeMessage_REGISTER "cc" "")
                  (set_readyNotify (Some []) newChaincodeSupportHandler)
    = Ret (Some (CanceledError (Some (errorString
             "Error in received REGISTER, could NOT unmarshal registration info: bad wire type"))))
          h' /\
    FSM_current h' = createdstate /\
    h' = set_readyNotify (Some []) newChaincodeSupportHandler.
Proof.
  exact (register_refused
           (set_Unmarshal_ChaincodeID (fun _ => fail (errorString "bad wire type"))
              (sampleEnv None []))
           (mkMsg ChaincodeMessage_REGISTER "cc" "")
           (set_readyNotify (Some []) newChaincodeSupportHandler) _
           eq_refl eq_refl eq_refl).
Defined.

(** ** Starting an execution *)

(** X20. [sendExecuteMessage] on a uuid with no context installs one and
    marks the uuid ([false] for QUERY, [true] otherwise).  A TRANSACTION
    frame is then queued on [nextState] with the forward flag and nothing is
    sent by the caller; any other frame is sent at once.  When that send
    fails the context is removed again but the mark stays, and the error is
    "[<short uuid>]SendMessage error sending (...)".  On a uuid that has a
    context the call fails with "Uuid:<uuid> exists" and changes nothing. *)
Theorem sendExecuteMessage_dispatch (env : Environment) (msg : ChaincodeMessage)
    (tx : option Transaction) (h : Handler)
    (tm : gmap string transactionContext) (im : gmap string bool) :
  txCtxs h = Some tm -> isTransaction h = Some im ->
  (is_Some (tm !! Uuid msg) ->
     sendExecuteMessage env msg tx h
     = Ret (fail (errorString ("Uuid:" +:+ Uuid msg +:+ " exists"))) h) /\
  (tm !! Uuid msg = None ->
     let h1 := executeMarked msg tx tm im h in
     sendExecuteMessage env msg tx h =
     if decide (Type_ msg = ChaincodeMessage_TRANSACTION) then
       Ret (ok tt) (set_nextState (nextState h ++ [mkNext (Some msg) true]) h1)
     else
       match Send env msg with
       | None => Ret (ok tt) (set_trace (trace h ++ [A_Send msg]) h1)
       | Some err =>
           Ret (fail (errorString
                        ("[" +:+ shortuuid (Uuid msg) +:+ "]SendMessage error sending ("
                         +:+ ("Error sending " +:+ Type_String (Type_ msg) +:+ ": "
                              +:+ error_Error err) +:+ ")")))
               (set_trace (trace h ++ [A_Send msg])
                  (set_isTransaction (isTransaction h1) h))
       end).
Proof.
  intros Htm Him. unfold sendExecuteMessage, createTxContext, new_transactionContext.
  split.
  - intros [c Hc]. cbv beta iota delta [bind get ret]. by rewrite Htm, Hc.
  - intros Hnone. cbv beta iota zeta delta [bind get ret modify]. rewrite Htm, Hnone.
    unfold markIsTransaction. cbv beta iota delta [bind get ret modify].
    cbn [isTransaction set_txCtxs]. rewrite Him.
    case_decide.
    + reflexivity.
    + unfold serialSend, emit, deleteTxContext, executeMarked.
      cbv beta iota delta [bind get ret modify].
      destruct (Send env msg) as [err|]; [|reflexivity].
      cbn. rewrite delete_insert_eq, delete_id by done.
      f_equal. destruct h. cbn in *. by subst.
Qed.

(** Witness for X20: a query that cannot be sent leaves its mark behind. *)
Lemma sendExecuteMessage_dispatch_witness :
  sendExecuteMessage (set_Send (fun _ => Some (errorString "EOF")) (sampleEnv None []))
    (mkMsg ChaincodeMessage_QUERY "get" "q2") (Some queryTx) (sampleHandler readystate)
  = Ret (fail (errorString "[q2]SendMessage error sending (Error sending QUERY: EOF)"))
        (set_trace [A_Send (mkMsg ChaincodeMessage_QUERY "get" "q2")]
           (set_isTransaction (Some (<[ "q2" := false ]> {[ "tx1" := true; "q1" := false ]}))
              (sampleHandler readystate))).
Proof.
  pose (tm := ({[ "tx1" := mkTxCtx (Some executeTx) [] ∅;
                  "q1" := mkTxCtx (Some queryTx) [] ∅ ]}
               : gmap string transactionContext)).
  pose (im := ({[ "tx1" := true; "q1" := false ]} : gmap string bool)).
  exact (proj2 (sendExecuteMessage_dispatch
                  (set_Send (fun _ => Some (errorString "EOF")) (sampleEnv None []))
                  (mkMsg ChaincodeMessage_QUERY "get" "q2") (Some queryTx)
                  (sampleHandler readystate) tm im eq_refl eq_refl)
               ltac:(vm_compute; reflexivity)).
Defined.

(** ** The pump does not panic *)

Lemma noPanic_ret {A} (Q : A -> Prop) a : Q a -> noPanic Q (ret a).
Proof. intros Hq h. exact Hq. Qed.

Lemma noPanic_bind {A B} (P : A -> Prop) (Q : B -> Prop) (m : M A) (k : A -> M B) :
  noPanic P m -> (forall a, P a -> noPanic Q (k a)) -> noPanic Q (bind m k).
Proof.
  intros Hm Hk h. unfold bind. specialize (Hm h).
  destruct (m h) as [a h1|h1|h1]; [|done..]. by apply Hk.
Qed.

Lemma noPanic_weaken {A} (P Q : A -> Prop) (m : M A) :
  noPanic P m -> (forall a, P a -> Q a) -> noPanic Q m.
Proof.
  intros Hm Hpq h. specialize (Hm h). destruct (m h); [by apply Hpq|done..].
Qed.

Lemma noPanic_any {A} (m : M A) :
  (forall h h', m h <> Panic h') -> noPanic any m.
Proof.
  intros Hm h. specialize (Hm h). destruct (m h) as [a h1|h1|h1]; [done| |done].
  by apply (Hm h1).
Qed.

Lemma noPanic_get Q : (forall h, Q h) -> noPanic Q get.
Proof. intros Hq h. exact (Hq h). Qed.

Lemma noPanic_modify f : noPanic any (modify f).
Proof. intros h. exact I. Qed.

Lemma noPanic_block {A} (Q : A -> Prop) : noPanic Q block.
Proof. intros h. exact I. Qed.

Lemma noPanic_notify msg : noPanic any (notify msg).
Proof. apply noPanic_any. intros h h'. apply notify_no_panic. Qed.

Lemma noPanic_deleteIsTransaction uuid : noPanic any (deleteIsTransaction uuid).
Proof. intros h. by rewrite deleteIsTransaction_spec. Qed.

Lemma noPanic_serialSend env msg : noPanic any (serialSend env msg).
Proof. intros h. by destruct (serialSend_spec env msg h) as (r & -> & _). Qed.

Lemma noPanic_notifyDuringStartup val : noPanic any (notifyDuringStartup val).
Proof.
  intros h. unfold notifyDuringStartup, bind, get, modify, ret.
  by destruct (readyNotify h).
Qed.

Lemma noPanic_markIsTransaction uuid b : noPanic any (markIsTransaction uuid b).
Proof.
  intros h. unfold markIsTransaction, bind, get, modify, ret.
  by destruct (isTransaction h).
Qed.

Lemma noPanic_deregister : noPanic any deregister.
Proof. intros h. by rewrite deregister_spec. Qed.

Lemma noPanic_encrypt env uuid payload : noPanic any (encrypt env uuid payload).
Proof. intros h. unfold encrypt. by rewrite encryptOrDecrypt_pure. Qed.

Lemma carries_Cancel msg err e : carries msg e -> carries msg (fsm.Cancel err e).
Proof. by intros [rest Hrest]; exists rest. Qed.

Lemma noPanic_bind_ret {A B} (Q : B -> Prop) (a : A) (k : A -> M B) :
  noPanic Q (k a) -> noPanic Q (bind (ret a) k).
Proof. intros Hk h. exact (Hk h). Qed.

Lemma noPanic_go t : noPanic any (go t).
Proof. intros h. exact I. Qed.

Lemma noPanic_emit a : noPanic any (emit a).
Proof. intros h. exact I. Qed.

Create HintDb nopanic.

#[local] Hint Resolve noPanic_go noPanic_emit : nopanic.

#[local] Hint Resolve noPanic_notify noPanic_deleteIsTransaction noPanic_serialSend
  noPanic_notifyDuringStartup noPanic_markIsTransaction noPanic_deregister
  noPanic_encrypt noPanic_modify carries_Cancel : nopanic.

(** One step through a bind whose first action is known not to panic. *)
Ltac nopanic_step :=
  lazymatch goal with
  | |- noPanic _ (ret _) => apply noPanic_ret
  | |- noPanic _ (bind (ret _) _) => apply noPanic_bind_ret
  | |- noPanic _ (bind _ _) =>
      eapply (noPanic_bind any); [by auto with nopanic|intros ? _]
  | |- noPanic _ (if ?b then _ else _) => destruct b
  | |- noPanic _ (match ?x with Some _ => _ | None => _ end) => destruct x
  | |- noPanic _ (match ?x with ok _ => _ | fail _ => _ end) => destruct x
  end.

(** Entering a callback with an event that carries a message. *)
Ltac nopanic_enter :=
  intros [rest Hargs]; intros;
  unfold beforeRegisterEvent, beforeCompletedEvent, beforeInitState, afterRead,
    afterWrite, enterBusyState, enterEstablishedState, enterInitState,
    enterReadyState, Args0;
  rewrite ?Hargs;
  repeat (cbv beta iota zeta delta [assert_ChaincodeMessage negb deref];
          nopanic_step);
  try exact I; try (by exists rest); try (apply carries_Cancel; by exists rest).

Lemma noPanic_beforeRegisterEvent env msg e state :
  carries msg e -> noPanic (carries msg) (beforeRegisterEvent env e state).
Proof. nopanic_enter. Qed.

Lemma noPanic_beforeCompletedEvent msg e state :
  carries msg e -> noPanic (carries msg) (beforeCompletedEvent e state).
Proof. nopanic_enter. Qed.

Lemma noPanic_beforeInitState msg e state :
  carries msg e -> noPanic (carries msg) (beforeInitState e state).
Proof. nopanic_enter. Qed.

Lemma noPanic_afterRead task msg e state :
  carries msg e -> noPanic (carries msg) (afterRead task e state).
Proof. nopanic_enter. Qed.

Lemma noPanic_afterWrite msg e state :
  carries msg e -> noPanic (carries msg) (afterWrite e state).
Proof. nopanic_enter. Qed.

Lemma noPanic_enterBusyState msg e state :
  carries msg e -> noPanic (carries msg) (enterBusyState e state).
Proof. nopanic_enter. Qed.

Lemma noPanic_enterEstablishedState msg e state :
  carries msg e -> noPanic (carries msg) (enterEstablishedState e state).
Proof. nopanic_enter. Qed.

Lemma noPanic_enterInitState env msg e state :
  carries msg e -> noPanic (carries msg) (enterInitState env e state).
Proof. nopanic_enter. Qed.

Lemma noPanic_enterReadyState msg e state :
  carries msg e -> noPanic (carries msg) (enterReadyState e state).
Proof. nopanic_enter. Qed.

Lemma noPanic_with_defer_ret {A} (Q : A -> Prop) (body : M A) deferred :
  noPanic Q body -> (forall a, noPanic any (deferred (Some a))) ->
  noPanic Q (with_defer_ret body deferred).
Proof.
  intros Hb Hd h. unfold with_defer_ret. specialize (Hb h).
  destruct (body h) as [a h1|h1|h1]; [|done..].
  specialize (Hd a h1). by destruct (deferred (Some a) h1).
Qed.

Lemma noPanic_enterEndState msg e state :
  carries msg e -> noPanic (carries msg) (enterEndState e state).
Proof.
  intros [rest Hargs]. unfold enterEndState. apply noPanic_with_defer_ret.
  - unfold Args0. rewrite Hargs.
    repeat (cbv beta iota zeta delta [assert_ChaincodeMessage negb deref];
            nopanic_step).
    apply carries_Cancel. by exists rest.
  - intros a. repeat nopanic_step. exact I.
Qed.

Lemma noPanic_call msg key cbs e :
  Forall (fun kc => forall e', carries msg e' -> noPanic (carries msg) (kc.2 e')) cbs ->
  carries msg e ->
  noPanic (carries msg) (fsm.call key cbs e).
Proof.
  intros Hall He. unfold fsm.call.
  induction Hall as [|[k fn] cbs Hfn _ IH]; cbn [fsm.find_callback].
  - by apply noPanic_ret.
  - case_decide; [by apply Hfn|done].
Qed.

Lemma noPanic_closure msg f e :
  (forall state, noPanic (carries msg) (f e state)) ->
  noPanic (carries msg) (closure f e).
Proof.
  intros Hf. unfold closure. eapply (noPanic_bind any); [by apply noPanic_get|].
  intros h _. apply Hf.
Qed.

Lemma noPanic_Callbacks env msg :
  Forall (fun kc => forall e', carries msg e' -> noPanic (carries msg) (kc.2 e'))
         (Callbacks env).
Proof.
  unfold Callbacks.
  repeat (apply Forall_cons; split;
          [intros e' He'; cbn [snd]; apply noPanic_closure; intros state;
           first [ by apply noPanic_beforeRegisterEvent
                 | by apply noPanic_beforeCompletedEvent
                 | by apply noPanic_beforeInitState
                 | by apply noPanic_afterRead
                 | by apply noPanic_afterWrite
                 | by apply noPanic_enterBusyState
                 | by apply noPanic_enterEstablishedState
                 | by apply noPanic_enterInitState
                 | by apply noPanic_enterReadyState
                 | by apply noPanic_enterEndState ] |]).
  apply Forall_nil_2.
Qed.

Lemma noPanic_FSM_Event env msg event :
  noPanic any (fsm.FSM_Event Events (Callbacks env) event [I_msg (Some msg)]).
Proof.
  pose proof (noPanic_Callbacks env msg) as Hcbs.
  unfold fsm.FSM_Event.
  eapply (noPanic_bind any); [by apply noPanic_get|]. intros h _.
  cbv zeta.
  destruct (fsm.NewFSM_transitions Events !! (event, FSM_current h)) as [dst|].
  2:{ destruct (existsb _ _); by apply noPanic_ret. }
  eapply noPanic_bind; [apply noPanic_call; [done|by exists []]|].
  intros e1 He1. cbv beta.
  destruct (ev_canceled e1); [by apply noPanic_ret|].
  case_decide.
  { eapply noPanic_bind; [by apply noPanic_call|]. intros e2 _. by apply noPanic_ret. }
  eapply noPanic_bind; [by apply noPanic_call|]. intros e2 He2. cbv beta.
  destruct (ev_canceled e2); [by apply noPanic_ret|].
  eapply (noPanic_bind any); [apply noPanic_modify|]. intros _ _.
  eapply noPanic_bind; [by apply noPanic_call|]. intros e3 He3.
  eapply noPanic_bind; [by apply noPanic_call|]. intros e4 _.
  by apply noPanic_ret.
Qed.

Lemma noPanic_HandleMessage env msg : noPanic any (HandleMessage env msg).
Proof.
  unfold HandleMessage.
  repeat case_decide.
  - repeat nopanic_step. exact I.
  - repeat nopanic_step. exact I.
  - repeat nopanic_step. exact I.
  - eapply (noPanic_bind any).
    { intros h. by rewrite Cannot_spec. }
    intros cannot _. destruct cannot.
    + eapply (noPanic_bind any).
      { intros h. by rewrite getIsTransaction_spec. }
      intros isTx _. destruct (isWriteClass (Type_ msg) && negb isTx).
      * repeat nopanic_step. exact I.
      * eapply (noPanic_bind any); [by apply noPanic_get|]. intros h _.
        by apply noPanic_ret.
    + eapply (noPanic_bind any); [apply noPanic_FSM_Event|].
      intros r _. by apply noPanic_ret.
Qed.

(** X21. [HandleMessage] does not panic on a frame, whatever the state of
    the handler and the answers of the environment: every callback of the
    FSM finds the message as the first argument of the event, so none of
    the nil dereferences of the callbacks is reached from here.  It
    returns, or blocks in [notify] on a channel that holds a message. *)
Theorem HandleMessage_never_panics (env : Environment) (msg : ChaincodeMessage)
    (h h' : Handler) :
  HandleMessage env msg h <> Panic h'.
Proof.
  intros Hp. pose proof (noPanic_HandleMessage env msg h) as Hn.
  by rewrite Hp in Hn.
Qed.

Lemma processStream_return_spec err h :
  processStream_return err h = Ret (Some err) (deregistered h).
Proof. unfold processStream_return, bind. by rewrite deregister_spec. Qed.

Lemma processStream_handle_cases env msg forward h :
  match processStream_handle env msg forward h with
  | Ret None _ => True
  | Ret (Some _) h' => exists h1, h' = deregistered h1
  | Panic _ => False
  | Block _ => True
  end.
Proof.
  unfold processStream_handle, bind.
  pose proof (noPanic_HandleMessage env msg h) as Hn.
  destruct (HandleMessage env msg h) as [[e|] h1|h1|h1]; [| |done..].
  - rewrite processStream_return_spec. eauto.
  - destruct forward; [|done].
    destruct (serialSend_spec env msg h1) as (r & -> & _).
    destruct r as [e|]; [|done]. rewrite processStream_return_spec. eauto.
Qed.

Lemma processStream_turn_cases env sel h :
  match processStream_turn env sel h with
  | Ret None _ => True
  | Ret (Some _) h' => exists h1, h' = deregistered h1
  | Panic _ => False
  | Block _ => True
  end.
Proof.
  unfold processStream_turn.
  destruct sel as [[m|] [e|]|]; try (rewrite processStream_return_spec; eauto).
  - apply processStream_handle_cases.
  - unfold bind at 1, get at 1. destruct (nextState h) as [|[[m|] send] q]; [done|..].
    + unfold bind at 1, modify at 1. cbn [ns_msg sendToCC].
      apply processStream_handle_cases.
    + unfold bind at 1, modify at 1. cbn [ns_msg sendToCC].
      rewrite processStream_return_spec. eauto.
Qed.

Lemma processStream_cases env sels h :
  match processStream env sels h with
  | Ret None _ => True
  | Ret (Some _) h' =>
      registered h' = true -> last (trace h') = Some A_deregisterHandler
  | Panic _ => False
  | Block _ => True
  end.
Proof.
  revert h. induction sels as [|sel sels IH]; intros h; [done|].
  cbn [processStream]. unfold bind.
  pose proof (processStream_turn_cases env sel h) as Hturn.
  destruct (processStream_turn env sel h) as [[e|] h1|h1|h1]; [| |done..].
  - destruct Hturn as [h0 ->]. unfold deregistered.
    destruct (registered h0) eqn:Hr; cbn.
    + intros _. by rewrite last_snoc.
    + by rewrite Hr.
  - apply IH.
Qed.

(** X22. [processStream] does not panic, whatever it receives, and when
    it returns an error it does so through its deferred [deregister]: if
    the handler is registered at that point, the last call recorded is
    [deregisterHandler]. *)
Theorem processStream_ends_deregistered (env : Environment)
    (sels : list selected) (h : Handler) :
  (forall h', processStream env sels h <> Panic h') /\
  (forall err h', processStream env sels h = Ret (Some err) h' ->
     registered h' = true -> last (trace h') = Some A_deregisterHandler).
Proof.
  pose proof (processStream_cases env sels h) as Hc. split.
  - intros h' Hp. by rewrite Hp in Hc.
  - intros err h' Hr. by rewrite Hr in Hc.
Qed.

(** Witness for X22: the stream delivers a nil message after a request. *)
Lemma processStream_ends_deregistered_witness :
  last (trace (final (processStream (sampleEnv None [])
                        [msgAvail (Some (mkMsg ChaincodeMessage_GET_STATE "a" "tx1")) None;
                         msgAvail None None]
                        (sampleHandler transactionstate))))
  = Some A_deregisterHandler.
Proof.
  refine (proj2 (processStream_ends_deregistered (sampleEnv None [])
                   [msgAvail (Some (mkMsg ChaincodeMessage_GET_STATE "a" "tx1")) None;
                    msgAvail None None]
                   (sampleHandler transactionstate))
                (errorString "Received nil message, ending chaincode support stream")
                _ _ _).
  - vm_compute. reflexivity.
  - vm_compute. reflexivity.
Defined.

(** ** Starting a chaincode: [initOrReady] *)

Lemma stripDeployTx_spec codec h d :
  deployTXSecContext h = Some d ->
  stripDeployTx codec h =
  match strippedDeployTx codec d with
  | ok d' => Ret None (set_deployTXSecContext (Some d') h)
  | fail e =>
      Ret (Some e)
          (set_deployTXSecContext
             (Some (mkTx (tx_Type d) (tx_ChaincodeID d) "" (tx_Uuid d))) h)
  end.
Proof.
  intros Hd. unfold stripDeployTx, strippedDeployTx.
  cbv beta iota zeta delta [bind get ret deref modify]. rewrite Hd.
  cbn [tx_Type tx_ChaincodeID tx_Payload tx_Uuid].
  destruct (Unmarshal_pb_ChaincodeID codec (tx_ChaincodeID d)) as [cID|err]; [|done].
  by destruct (Marshal_pb_ChaincodeID codec _).
Qed.

Lemma initializeSecContext_spec codec tx depTx h :
  exists h',
    initializeSecContext codec tx depTx h
    = Ret (match deployContext codec tx depTx with ok _ => None | fail e => Some e end) h' /\
    (forall d, deployContext codec tx depTx = ok d ->
               h' = set_deployTXSecContext (Some d) h) /\
    (exists v, h' = set_deployTXSecContext v h).
Proof.
  unfold initializeSecContext, deployContext.
  destruct depTx as [d|]; [|destruct (cloneTx codec tx) as [d|err]].
  - unfold bind, modify. rewrite (stripDeployTx_spec codec _ d) by done.
    destruct (strippedDeployTx codec d) as [d'|e]; eexists;
      (split; [reflexivity|]); split; try (by intros ? [= <-]); try done;
      by eexists.
  - unfold bind, modify. rewrite (stripDeployTx_spec codec _ d) by done.
    destruct (strippedDeployTx codec d) as [d'|e]; eexists;
      (split; [reflexivity|]); split; try (by intros ? [= <-]); try done;
      by eexists.
  - unfold bind, modify, ret. eexists. split; [reflexivity|]. split; [done|].
    by eexists.
Qed.

Lemma initOrReady_spec codec uuid f initArgs tx depTx h tm :
  txCtxs h = Some tm -> tm !! uuid = None ->
  match startFrame codec uuid f initArgs with
  | None => initOrReady codec uuid f initArgs tx depTx h = Panic h
  | Some (ccMsg, send) =>
      match deployContext codec tx depTx with
      | ok d =>
          initOrReady codec uuid f initArgs tx depTx h
          = Ret (ok tt) (started uuid tx d ccMsg send tm h)
      | fail e =>
          exists v, initOrReady codec uuid f initArgs tx depTx h
                    = Ret (fail e) (set_deployTXSecContext v h)
      end
  end.
Proof.
  intros Htm Hnone. unfold initOrReady, startFrame, createTxContext,
    new_transactionContext.
  cbv beta iota zeta delta [bind get ret modify]. rewrite Htm, Hnone.
  assert (Hback : forall c, set_txCtxs (Some (delete uuid (<[uuid := c]> tm))) h = h).
  { intros c. rewrite delete_insert_eq, delete_id by done. by apply set_txCtxs_id. }
  destruct (bool_decide (is_Some f) || bool_decide (is_Some initArgs)).
  - destruct (Marshal_ChaincodeInput codec _) as [payload|err].
    + match goal with
      | |- context [initializeSecContext codec tx depTx ?hh] =>
          destruct (initializeSecContext_spec codec tx depTx hh) as (h' & -> & Hok & v & Hv)
      end.
      destruct (deployContext codec tx depTx) as [d|e].
      * rewrite (Hok d eq_refl). reflexivity.
      * exists v. subst h'. unfold deleteTxContext, triggerNextState.
        cbv beta iota delta [bind get ret modify]. cbn [txCtxs set_deployTXSecContext set_txCtxs].
        f_equal. rewrite <- (Hback (mkTxCtx tx [] ∅)) at 2. reflexivity.
    + unfold deleteTxContext, panic. cbv beta iota delta [bind get ret modify].
      cbn [txCtxs set_txCtxs]. f_equal. apply Hback.
  - match goal with
    | |- context [initializeSecContext codec tx depTx ?hh] =>
        destruct (initializeSecContext_spec codec tx depTx hh) as (h' & -> & Hok & v & Hv)
    end.
    destruct (deployContext codec tx depTx) as [d|e].
    + rewrite (Hok d eq_refl). reflexivity.
    + exists v. subst h'. unfold deleteTxContext, triggerNextState.
      cbv beta iota delta [bind get ret modify]. cbn [txCtxs set_deployTXSecContext set_txCtxs].
      f_equal. rewrite <- (Hback (mkTxCtx tx [] ∅)) at 2. reflexivity.
Qed.

(** X23. [initOrReady] on a uuid with no context.  When a function or
    arguments are given and the input cannot be encoded, the context just
    installed is removed and the call panics on the nil frame whose type
    the error message reads.  Otherwise, when the deploy security context
    can be built, the context of the uuid is installed, the deploy
    transaction is kept without its payload and with the path of its
    chaincode identifier erased, and one frame is queued on [nextState]:
    INIT, not to be forwarded by the pump, or READY, to be forwarded.  When
    the deploy security context cannot be built the call returns the error,
    the context of the uuid is removed again and nothing is queued. *)
Theorem initOrReady_start (codec : SecCodec) (uuid : string) (f : option string)
    (initArgs : option (list string)) (tx depTx : option Transaction) (h : Handler)
    (tm : gmap string transactionContext) :
  txCtxs h = Some tm -> tm !! uuid = None ->
  match startFrame codec uuid f initArgs with
  | None => initOrReady codec uuid f initArgs tx depTx h = Panic h
  | Some (ccMsg, send) =>
      match deployContext codec tx depTx with
      | ok d =>
          initOrReady codec uuid f initArgs tx depTx h
          = Ret (ok tt) (started uuid tx d ccMsg send tm h)
      | fail e =>
          exists v, initOrReady codec uuid f initArgs tx depTx h
                    = Ret (fail e) (set_deployTXSecContext v h)
      end
  end.
Proof. apply initOrReady_spec. Qed.

(** Witness for X23: a deploy with a constructor function. *)
Lemma initOrReady_start_witness :
  initOrReady sampleCodec "dep1" (Some "init") None (Some deployTx) None establishedHandler
  = Ret (ok tt)
        (started "dep1" (Some deployTx) (mkTx Transaction_CHAINCODE_NEW "cc" "" "dep1")
                 (mkMsg ChaincodeMessage_INIT "init" "dep1") false ∅ establishedHandler).
Proof.
  exact (initOrReady_start sampleCodec "dep1" (Some "init") None (Some deployTx) None
           establishedHandler ∅ eq_refl eq_refl).
Defined.

(** ** Entering [init] *)

Lemma HandleMessage_INIT_established env msg h :
  Type_ msg = ChaincodeMessage_INIT ->
  FSM_current h = establishedstate ->
  HandleMessage env msg h =
  match Send env msg with
  | None => Ret None (initSent msg h)
  | Some err =>
      match notify (ERROR_msg ("Error sending INIT: "
                               +:+ ("Error sending INIT: " +:+ error_Error err))
                              (Uuid msg))
                   (initSent msg h) with
      | Ret _ h' => Ret None h'
      | Panic h' => Panic h'
      | Block h' => Block h'
      end
  end.
Proof.
  intros Hty Hcur.
  assert (Htr : spec_transition (Type_ msg) (FSM_current h) = Some initstate)
    by (by rewrite Hty, Hcur).
  rewrite HandleMessage_fsm; [|by rewrite Hty|by rewrite Htr].
  unfold bind at 1. rewrite (FSM_Event_unfold env (Type_ msg) _ h _ Htr).
  rewrite Hty, Hcur. unfold fsm.call. simpl fsm.find_callback.
  unfold closure, beforeInitState, enterInitState, Args0, notifyDuringStartup,
    markIsTransaction, serialSend, emit, initSent, markedAs, startupNotified.
  cbv beta iota delta [bind get ret deref modify assert_ChaincodeMessage negb
                       ev_Args ev_canceled ev_Err].
  destruct (readyNotify h) as [ch|] eqn:Hch;
    cbv beta iota delta [bind get ret deref modify assert_ChaincodeMessage negb
                         ev_Args ev_canceled ev_Err];
    (case_decide; [done|]); rewrite Hty;
    (rewrite decide_True by done); cbn [isTransaction set_FSM_current set_readyNotify];
    destruct (isTransaction h) as [im|] eqn:Him;
    cbv beta iota delta [bind get ret deref modify];
    rewrite ?Hty;
    (destruct (Send env msg) as [err|]; [|reflexivity]);
    change (Type_String ChaincodeMessage_INIT) with "INIT";
    by destruct (notify _ _) as [[] ?|?|?].
Qed.

(** X24. An INIT frame handled in [established] (it comes from
    [initOrReady] through [nextState], not to be forwarded): the starter of
    the chaincode is told [true], the FSM enters [init], the uuid is marked
    as a transaction and [enterInitState] itself sends the frame to the
    worker.  When that send fails the waiter of the uuid is notified with
    an ERROR frame "Error sending INIT: ..."; the event is not canceled,
    so [HandleMessage] returns nil in both cases and the FSM stays in
    [init]. *)
Theorem HandleMessage_INIT_in_established (env : Environment) (msg : ChaincodeMessage)
    (h : Handler) :
  Type_ msg = ChaincodeMessage_INIT ->
  FSM_current h = establishedstate ->
  HandleMessage env msg h =
  match Send env msg with
  | None => Ret None (initSent msg h)
  | Some err =>
      match notify (ERROR_msg ("Error sending INIT: "
                               +:+ ("Error sending INIT: " +:+ error_Error err))
                              (Uuid msg))
                   (initSent msg h) with
      | Ret _ h' => Ret None h'
      | Panic h' => Panic h'
      | Block h' => Block h'
      end
  end.
Proof. apply HandleMessage_INIT_established. Qed.

(** Witness for X24. *)
Lemma HandleMessage_INIT_in_established_witness :
  HandleMessage (sampleEnv None []) (mkMsg ChaincodeMessage_INIT "init" "dep1")
                establishedHandler
  = Ret None (initSent (mkMsg ChaincodeMessage_INIT "init" "dep1") establishedHandler).
Proof.
  exact (HandleMessage_INIT_in_established (sampleEnv None [])
           (mkMsg ChaincodeMessage_INIT "init" "dep1") establishedHandler
           eq_refl eq_refl).
Defined.

(** ** Starting a chaincode, from [initOrReady] to the worker *)

Lemma startFrame_cases codec uuid f initArgs ccMsg send :
  startFrame codec uuid f initArgs = Some (ccMsg, send) ->
  Uuid ccMsg = uuid /\
  Type_ ccMsg = (if send then ChaincodeMessage_READY else ChaincodeMessage_INIT).
Proof.
  unfold startFrame.
  destruct (bool_decide (is_Some f) || bool_decide (is_Some initArgs)).
  - destruct (Marshal_ChaincodeInput codec _); [|done]. by intros [= <- <-].
  - by intros [= <- <-].
Qed.

(** X25. Starting a chaincode.  In [established] with nothing queued,
    [initOrReady] followed by one turn of the pump on [nextState] sends
    exactly one frame to the worker, the frame chosen by [initOrReady].
    For INIT the frame is sent on entering [init], the FSM is left in
    [init] and the uuid is marked as a transaction; the caller has received
    nothing yet.  For READY the FSM is left in [ready], the uuid is not
    marked, the frame is forwarded by the pump after the caller has
    received it on the channel of the context.  In both cases the deploy
    security context is installed and the queue is empty again. *)
Theorem start_round (env : Environment) (codec : SecCodec) (uuid : string)
    (f : option string) (initArgs : option (list string)) (tx depTx : option Transaction)
    (h : Handler) (tm : gmap string transactionContext) (im : gmap string bool)
    (ccMsg : ChaincodeMessage) (send : bool) (d : Transaction) :
  FSM_current h = establishedstate ->
  txCtxs h = Some tm -> tm !! uuid = None ->
  isTransaction h = Some im ->
  nextState h = [] ->
  startFrame codec uuid f initArgs = Some (ccMsg, send) ->
  deployContext codec tx depTx = ok d ->
  Send env ccMsg = None ->
  exists h1 h2,
    initOrReady codec uuid f initArgs tx depTx h = Ret (ok tt) h1 /\
    processStream_turn env fromNextState h1 = Ret None h2 /\
    FSM_current h2 = (if send then readystate else initstate) /\
    trace h2 = trace h ++ [A_Send ccMsg] /\
    isTransactionMark h2 uuid = negb send /\
    txContextOf h2 uuid = Some (mkTxCtx tx (if send then [ccMsg] else []) ∅) /\
    deployTXSecContext h2 = Some d /\
    nextState h2 = [].
Proof.
  intros Hcur Htm Hnone Him Hq Hframe Hdep Hsend.
  destruct (startFrame_cases _ _ _ _ _ _ Hframe) as [Hu Hty].
  pose proof (initOrReady_spec codec uuid f initArgs tx depTx h tm Htm Hnone) as Hinit.
  rewrite Hframe, Hdep in Hinit.
  destruct send; (eexists _, _; split; [exact Hinit|]);
    (erewrite (processStream_turn_nextState env _ ccMsg _ []);
      [|unfold started; cbn; by rewrite Hq]);
    unfold processStream_handle; unfold bind at 1.
  - rewrite HandleMessage_enter_ready; [|right; right; by split].
    unfold readied, withoutTransactionMark.
    change (isTransaction (set_FSM_current _ (set_nextState _ (started _ _ _ _ _ _ h))))
      with (isTransaction h).
    rewrite Him.
    rewrite (notify_free_eq ccMsg _ (<[uuid := mkTxCtx tx [] ∅]> tm) (mkTxCtx tx [] ∅));
      [|reflexivity|rewrite Hu; apply lookup_insert_eq|done].
    unfold serialSend, emit. cbv beta iota delta [bind ret modify]. rewrite Hsend.
    split; [reflexivity|].
    unfold isTransactionMark, txContextOf, notified, delivered, started. cbn.
    rewrite Hu, lookup_delete_eq, insert_insert_eq, lookup_insert_eq. by repeat split.
  - rewrite HandleMessage_INIT_established; [|done|done]. rewrite Hsend.
    split; [reflexivity|]. unfold initSent, markedAs, startupNotified, started.
    cbn. destruct (readyNotify h); cbn; rewrite Him; cbn;
      unfold isTransactionMark, txContextOf; cbn;
      rewrite Hu, !lookup_insert_eq; by repeat split.
Qed.

(** Witness for X25: a deploy with a constructor function. *)
Lemma start_round_witness :
  exists h1 h2,
    initOrReady sampleCodec "dep1" (Some "init") None (Some deployTx) None
                establishedHandler = Ret (ok tt) h1 /\
    processStream_turn (sampleEnv None []) fromNextState h1 = Ret None h2 /\
    FSM_current h2 = initstate /\
    trace h2 = [A_Send (mkMsg ChaincodeMessage_INIT "init" "dep1")] /\
    isTransactionMark h2 "dep1" = true /\
    txContextOf h2 "dep1" = Some (mkTxCtx (Some deployTx) [] ∅) /\
    deployTXSecContext h2 = Some (mkTx Transaction_CHAINCODE_NEW "cc" "" "dep1") /\
    nextState h2 = [].
Proof.
  exact (start_round (sampleEnv None []) sampleCodec "dep1" (Some "init") None
           (Some deployTx) None establishedHandler ∅ ∅
           (mkMsg ChaincodeMessage_INIT "init" "dep1") false
           (mkTx Transaction_CHAINCODE_NEW "cc" "" "dep1")
           eq_refl eq_refl eq_refl eq_refl eq_refl eq_refl eq_refl eq_refl).
Defined.

(** ** What the read actions leave alone *)

Section Frame.

Context (R : Handler -> Handler -> Prop).
Hypothesis R_refl : forall h, R h h.
Hypothesis R_trans : forall h1 h2 h3, R h1 h2 -> R h2 h3 -> R h1 h3.

Lemma keeps_ret {A} (a : A) : keeps R (ret a).
Proof. intros h. apply R_refl. Qed.

Lemma keeps_get : keeps R get.
Proof. intros h. apply R_refl. Qed.

Lemma keeps_panic {A} : keeps R (@panic A).
Proof. intros h. apply R_refl. Qed.

Lemma keeps_block {A} : keeps R (@block A).
Proof. intros h. apply R_refl. Qed.

Lemma keeps_deref {A} (p : option A) : keeps R (deref p).
Proof. intros h. destruct p; apply R_refl. Qed.

Lemma keeps_modify f : (forall h, R h (f h)) -> keeps R (modify f).
Proof. intros Hf h. apply Hf. Qed.

Lemma keeps_bind {A B} (m : M A) (k : A -> M B) :
  keeps R m -> (forall a, keeps R (k a)) -> keeps R (bind m k).
Proof.
  intros Hm Hk h. unfold bind. specialize (Hm h).
  destruct (m h) as [a h1|h1|h1]; [|done..].
  eapply R_trans; [exact Hm|apply Hk].
Qed.

Lemma keeps_with_defer_ret {A} (body : M A) deferred :
  keeps R body -> (forall o, keeps R (deferred o)) ->
  keeps R (with_defer_ret body deferred).
Proof.
  intros Hb Hd h. unfold with_defer_ret. specialize (Hb h).
  destruct (body h) as [a h1|h1|h1]; [| |done].
  - specialize (Hd (Some a) h1).
    destruct (deferred (Some a) h1); by eapply R_trans.
  - specialize (Hd None h1).
    destruct (deferred None h1); by eapply R_trans.
Qed.

Lemma keeps_with_defer {A} (body : M A) deferred :
  keeps R body -> (forall o, keeps R (deferred o)) ->
  keeps R (with_defer body deferred).
Proof.
  intros Hb Hd. unfold with_defer. apply keeps_bind.
  - by apply keeps_with_defer_ret.
  - intros _. apply keeps_ret.
Qed.

Lemma keeps_pure {A} (m : M A) (f : Handler -> A) :
  (forall h, m h = Ret (f h) h) -> keeps R m.
Proof. intros Hm h. rewrite Hm. apply R_refl. Qed.

End Frame.

Lemma readFrame_refl h : readFrame h h.
Proof. repeat split. exists []. by rewrite app_nil_r. Qed.

Lemma readFrame_trans h1 h2 h3 : readFrame h1 h2 -> readFrame h2 h3 -> readFrame h1 h3.
Proof.
  intros (?&?&?&?&?&?&?&t1&Ht1&Hq1) (?&?&?&?&?&?&?&t2&Ht2&Hq2).
  repeat split; try congruence.
  exists (t1 ++ t2). split.
  - by rewrite Ht2, Ht1, app_assoc.
  - by rewrite forallb_app, Hq1, Hq2.
Qed.

Lemma readFrame_silent h h' :
  FSM_current h' = FSM_current h -> isTransaction h' = isTransaction h ->
  nextState h' = nextState h -> spawned h' = spawned h ->
  registered h' = registered h -> deployTXSecContext h' = deployTXSecContext h ->
  ChaincodeID h' = ChaincodeID h -> trace h' = trace h ->
  readFrame h h'.
Proof. intros. repeat split; try done. exists []. by rewrite app_nil_r. Qed.

Lemma readFrame_emit a h :
  isReadOrSend a = true -> readFrame h (set_trace (trace h ++ [a]) h).
Proof. intros Ha. repeat split. exists [a]. split; [done|]. cbn. by rewrite Ha. Qed.

Lemma rk_ret {A} (a : A) : keeps readFrame (ret a).
Proof. apply keeps_ret, readFrame_refl. Qed.

Lemma rk_get : keeps readFrame get.
Proof. apply keeps_get, readFrame_refl. Qed.

Lemma rk_panic {A} : keeps readFrame (@panic A).
Proof. apply keeps_panic, readFrame_refl. Qed.

Lemma rk_deref {A} (p : option A) : keeps readFrame (deref p).
Proof. apply keeps_deref, readFrame_refl. Qed.

Lemma rk_bind {A B} (m : M A) (k : A -> M B) :
  keeps readFrame m -> (forall a, keeps readFrame (k a)) -> keeps readFrame (bind m k).
Proof. apply keeps_bind, readFrame_trans. Qed.

Lemma rk_with_defer {A} (body : M A) deferred :
  keeps readFrame body -> (forall o, keeps readFrame (deferred o)) ->
  keeps readFrame (with_defer body deferred).
Proof. apply keeps_with_defer; [apply readFrame_refl|apply readFrame_trans]. Qed.

Lemma rk_pure {A} (m : M A) (f : Handler -> A) :
  (forall h, m h = Ret (f h) h) -> keeps readFrame m.
Proof. apply keeps_pure, readFrame_refl. Qed.

Lemma rk_set f :
  (forall h, FSM_current (f h) = FSM_current h /\ isTransaction (f h) = isTransaction h /\
             nextState (f h) = nextState h /\ spawned (f h) = spawned h /\
             registered (f h) = registered h /\
             deployTXSecContext (f h) = deployTXSecContext h /\
             ChaincodeID (f h) = ChaincodeID h /\ trace (f h) = trace h) ->
  keeps readFrame (modify f).
Proof.
  intros Hf. apply keeps_modify. intros h.
  destruct (Hf h) as (?&?&?&?&?&?&?&?). by apply readFrame_silent.
Qed.

Lemma rk_emit a : isReadOrSend a = true -> keeps readFrame (emit a).
Proof. intros Ha. apply keeps_modify. intros h. by apply readFrame_emit. Qed.

(** One step of a proof that a computation keeps [readFrame]. *)
Ltac rk_step :=
  first
    [ apply rk_ret | apply rk_get | apply rk_panic | apply rk_deref
    | apply rk_emit; reflexivity
    | apply rk_set; intros ?; by repeat split
    | lazymatch goal with
      | |- keeps _ (with_defer _ _) => apply rk_with_defer; [|intros ?]
      | |- keeps _ (bind _ _) => apply rk_bind; [|intros ?]
      end
    | lazymatch goal with
      | |- keeps _ (if ?b then _ else _) => destruct b
      | |- keeps _ (match ?x with Some _ => _ | None => _ end) => destruct x
      | |- keeps _ (match ?x with ok _ => _ | fail _ => _ end) => destruct x
      | |- keeps _ (let '(_, _) := ?x in _) => destruct x
      end ].

Ltac rk := repeat (cbv beta zeta; rk_step).

Lemma rk_createUUIDEntry uuid : keeps readFrame (createUUIDEntry uuid).
Proof. unfold createUUIDEntry. rk. Qed.

Lemma rk_deleteUUIDEntry uuid : keeps readFrame (deleteUUIDEntry uuid).
Proof. unfold deleteUUIDEntry. rk. Qed.

Lemma rk_getIsTransaction uuid : keeps readFrame (getIsTransaction uuid).
Proof. eapply rk_pure. apply getIsTransaction_spec. Qed.

Lemma rk_serialSend env msg : keeps readFrame (serialSend env msg).
Proof. unfold serialSend. rk. Qed.

Lemma rk_decrypt env uuid payload : keeps readFrame (decrypt env uuid payload).
Proof. eapply rk_pure. intros h. apply encryptOrDecrypt_pure. Qed.

Lemma rk_getTxContext uuid : keeps readFrame (getTxContext uuid).
Proof. eapply rk_pure. apply getTxContext_spec. Qed.

Lemma rk_load_txContext p : keeps readFrame (load_txContext p).
Proof. unfold load_txContext. rk. Qed.

Lemma rk_store_txContext p c : keeps readFrame (store_txContext p c).
Proof. unfold store_txContext. rk. Qed.

Create HintDb readframe.

#[local] Hint Resolve rk_createUUIDEntry rk_deleteUUIDEntry rk_getIsTransaction
  rk_serialSend rk_decrypt rk_getTxContext rk_load_txContext rk_store_txContext
  : readframe.

Ltac rk' := repeat (cbv beta zeta; first [solve [auto with readframe] | rk_step]).

Lemma rk_putRangeQueryIterator p id a : keeps readFrame (putRangeQueryIterator p id a).
Proof. unfold putRangeQueryIterator. rk'. Qed.

Lemma rk_getRangeQueryIterator p id : keeps readFrame (getRangeQueryIterator p id).
Proof. unfold getRangeQueryIterator. rk'. Qed.

Lemma rk_deleteRangeQueryIterator p id : keeps readFrame (deleteRangeQueryIterator p id).
Proof. unfold deleteRangeQueryIterator. rk'. Qed.

Lemma rk_new_iterator kvs : keeps readFrame (new_iterator kvs).
Proof. unfold new_iterator. rk'. Qed.

Lemma rk_rangeIter_Next a : keeps readFrame (rangeIter_Next a).
Proof. unfold rangeIter_Next. rk'. Qed.

Lemma rk_rangeIter_GetKeyValue a : keeps readFrame (rangeIter_GetKeyValue a).
Proof. unfold rangeIter_GetKeyValue. rk'. Qed.

Lemma rk_rangeIter_Close a : keeps readFrame (rangeIter_Close a).
Proof. unfold rangeIter_Close. rk'. Qed.

Lemma rk_util_GenerateUUID env : keeps readFrame (util_GenerateUUID env).
Proof. unfold util_GenerateUUID. rk'. Qed.

Lemma rk_Error_of err : keeps readFrame (Error_of err).
Proof. unfold Error_of. rk'. Qed.

Lemma rk_deferred_serialSend env uuid o : keeps readFrame (deferred_serialSend env uuid o).
Proof. unfold deferred_serialSend. rk'. Qed.

#[local] Hint Resolve rk_putRangeQueryIterator rk_getRangeQueryIterator
  rk_deleteRangeQueryIterator rk_new_iterator rk_rangeIter_Next rk_rangeIter_GetKeyValue
  rk_rangeIter_Close rk_util_GenerateUUID rk_Error_of rk_deferred_serialSend : readframe.

Lemma rk_rangeQueryLoop env n msg unmarshalErr txContext iterID rangeIter kvs hasNext :
  keeps readFrame
    (rangeQueryLoop env n msg unmarshalErr txContext iterID rangeIter kvs hasNext).
Proof.
  revert kvs hasNext. induction n as [|n IH]; intros kvs hasNext; cbn [rangeQueryLoop].
  - rk'.
  - destruct (negb hasNext); [rk'|].
    apply rk_bind; [auto with readframe|intros kv].
    apply rk_bind; [auto with readframe|intros [d|err]].
    + apply rk_bind; [auto with readframe|intros hasNext']. apply IH.
    + rk'.
Qed.

Lemma rk_rangeQueryReply env msg txContext iterID rangeIter exit :
  keeps readFrame (rangeQueryReply env msg txContext iterID rangeIter exit).
Proof. unfold rangeQueryReply. destruct exit; rk'. Qed.

#[local] Hint Resolve rk_rangeQueryLoop rk_rangeQueryReply : readframe.

Lemma rk_handleGetState_task env msg : keeps readFrame (handleGetState_task env msg).
Proof. unfold handleGetState_task. rk'. Qed.

Lemma rk_handleRangeQueryState_task env msg :
  keeps readFrame (handleRangeQueryState_task env msg).
Proof. unfold handleRangeQueryState_task. rk'. Qed.

Lemma rk_handleRangeQueryStateNext_task env msg :
  keeps readFrame (handleRangeQueryStateNext_task env msg).
Proof. unfold handleRangeQueryStateNext_task. rk'. Qed.

Lemma rk_handleRangeQueryStateClose_task env msg :
  keeps readFrame (handleRangeQueryStateClose_task env msg).
Proof. unfold handleRangeQueryStateClose_task. rk'. Qed.

(** X26. The four read actions (GET_STATE and the three RANGE_QUERY_STATE
    requests) answer the worker themselves.  Whatever the request, the
    state of the handler and the answers of the environment, and however
    the goroutine ends (it returns, panics or blocks), it does not move the
    FSM, does not change a transaction mark, queues nothing on [nextState],
    starts no goroutine and leaves the registration and the deploy security
    context alone; the calls it adds to the trace are ledger reads and
    sends: no [SetState], [DeleteState], [LaunchChaincode] or [Execute]. *)
Theorem read_actions_frame (env : Environment) (t : Task) (h : Handler) :
  isReadTask t = true ->
  readFrame h (final (run_task env t h)).
Proof.
  destruct t; try discriminate; intros _; cbn [run_task].
  - apply rk_handleGetState_task.
  - apply rk_handleRangeQueryState_task.
  - apply rk_handleRangeQueryStateNext_task.
  - apply rk_handleRangeQueryStateClose_task.
Qed.

(** Witness for X26: the first page of a scan. *)
Lemma read_actions_frame_witness :
  readFrame (sampleHandler transactionstate)
    (final (run_task (sampleEnv None [("k", "v")])
              (T_handleRangeQueryState (mkMsg ChaincodeMessage_RANGE_QUERY_STATE "a" "tx1"))
              (sampleHandler transactionstate))).
Proof.
  exact (read_actions_frame (sampleEnv None [("k", "v")])
           (T_handleRangeQueryState (mkMsg ChaincodeMessage_RANGE_QUERY_STATE "a" "tx1"))
           (sampleHandler transactionstate) eq_refl).
Defined.

(** ** The FSM moves along the table only *)

Lemma fsmFrame_refl h : fsmFrame h h.
Proof. reflexivity. Qed.

Lemma fsmFrame_trans h1 h2 h3 : fsmFrame h1 h2 -> fsmFrame h2 h3 -> fsmFrame h1 h3.
Proof. unfold fsmFrame. congruence. Qed.

(** One step of a proof that a computation keeps [fsmFrame]. *)
Ltac fk_step :=
  first
    [ apply (keeps_ret _ fsmFrame_refl) | apply (keeps_get _ fsmFrame_refl)
    | apply (keeps_panic _ fsmFrame_refl) | apply (keeps_block _ fsmFrame_refl)
    | apply (keeps_deref _ fsmFrame_refl)
    | apply keeps_modify; intros ?; reflexivity
    | lazymatch goal with
      | |- keeps _ (with_defer_ret _ _) =>
          apply (keeps_with_defer_ret _ fsmFrame_trans); [|intros ?]
      | |- keeps _ (bind _ _) => apply (keeps_bind _ fsmFrame_trans); [|intros ?]
      | |- keeps _ (if ?b then _ else _) => destruct b
      | |- keeps _ (match ?x with Some _ => _ | None => _ end) => destruct x
      | |- keeps _ (match ?x with ok _ => _ | fail _ => _ end) => destruct x
      | |- keeps _ (match ?x with [] => _ | _ :: _ => _ end) => destruct x
      | |- keeps _ (let '(_, _) := ?x in _) => destruct x
      end ].

Ltac fk :=
  unfold beforeRegisterEvent, beforeCompletedEvent, beforeInitState, afterRead,
    afterWrite, enterBusyState, enterEstablishedState, enterInitState,
    enterReadyState, enterEndState, Args0, notifyDuringStartup, markIsTransaction,
    deleteIsTransaction, getIsTransaction, serialSend, notify, deregister, emit, go;
  repeat (cbv beta zeta; fk_step).

Lemma fk_beforeRegisterEvent env e state :
  keeps fsmFrame (beforeRegisterEvent env e state).
Proof. fk. Qed.

Lemma fk_beforeCompletedEvent e state : keeps fsmFrame (beforeCompletedEvent e state).
Proof. fk. Qed.

Lemma fk_beforeInitState e state : keeps fsmFrame (beforeInitState e state).
Proof. fk. Qed.

Lemma fk_afterRead task e state : keeps fsmFrame (afterRead task e state).
Proof. fk. Qed.

Lemma fk_afterWrite e state : keeps fsmFrame (afterWrite e state).
Proof. fk. Qed.

Lemma fk_enterBusyState e state : keeps fsmFrame (enterBusyState e state).
Proof. fk. Qed.

Lemma fk_enterEstablishedState e state : keeps fsmFrame (enterEstablishedState e state).
Proof. fk. Qed.

Lemma fk_enterInitState env e state : keeps fsmFrame (enterInitState env e state).
Proof. fk. Qed.

Lemma fk_enterReadyState e state : keeps fsmFrame (enterReadyState e state).
Proof. fk. Qed.

Lemma fk_enterEndState e state : keeps fsmFrame (enterEndState e state).
Proof. fk. Qed.

Lemma fk_closure f e :
  (forall state, keeps fsmFrame (f e state)) -> keeps fsmFrame (closure f e).
Proof.
  intros Hf. unfold closure. apply (keeps_bind _ fsmFrame_trans).
  - apply (keeps_get _ fsmFrame_refl).
  - intros h. apply Hf.
Qed.

Lemma fk_Callbacks env :
  Forall (fun kc => forall e, keeps fsmFrame (kc.2 e)) (Callbacks env).
Proof.
  unfold Callbacks.
  repeat (apply Forall_cons; split;
          [intros e; cbn [snd]; apply fk_closure; intros state;
           first [ apply fk_beforeRegisterEvent | apply fk_beforeCompletedEvent
                 | apply fk_beforeInitState | apply fk_afterRead | apply fk_afterWrite
                 | apply fk_enterBusyState | apply fk_enterEstablishedState
                 | apply fk_enterInitState | apply fk_enterReadyState
                 | apply fk_enterEndState ] |]).
  apply Forall_nil_2.
Qed.

Lemma fk_call key cbs e :
  Forall (fun kc => forall e', keeps fsmFrame (kc.2 e')) cbs ->
  keeps fsmFrame (fsm.call key cbs e).
Proof.
  intros Hall. unfold fsm.call.
  induction Hall as [|[k fn] cbs Hfn _ IH]; cbn [fsm.find_callback].
  - apply (keeps_ret _ fsmFrame_refl).
  - case_decide; [apply Hfn|done].
Qed.

Lemma final_bind {A B} (m : M A) (k : A -> M B) h :
  final (bind m k h) =
  match m h with
  | Ret a h1 => final (k a h1)
  | Panic h1 | Block h1 => h1
  end.
Proof. unfold bind. by destruct (m h). Qed.

Lemma FSM_Event_along_table env t args h :
  FSM_current (final (fsm.FSM_Event Events (Callbacks env) (Type_String t) args h))
    = FSM_current h \/
  spec_transition t (FSM_current h)
    = Some (FSM_current
              (final (fsm.FSM_Event Events (Callbacks env) (Type_String t) args h))).
Proof.
  pose proof (fun key e => fk_call key _ e (fk_Callbacks env)) as Hcall.
  remember (final (fsm.FSM_Event Events (Callbacks env) (Type_String t) args h))
    as hf eqn:Hf.
  unfold fsm.FSM_Event in Hf. unfold bind at 1, get at 1 in Hf.
  fold transitions in Hf. rewrite transitions_spec in Hf.
  unfold fsmFrame in Hcall.
  destruct (spec_transition t (FSM_current h)) as [dst|] eqn:Htr.
  2:{ left. destruct (existsb _ _); by subst hf. }
  rewrite final_bind in Hf.
  match type of Hf with context [fsm.call ?k ?c ?e h] =>
    pose proof (Hcall k e h) as H1; destruct (fsm.call k c e h) as [e1 h1|h1|h1] end;
    cbn [final] in H1; [|left; by subst hf..].
  destruct (ev_canceled e1); [left; by subst hf|].
  case_decide as Hd.
  { rewrite final_bind in Hf.
    match type of Hf with context [fsm.call ?k ?c ?e h1] =>
      pose proof (Hcall k e h1) as H2; destruct (fsm.call k c e h1) as [e2 h2|h2|h2] end;
      cbn [final] in H2; left; subst hf; cbn; congruence. }
  rewrite final_bind in Hf.
  match type of Hf with context [fsm.call ?k ?c ?e h1] =>
    pose proof (Hcall k e h1) as H2; destruct (fsm.call k c e h1) as [e2 h2|h2|h2] end;
    cbn [final] in H2; [|left; subst hf; congruence..].
  destruct (ev_canceled e2); [left; subst hf; cbn; congruence|].
  unfold bind at 1, modify at 1 in Hf. rewrite final_bind in Hf.
  match type of Hf with context [fsm.call ?k ?c ?e ?hh] =>
    pose proof (Hcall k e hh) as H3; destruct (fsm.call k c e hh) as [e3 h3|h3|h3] end;
    cbn [final] in H3; [|right; subst hf; cbn in H3; congruence..].
  rewrite final_bind in Hf.
  match type of Hf with context [fsm.call ?k ?c ?e h3] =>
    pose proof (Hcall k e h3) as H4; destruct (fsm.call k c e h3) as [e4 h4|h4|h4] end;
    cbn [final] in H4; right; subst hf; cbn in *; congruence.
Qed.

Lemma fk_encrypt env uuid payload : keeps fsmFrame (encrypt env uuid payload).
Proof.
  eapply (keeps_pure _ fsmFrame_refl). intros h. apply encryptOrDecrypt_pure.
Qed.

Lemma HandleMessage_along_table env msg h :
  (FSM_current (final (HandleMessage env msg h)) = FSM_current h \/
   spec_transition (Type_ msg) (FSM_current h)
     = Some (FSM_current (final (HandleMessage env msg h)))) /\
  (outOfBand (Type_ msg) = true ->
   FSM_current (final (HandleMessage env msg h)) = FSM_current h).
Proof.
  remember (final (HandleMessage env msg h)) as hf eqn:Hf.
  unfold HandleMessage in Hf. unfold outOfBand.
  assert (Hkeep : forall (m : M (option error)),
             keeps fsmFrame m -> hf = final (m h) -> FSM_current hf = FSM_current h)
    by (intros m Hm ->; apply Hm).
  case_decide as H1; [|case_decide as H2; [|case_decide as H3]].
  - assert (FSM_current hf = FSM_current h) as Hk.
    { eapply Hkeep; [|exact Hf].
      apply (keeps_bind _ fsmFrame_trans); [fk|intros _].
      apply (keeps_bind _ fsmFrame_trans); [apply fk_encrypt|intros enc]. fk. }
    split; [by left|done].
  - assert (FSM_current hf = FSM_current h) as Hk
      by (eapply Hkeep; [|exact Hf]; fk).
    split; [by left|done].
  - assert (FSM_current hf = FSM_current h) as Hk
      by (eapply Hkeep; [|exact Hf]; fk).
    split; [by left|done].
  - split.
    2:{ rewrite !bool_decide_eq_false_2 by done. discriminate. }
    unfold bind at 1 in Hf. rewrite Cannot_spec in Hf.
    destruct (spec_transition (Type_ msg) (FSM_current h)) as [dst|] eqn:Htr.
    + rewrite bool_decide_eq_true_2 in Hf by eauto. cbn [negb] in Hf.
      rewrite final_bind in Hf.
      pose proof (FSM_Event_along_table env (Type_ msg) [I_msg (Some msg)] h) as Hev.
      rewrite Htr in Hev.
      destruct (fsm.FSM_Event _ _ _ _ h); by subst hf.
    + rewrite bool_decide_eq_false_2 in Hf by (by intros [? ?]). cbn [negb] in Hf.
      left. unfold bind at 1 in Hf. rewrite getIsTransaction_spec in Hf.
      destruct (isWriteClass (Type_ msg) && negb (isTransactionMark h (Uuid msg))).
      * eapply Hkeep; [|exact Hf]. fk.
      * by subst hf.
Qed.

(** X27. Whatever the frame, the state of the handler and the answers of
    the environment, and however [HandleMessage] ends (it returns or blocks
    in [notify]), the FSM is left either in the state it was in or in the
    state the transition table gives for the type of the frame in that
    state: no callback moves the FSM, and the out-of-band types
    (QUERY_COMPLETED, QUERY_ERROR, INVOKE_QUERY) do not move it at all. *)
Theorem HandleMessage_moves_along_table (env : Environment) (msg : ChaincodeMessage)
    (h : Handler) :
  (FSM_current (final (HandleMessage env msg h)) = FSM_current h \/
   spec_transition (Type_ msg) (FSM_current h)
     = Some (FSM_current (final (HandleMessage env msg h)))) /\
  (outOfBand (Type_ msg) = true ->
   FSM_current (final (HandleMessage env msg h)) = FSM_current h).
Proof. apply HandleMessage_along_table. Qed.

(** Witness for X27: a QUERY_ERROR frame while the transaction is busy. *)
Lemma HandleMessage_moves_along_table_witness :
  FSM_current (final (HandleMessage (sampleEnv None [])
                        (mkMsg ChaincodeMessage_QUERY_ERROR "boom" "q1")
                        (sampleHandler busyxactstate)))
  = busyxactstate.
Proof.
  exact (proj2 (HandleMessage_moves_along_table (sampleEnv None [])
                  (mkMsg ChaincodeMessage_QUERY_ERROR "boom" "q1")
                  (sampleHandler busyxactstate)) eq_refl).
Defined.

(** ** The state [end] *)

Lemma spec_transition_end t : spec_transition t endstate = None.
Proof. by destruct t. Qed.

(** X28. [end] is final.  Once the FSM is in [end] no frame takes it out.
    A frame of an out-of-band type is still served; every other frame is
    refused by [HandleMessage] with an error, so the turn of the pump that
    received it from the stream ends the stream with "Error handling
    message, ending stream: ..." and runs the deferred [deregister]. *)
Theorem end_is_final (env : Environment) (msg : ChaincodeMessage) (h : Handler) :
  FSM_current h = endstate ->
  FSM_current (final (HandleMessage env msg h)) = endstate /\
  (outOfBand (Type_ msg) = false ->
   exists err h',
     HandleMessage env msg h = Ret (Some err) h' /\
     processStream_turn env (msgAvail (Some msg) None) h
     = Ret (Some (errorString ("Error handling message, ending stream: "
                               +:+ error_Error err)))
           (deregistered h')).
Proof.
  intros Hend. split.
  - destruct (HandleMessage_along_table env msg h) as [[Hs|Hm] _].
    + by rewrite Hs.
    + by rewrite Hend, spec_transition_end in Hm.
  - intros Hoob. cbn [processStream_turn]. unfold processStream_handle.
    assert (exists err h', HandleMessage env msg h = Ret (Some err) h') as (err & h' & Hh).
    { unfold HandleMessage, outOfBand in *.
      apply orb_false_iff in Hoob as [Hoob H3]. apply orb_false_iff in Hoob as [H1 H2].
      apply bool_decide_eq_false in H1, H2, H3.
      repeat (case_decide; [done|]).
      unfold bind at 1. rewrite Cannot_spec, Hend, spec_transition_end.
      rewrite bool_decide_eq_false_2 by (by intros [? ?]). cbn [negb].
      unfold bind at 1. rewrite getIsTransaction_spec.
      destruct (isWriteClass (Type_ msg) && negb (isTransactionMark h (Uuid msg))).
      - unfold bind.
        destruct (serialSend_spec env
                    (ERROR_msg ("[" +:+ Uuid msg +:+ "]Cannot handle "
                                +:+ Type_String (Type_ msg) +:+ " in query context")
                               (Uuid msg)) h) as (r & -> & _).
        unfold ret. eauto.
      - unfold bind, get, ret. eauto. }
    exists err, h'. split; [done|].
    unfold bind. rewrite Hh. by rewrite processStream_return_spec.
Qed.

(** Witness for X28: a COMPLETED frame after the end. *)
Lemma end_is_final_witness :
  FSM_current (final (HandleMessage (sampleEnv None [])
                        (mkMsg ChaincodeMessage_COMPLETED "" "tx1")
                        (sampleHandler endstate)))
  = endstate.
Proof.
  exact (proj1 (end_is_final (sampleEnv None [])
                  (mkMsg ChaincodeMessage_COMPLETED "" "tx1")
                  (sampleHandler endstate) eq_refl)).
Defined.

(** ** A stream, from its first frame *)

Lemma spec_transition_created t :
  t <> ChaincodeMessage_REGISTER -> spec_transition t createdstate = None.
Proof. by destruct t. Qed.

(** X29. [HandleChaincodeStream] starts from a handler in [created] with
    no table allocated.  When the first frame is not REGISTER (and not of
    an out-of-band type) the stream ends at once with the error of the
    gate: the frames after it are not read, the support plane is neither
    asked to register nor to deregister the handler, and the only frame
    sent is the ERROR reply a write-class type gets.  When the first frame
    is a REGISTER that succeeds for [chaincodeID] and the stream then
    fails with [err], the call returns [err] and what happened is:
    [registerHandler], REGISTERED sent, [deregisterHandler]. *)
Theorem HandleChaincodeStream_first_frame (env : Environment) (msg : ChaincodeMessage)
    (rest : list selected) :
  outOfBand (Type_ msg) = false ->
  (Type_ msg <> ChaincodeMessage_REGISTER ->
   HandleChaincodeStream env (msgAvail (Some msg) None :: rest)
   = Ret (Some (errorString ("Error handling message, ending stream: "
                             +:+ error_Error (gateError msg false createdstate))))
         (if isWriteClass (Type_ msg)
          then set_trace [A_Send (gateFrame msg)] newChaincodeSupportHandler
          else newChaincodeSupportHandler)) /\
  (forall chaincodeID in2 err,
     Type_ msg = ChaincodeMessage_REGISTER ->
     Unmarshal_ChaincodeID env (Payload msg) = ok chaincodeID ->
     registerError env (Payload msg) = None ->
     exists h',
       HandleChaincodeStream env [msgAvail (Some msg) None; msgAvail in2 (Some err)]
       = Ret (Some err) h' /\
       trace h' = [A_registerHandler chaincodeID; A_Send REGISTERED_msg;
                   A_deregisterHandler] /\
       FSM_current h' = establishedstate).
Proof.
  intros Hoob. split.
  - intros Hty. unfold HandleChaincodeStream. cbn [processStream processStream_turn].
    unfold bind at 1. unfold processStream_handle. unfold bind at 1.
    unfold HandleMessage, outOfBand in *.
    apply orb_false_iff in Hoob as [Hoob H3]. apply orb_false_iff in Hoob as [H1 H2].
    apply bool_decide_eq_false in H1, H2, H3.
    repeat (case_decide; [done|]).
    unfold bind at 1. rewrite Cannot_spec.
    change (FSM_current newChaincodeSupportHandler) with createdstate.
    rewrite (spec_transition_created _ Hty).
    rewrite bool_decide_eq_false_2 by (by intros [? ?]). cbn [negb].
    unfold bind at 1. rewrite getIsTransaction_spec.
    change (isTransactionMark newChaincodeSupportHandler (Uuid msg)) with false.
    unfold gateError, gateFrame. cbn [negb]. rewrite andb_true_r.
    destruct (isWriteClass (Type_ msg)).
    + unfold serialSend, emit. cbv beta iota delta [bind get ret modify].
      destruct (Send env _); rewrite processStream_return_spec; reflexivity.
    + cbv beta iota delta [bind get ret]. rewrite processStream_return_spec.
      reflexivity.
  - intros chaincodeID in2 err Hty Hcid Hok.
    unfold HandleChaincodeStream. cbn [processStream processStream_turn].
    unfold bind at 1. unfold processStream_handle. unfold bind at 1.
    rewrite (HandleMessage_REGISTER env msg newChaincodeSupportHandler Hty eq_refl), Hcid.
    unfold registerError in Hok. rewrite Hcid in Hok.
    destruct (registerHandler env chaincodeID); [done|].
    destruct (Send env REGISTERED_msg); [done|].
    cbv beta iota delta [bind ret].
    destruct in2; rewrite processStream_return_spec;
      (eexists; split; [reflexivity|]; done).
Qed.

(** Witness for X29: the worker registers, then the stream is closed. *)
Lemma HandleChaincodeStream_first_frame_witness :
  exists h',
    HandleChaincodeStream (sampleEnv None [])
      [msgAvail (Some (mkMsg ChaincodeMessage_REGISTER "cc" "")) None;
       msgAvail None (Some (errorString "EOF"))]
    = Ret (Some (errorString "EOF")) h' /\
    trace h' = [A_registerHandler "cc"; A_Send REGISTERED_msg; A_deregisterHandler] /\
    FSM_current h' = establishedstate.
Proof.
  exact (proj2 (HandleChaincodeStream_first_frame (sampleEnv None [])
                  (mkMsg ChaincodeMessage_REGISTER "cc" "") [] eq_refl)
               "cc" None (errorString "EOF") eq_refl eq_refl eq_refl).
Defined.

(** ** The guard is released *)

Lemma guardFrame_refl h : guardFrame h h.
Proof. reflexivity. Qed.

Lemma guardFrame_trans h1 h2 h3 : guardFrame h1 h2 -> guardFrame h2 h3 -> guardFrame h1 h3.
Proof. unfold guardFrame. congruence. Qed.

(** One step of a proof that a computation keeps [guardFrame]. *)
Ltac gk_step :=
  first
    [ apply (keeps_ret _ guardFrame_refl) | apply (keeps_get _ guardFrame_refl)
    | apply (keeps_panic _ guardFrame_refl) | apply (keeps_block _ guardFrame_refl)
    | apply (keeps_deref _ guardFrame_refl)
    | apply keeps_modify; intros ?; reflexivity
    | lazymatch goal with
      | |- keeps _ (bind _ _) => apply (keeps_bind _ guardFrame_trans); [|intros ?]
      | |- keeps _ (if ?b then _ else _) => destruct b
      | |- keeps _ (match ?x with Some _ => _ | None => _ end) => destruct x
      | |- keeps _ (match ?x with ok _ => _ | fail _ => _ end) => destruct x
      | |- keeps _ (match ?x with LoopReturn _ => _ | LoopDone _ _ => _ end) => destruct x
      | |- keeps _ (let '(_, _) := ?x in _) => destruct x
      end ].

Create HintDb guardframe.

Ltac gk_unfold :=
  progress unfold getIsTransaction, serialSend, emit, getTxContext, load_txContext,
    store_txContext, putRangeQueryIterator, getRangeQueryIterator,
    deleteRangeQueryIterator, new_iterator, rangeIter_Next, rangeIter_GetKeyValue,
    rangeIter_Close, util_GenerateUUID, Error_of, triggerNextState, rangeQueryReply.

Ltac gk :=
  repeat (cbv beta zeta; first [solve [auto with guardframe] | gk_step | gk_unfold]).

Lemma gk_encryptOrDecrypt env b uuid payload :
  keeps guardFrame (encryptOrDecrypt env b uuid payload).
Proof.
  eapply (keeps_pure _ guardFrame_refl). intros h. apply encryptOrDecrypt_pure.
Qed.

Lemma gk_decrypt env uuid payload : keeps guardFrame (decrypt env uuid payload).
Proof. apply gk_encryptOrDecrypt. Qed.

Lemma gk_encrypt env uuid payload : keeps guardFrame (encrypt env uuid payload).
Proof. apply gk_encryptOrDecrypt. Qed.

#[local] Hint Resolve gk_decrypt gk_encrypt : guardframe.

Lemma gk_rangeQueryLoop env n msg unmarshalErr txContext iterID rangeIter kvs hasNext :
  keeps guardFrame
    (rangeQueryLoop env n msg unmarshalErr txContext iterID rangeIter kvs hasNext).
Proof.
  revert kvs hasNext. induction n as [|n IH]; intros kvs hasNext; cbn [rangeQueryLoop].
  - gk.
  - destruct (negb hasNext); [gk|].
    apply (keeps_bind _ guardFrame_trans); [gk|intros kv].
    apply (keeps_bind _ guardFrame_trans); [gk|intros [d|err]].
    + apply (keeps_bind _ guardFrame_trans); [gk|intros hasNext']. apply IH.
    + gk.
Qed.

#[local] Hint Resolve gk_rangeQueryLoop : guardframe.

Lemma deleteUUIDEntry_ends {A} uuid (rest : M A) h g :
  uuidMap h = Some g -> keeps guardFrame rest ->
  ends (fun h' => uuidMap h' = Some (delete uuid g)) ((run deleteUUIDEntry uuid; rest) h).
Proof.
  intros Hg Hrest. unfold deleteUUIDEntry.
  cbv beta iota delta [bind get modify]. rewrite Hg.
  specialize (Hrest (set_uuidMap (Some (delete uuid g)) h)).
  by destruct (rest _).
Qed.

Lemma guarded_ends {A} (body : M A) deferred uuid h gm :
  uuidMap h = Some gm -> default false (gm !! uuid) = false ->
  keeps guardFrame body ->
  (forall o h1 g, uuidMap h1 = Some g ->
     ends (fun h' => uuidMap h' = Some (delete uuid g)) (deferred o h1)) ->
  ends (fun h' => forall u, guardOf h' u = guardOf h u)
       ((do uniqueReq <- createUUIDEntry uuid;
         if negb uniqueReq then ret tt else with_defer body deferred) h).
Proof.
  intros Hgm Hfree Hbody Hdef. unfold bind at 1.
  rewrite (createUUIDEntry_free _ _ _ Hgm Hfree). cbn [negb].
  assert (Hfin : forall h', uuidMap h' = Some (delete uuid (<[uuid := true]> gm)) ->
                            forall u, guardOf h' u = guardOf h u).
  { intros h' Hh' u. unfold guardOf. rewrite Hh', Hgm.
    destruct (decide (u = uuid)) as [->|Hne].
    - by rewrite lookup_delete_eq, Hfree.
    - by rewrite lookup_delete_ne, lookup_insert_ne. }
  unfold with_defer, with_defer_ret, bind, ret.
  specialize (Hbody (guardTaken uuid gm h)).
  destruct (body (guardTaken uuid gm h)) as [a h1|h1|h1]; [| |done]; cbn [final] in Hbody.
  - specialize (Hdef (Some a) h1 _ Hbody).
    destruct (deferred (Some a) h1); cbn [ends] in *; auto.
  - specialize (Hdef None h1 _ Hbody).
    destruct (deferred None h1); cbn [ends] in *; auto.
Qed.

Lemma deferred_serialSend_ends env uuid o h1 g :
  uuidMap h1 = Some g ->
  ends (fun h' => uuidMap h' = Some (delete uuid g)) (deferred_serialSend env uuid o h1).
Proof.
  intros Hg. unfold deferred_serialSend. apply deleteUUIDEntry_ends; [done|]. gk.
Qed.

Lemma guarded_task_ends {A} (body : M A) deferred uuid h :
  keeps guardFrame body ->
  (forall o h1 g, uuidMap h1 = Some g ->
     ends (fun h' => uuidMap h' = Some (delete uuid g)) (deferred o h1)) ->
  ends (fun h' => forall u, guardOf h' u = guardOf h u)
       ((do uniqueReq <- createUUIDEntry uuid;
         if negb uniqueReq then ret tt else with_defer body deferred) h).
Proof.
  intros Hbody Hdef.
  destruct (uuidMap h) as [gm|] eqn:Hgm.
  - destruct (default false (gm !! uuid)) eqn:Hfree.
    + unfold createUUIDEntry. cbv beta iota delta [bind get ret].
      rewrite Hgm, Hfree. cbn. done.
    + by apply (guarded_ends body deferred uuid h gm).
  - unfold createUUIDEntry. cbv beta iota delta [bind get ret]. rewrite Hgm. cbn. done.
Qed.

(** X30. Every goroutine of the handler (the four read actions, the
    goroutine of [enterBusyState] and [handleQueryChaincode]) leaves the
    guard table as it found it, whatever the request, the state of the
    handler and the answers of the environment: when it returns, and also
    when it panics, the guard it took for its uuid has been released by its
    deferred function, and no other guard was touched.  A request dropped
    because the guard of its uuid is held leaves that guard held. *)
Theorem guard_released (env : Environment) (t : Task) (h : Handler) :
  ends (fun h' => forall u, guardOf h' u = guardOf h u) (run_task env t h).
Proof.
  destruct t as [msg|msg|msg|msg|e state|msg]; cbn [run_task].
  - unfold handleGetState_task. apply guarded_task_ends; [gk|].
    intros o h1 g Hg. by apply deferred_serialSend_ends.
  - unfold handleRangeQueryState_task. apply guarded_task_ends; [gk|].
    intros o h1 g Hg. by apply deferred_serialSend_ends.
  - unfold handleRangeQueryStateNext_task. apply guarded_task_ends; [gk|].
    intros o h1 g Hg. by apply deferred_serialSend_ends.
  - unfold handleRangeQueryStateClose_task. apply guarded_task_ends; [gk|].
    intros o h1 g Hg. by apply deferred_serialSend_ends.
  - unfold enterBusyState_task, Args0.
    destruct (ev_Args e) as [|[[m|]|] rest]; try done.
    rewrite (bind_Ret (ret (I_msg (Some m))) _ h _ h eq_refl).
    cbv beta iota delta [assert_ChaincodeMessage].
    rewrite (bind_Ret (deref (Some m)) _ h m h eq_refl).
    rewrite (bind_Ret _ _ _ _ _ (getIsTransaction_spec (Uuid m) h)).
    destruct (isTransactionMark h (Uuid m)); cbn [negb]; [|done].
    apply guarded_task_ends; [gk|].
    intros o h1 g Hg. apply deleteUUIDEntry_ends; [done|]. gk.
  - unfold handleQueryChaincode_task. apply guarded_task_ends; [gk|].
    intros o h1 g Hg. apply deleteUUIDEntry_ends; [done|]. gk.
Qed.
